(** * LDAPAuthenticator: a shallow embedding of
      [ldapauthenticator/ldapauthenticator.py]

    The class talks to a directory server through [ldap3]; every call
    that reaches the server ([ldap3.Connection(...)], [conn.bind()],
    [conn.search(...)]) is an operation node of a small free monad
    [prog], so that "no directory operation is attempted" and "the
    operations happen in this order" are statements about the trace of
    a run against an arbitrary server.  Log calls are not modelled;
    the text that the bind loop builds for [log.debug] is, because
    formatting it can raise. *)

From stdpp Require Import base option list strings gmap sets.
From Stdlib Require Import ZArith Ascii String.

Open Scope string_scope.
Open Scope list_scope.

(** ** Python strings *)

Module Py.

(** [str.isspace] on one code point; strings are modelled with code
    points below 256. *)
Definition isspace (c : ascii) : bool :=
  let n := nat_of_ascii c in
  (Nat.leb 9 n && Nat.leb n 13) || (Nat.leb 28 n && Nat.leb n 32)
  || Nat.eqb n 133 || Nat.eqb n 160.

Fixpoint lstrip (s : string) : string :=
  match s with
  | EmptyString => EmptyString
  | String c s' => if isspace c then lstrip s' else s
  end.

Fixpoint rstrip (s : string) : string :=
  match s with
  | EmptyString => EmptyString
  | String c s' =>
      match rstrip s' with
      | EmptyString => if isspace c then EmptyString else String c EmptyString
      | t => String c t
      end
  end.

(** [s.strip()] *)
Definition strip (s : string) : string := rstrip (lstrip s).


(** [bool(s)] for a string. *)
Definition truthy (s : string) : bool :=
  match s with EmptyString => false | _ => true end.

(** [bool(l)] for a list. *)
Definition nonempty {A} (l : list A) : bool :=
  match l with [] => false | _ => true end.

(** [str(x)] for a value that is a string or [None]. *)
Definition str_of (o : option string) : string := default "None" o.

(** [str(b)] for a boolean. *)
Definition str_of_bool (b : bool) : string := if b then "True" else "False".

End Py.

(** ** Exceptions *)

Inductive exn : Type :=
| LDAPBindError (exc_type exc_msg : string)
    (* [ldap3.core.exceptions.LDAPBindError] or a subclass:
       [exc.__class__.__name__] and [exc.args[0] if exc.args else ""] *)
| LDAPException (exc_type : string)   (* any other exception of a directory call *)
| KeyError (key : string)
| IndexError
| ValueError
| AttributeError.

Definition is_LDAPBindError (e : exn) : bool :=
  match e with LDAPBindError _ _ => true | _ => false end.

(** ** Configuration *)

Inductive TlsStrategy : Type := before_bind | on_connect | insecure.

Inductive auto_bind_mode : Type := AUTO_BIND_NO_TLS | AUTO_BIND_TLS_BEFORE_BIND.

Inductive search_scope : Type := BASE | SUBTREE.

(** The traits of the class that [authenticate] and [check_allowed]
    read.  [allow_all] is [None] when the attribute does not exist
    (JupyterHub < 5); [allowed_users] is the host's trait.
    [server_port] is the value that the object stores for the trait:
    the one assigned or configured, or the dynamic default once a read
    has computed it (traitlets keeps it from then on); it is [None]
    as long as the trait has no stored value. *)
Record LDAPAuthenticator : Type := {
  server_address : string;
  server_port : option Z;
  tls_strategy : TlsStrategy;
  bind_dn_template : list string;
  allowed_groups : option (list string);
  group_search_filter : string;
  group_attributes : list string;
  valid_username_regex : string;
  lookup_dn : bool;
  user_search_base : option string;
  user_attribute : option string;
  lookup_dn_search_filter : option string;
  lookup_dn_search_user : option string;
  lookup_dn_search_password : option string;
  lookup_dn_user_dn_attribute : option string;
  search_filter : string;
  attributes : list string;
  auth_state_attributes : list string;
  use_lookup_dn_username : bool;
  allow_all : option bool;
  allowed_users : gset string
}.

(** [_server_port_default] *)
Definition _server_port_default (self : LDAPAuthenticator) : Z :=
  match tls_strategy self with
  | on_connect => 636
  | _ => 389
  end%Z.

(** Reading [self.server_port]: the stored value; when there is none,
    [_server_port_default] is called and its result is stored.  The
    answer is the value read and the object after the read. *)
Definition read_server_port (self : LDAPAuthenticator)
  : Z * LDAPAuthenticator :=
  match server_port self with
  | Some port => (port, self)
  | None =>
      let port := _server_port_default self in
      (port,
       {| server_address := server_address self;
          server_port := Some port;
          tls_strategy := tls_strategy self;
          bind_dn_template := bind_dn_template self;
          allowed_groups := allowed_groups self;
          group_search_filter := group_search_filter self;
          group_attributes := group_attributes self;
          valid_username_regex := valid_username_regex self;
          lookup_dn := lookup_dn self;
          user_search_base := user_search_base self;
          user_attribute := user_attribute self;
          lookup_dn_search_filter := lookup_dn_search_filter self;
          lookup_dn_search_user := lookup_dn_search_user self;
          lookup_dn_search_password := lookup_dn_search_password self;
          lookup_dn_user_dn_attribute := lookup_dn_user_dn_attribute self;
          search_filter := search_filter self;
          attributes := attributes self;
          auth_state_attributes := auth_state_attributes self;
          use_lookup_dn_username := use_lookup_dn_username self;
          allow_all := allow_all self;
          allowed_users := allowed_users self |})
  end.

(** The value that a read of [self.server_port] gives.  Within one
    [authenticate] nothing assigns [tls_strategy] or [server_port], so
    every read of the run gives this value, the first one included. *)
Definition port_of (self : LDAPAuthenticator) : Z :=
  (read_server_port self).1.

(** The value proposed for the [Union([List(), Unicode()])] trait. *)
Inductive proposal : Type :=
| ProposedStr (value : string)
| ProposedList (value : list string).

(** [_validate_bind_dn_template]:
<<
    rv = []
    if isinstance(proposal.value, str):
        rv = [proposal.value]
    if "" in rv:
        rv = [e for e in rv if e]
    return rv
>> *)
Definition _validate_bind_dn_template (p : proposal) : list string :=
  let rv : list string := [] in
  let rv := match p with ProposedStr value => [value] | ProposedList _ => rv end in
  if bool_decide ("" ∈ rv) then filter (λ e, Py.truthy e = true) rv else rv.

(** Assigning the trait: the validator's result is what is stored. *)
Definition set_bind_dn_template (self : LDAPAuthenticator) (p : proposal)
  : LDAPAuthenticator :=
  {| server_address := server_address self;
     server_port := server_port self;
     tls_strategy := tls_strategy self;
     bind_dn_template := _validate_bind_dn_template p;
     allowed_groups := allowed_groups self;
     group_search_filter := group_search_filter self;
     group_attributes := group_attributes self;
     valid_username_regex := valid_username_regex self;
     lookup_dn := lookup_dn self;
     user_search_base := user_search_base self;
     user_attribute := user_attribute self;
     lookup_dn_search_filter := lookup_dn_search_filter self;
     lookup_dn_search_user := lookup_dn_search_user self;
     lookup_dn_search_password := lookup_dn_search_password self;
     lookup_dn_user_dn_attribute := lookup_dn_user_dn_attribute self;
     search_filter := search_filter self;
     attributes := attributes self;
     auth_state_attributes := auth_state_attributes self;
     use_lookup_dn_username := use_lookup_dn_username self;
     allow_all := allow_all self;
     allowed_users := allowed_users self |}.

(** ** Directory data *)

(** The value of an attribute in a response entry: one string or a list. *)
Inductive attr_value : Type :=
| AttrStr (s : string)
| AttrList (l : list string).

(** One element of [conn.response], a dict: the keys ["dn"] and
    ["attributes"] may be missing (a search reference has neither). *)
Record response_entry : Type := {
  entry_dn : option string;
  entry_attributes : option (gmap string attr_value)
}.

Record connection : Type := {
  conn_id : nat;
  conn_bound : bool          (* [conn.bound] once the object is built *)
}.

(** The arguments of one [get_connection]: those given to
    [ldap3.Server] ([host], [port], [use_ssl]) and to
    [ldap3.Connection] ([auto_bind], [user], [password]).  What ldap3
    makes of them (a URL in [host] carries its own scheme and port) is
    not part of the model. *)
Record conn_request : Type := {
  rq_address : string;
  rq_port : Z;
  rq_use_ssl : bool;
  rq_auto_bind : auto_bind_mode;
  rq_user : option string;
  rq_password : option string
}.

Record search_request : Type := {
  rq_base : option string;
  rq_scope : search_scope;
  rq_filter : string;
  rq_attributes : list (option string)
}.

(** What a search leaves behind: the value returned by [conn.search],
    [conn.response] and [conn.entries] (each entry as its
    [entry_attributes_as_dict]). *)
Record search_result : Type := {
  found : bool;
  response : list response_entry;
  entries : list (gmap string (list string))
}.

(** ** Results of [authenticate] *)

Record AuthState : Type := {
  ldap_groups : option (list string);
  user_attributes : gmap string (list string)
}.

Record AuthModel : Type := {
  name : string;
  auth_state : option AuthState
}.

Record LoginData : Type := {
  data_username : string;
  data_password : option string
}.

(** ** What the class imports

    [re.match], [str.format], ldap3's [escape_rdn] and
    [escape_filter_chars], and the host's [Authenticator.check_allowed]
    are not code of this class: the development is parametric in them.
    [str_format t kw] is [t.format] called with the keyword
    arguments [kw], every value already a string; it answers an exception where Python raises one. *)
(** The string of one line feed. *)
Definition line_feed : string := String (ascii_of_nat 10) EmptyString.

(** The text that a round of the bind loop starts its message with. *)
Definition status_msg : string :=
  "Status of user bind {username} with {userdn} : {is_bound}".

(** The message of a round whose connection raised [exc], before it is
    formatted: [msg += "\n{exc_type}: {exc_msg}".format(...)] appends
    the class name and the first argument of the exception as they
    are. *)
Definition status_of_error (exc : exn) : string :=
  match exc with
  | LDAPBindError exc_type exc_msg =>
      status_msg +:+ line_feed +:+ exc_type +:+ ": " +:+ exc_msg
  | _ => status_msg
  end.

(** The keyword arguments of [msg.format] in the bind loop. *)
Definition status_fields (username userdn : string) (is_bound : bool)
  : list (string * string) :=
  [("username", username); ("userdn", userdn);
   ("is_bound", Py.str_of_bool is_bound)].

Class Externals : Type := {
  re_match : string → string → bool;   (* [re.match(pattern, s)] is not [None] *)
  str_format : string → list (string * string) → exn + string;
  escape_rdn : string → string;
  escape_filter_chars : string → string;
  super_check_allowed : LDAPAuthenticator → string → AuthModel → bool;
  (* [status_msg] has the three replacement fields [username], [userdn]
     and [is_bound] and nothing else in braces: formatting it with these
     three keywords does not raise *)
  str_format_status : ∀ username userdn is_bound,
    ∃ msg, str_format status_msg (status_fields username userdn is_bound)
           = inr msg
}.

(** ** Programs that talk to the directory *)

(** The place in the source a directory call is made from. *)
Inductive site : Type :=
| AtLookup            (* [resolve_username] *)
| AtUserBind          (* the loop over [bind_dn_template] *)
| AtSearchFilter      (* the [search_filter] search *)
| AtGroupProbe        (* the loop over [allowed_groups] *)
| AtUserAttributes.   (* [get_user_attributes] *)

Global Instance site_eq_dec : EqDecision site.
Proof. solve_decision. Defined.

Inductive prog (A : Type) : Type :=
| Ret (a : A)
| Raise (e : exn)
| Connect (s : site) (rq : conn_request) (k : exn + connection → prog A)
| BindOp (s : site) (c : connection) (k : exn + bool → prog A)
| SearchOp (s : site) (c : connection) (rq : search_request)
           (k : exn + search_result → prog A).

Arguments Ret {A} a.
Arguments Raise {A} e.
Arguments Connect {A} s rq k.
Arguments BindOp {A} s c k.
Arguments SearchOp {A} s c rq k.

Fixpoint prog_bind {A B} (f : A → prog B) (m : prog A) : prog B :=
  match m with
  | Ret a => f a
  | Raise e => Raise e
  | Connect s rq k => Connect s rq (λ x, prog_bind f (k x))
  | BindOp s c k => BindOp s c (λ x, prog_bind f (k x))
  | SearchOp s c rq k => SearchOp s c rq (λ x, prog_bind f (k x))
  end.

Global Instance prog_ret : MRet prog := @Ret.
Global Instance prog_mbind : MBind prog := @prog_bind.

(** A value or the exception raised in its place. *)
Definition lift {A} (x : exn + A) : prog A :=
  match x with inl e => Raise e | inr a => Ret a end.

(** [try: m] with the exception, if any, handed to the caller. *)
Fixpoint attempt {A} (m : prog A) : prog (exn + A) :=
  match m with
  | Ret a => Ret (inr a)
  | Raise e => Ret (inl e)
  | Connect s rq k => Connect s rq (λ x, attempt (k x))
  | BindOp s c k => BindOp s c (λ x, attempt (k x))
  | SearchOp s c rq k => SearchOp s c rq (λ x, attempt (k x))
  end.

(** [ldap3.Connection(...)], [conn.bind()], [conn.search(...)] *)
Definition ldap3_Connection (s : site) (rq : conn_request) : prog connection :=
  Connect s rq lift.
Definition conn_bind (s : site) (c : connection) : prog bool :=
  BindOp s c lift.
Definition conn_search (s : site) (c : connection) (rq : search_request)
  : prog search_result :=
  SearchOp s c rq lift.

(** *** Runs *)

Inductive result (A : Type) : Type :=
| Returned (a : A)
| Raised (e : exn).
Arguments Returned {A} a.
Arguments Raised {A} e.

(** One directory call with the answer it got. *)
Inductive event : Type :=
| EvConnect (s : site) (rq : conn_request) (ans : exn + connection)
| EvBind (s : site) (c : connection) (ans : exn + bool)
| EvSearch (s : site) (c : connection) (rq : search_request)
           (ans : exn + search_result).

Definition ev_site (ev : event) : site :=
  match ev with
  | EvConnect s _ _ | EvBind s _ _ | EvSearch s _ _ _ => s
  end.

(** A directory server with state [W]; it does not see the call site. *)
Record handler (W : Type) : Type := {
  serve_connect : W → conn_request → (exn + connection) * W;
  serve_bind : W → connection → (exn + bool) * W;
  serve_search : W → connection → search_request → (exn + search_result) * W
}.
Arguments serve_connect {W} h.
Arguments serve_bind {W} h.
Arguments serve_search {W} h.

Fixpoint run {W A} (h : handler W) (w : W) (p : prog A)
  : result A * list event * W :=
  match p with
  | Ret a => (Returned a, [], w)
  | Raise e => (Raised e, [], w)
  | Connect s rq k =>
      let '(ans, w1) := serve_connect h w rq in
      let '(r, tr, w2) := run h w1 (k ans) in
      (r, EvConnect s rq ans :: tr, w2)
  | BindOp s c k =>
      let '(ans, w1) := serve_bind h w c in
      let '(r, tr, w2) := run h w1 (k ans) in
      (r, EvBind s c ans :: tr, w2)
  | SearchOp s c rq k =>
      let '(ans, w1) := serve_search h w c rq in
      let '(r, tr, w2) := run h w1 (k ans) in
      (r, EvSearch s c rq ans :: tr, w2)
  end.

(** [runs p tr r]: [p] may exchange the calls and answers [tr] with the
    directory and then end with [r]. *)
Inductive runs {A} : prog A → list event → result A → Prop :=
| runs_Ret a : runs (Ret a) [] (Returned a)
| runs_Raise e : runs (Raise e) [] (Raised e)
| runs_Connect s rq k ans tr r :
    runs (k ans) tr r → runs (Connect s rq k) (EvConnect s rq ans :: tr) r
| runs_BindOp s c k ans tr r :
    runs (k ans) tr r → runs (BindOp s c k) (EvBind s c ans :: tr) r
| runs_SearchOp s c rq k ans tr r :
    runs (k ans) tr r → runs (SearchOp s c rq k) (EvSearch s c rq ans :: tr) r.

(** Every call of [p] is made from a site in [P]. *)
Inductive calls_from {A} (P : site → Prop) : prog A → Prop :=
| cf_Ret a : calls_from P (Ret a)
| cf_Raise e : calls_from P (Raise e)
| cf_Connect s rq k :
    P s → (∀ ans, calls_from P (k ans)) → calls_from P (Connect s rq k)
| cf_BindOp s c k :
    P s → (∀ ans, calls_from P (k ans)) → calls_from P (BindOp s c k)
| cf_SearchOp s c rq k :
    P s → (∀ ans, calls_from P (k ans)) → calls_from P (SearchOp s c rq k).

(** ** The class *)

Section Authenticator.
Context `{Externals}.

(** [get_connection] *)
Definition get_connection (self : LDAPAuthenticator) (s : site)
    (userdn password : option string) : prog connection :=
  let '(use_ssl, auto_bind) :=
    match tls_strategy self with
    | on_connect => (true, AUTO_BIND_NO_TLS)
    | before_bind => (false, AUTO_BIND_TLS_BEFORE_BIND)
    | insecure => (false, AUTO_BIND_NO_TLS)
    end in
  ldap3_Connection s
    {| rq_address := server_address self;
       rq_port := port_of self;
       rq_use_ssl := use_ssl;
       rq_auto_bind := auto_bind;
       rq_user := userdn;
       rq_password := password |}.

(** [resolve_username] from [response = conn.response] to the end. *)
Definition resolve_response (self : LDAPAuthenticator) (res : search_result)
  : prog (option string * option string) :=
  match response res with
  | [] => mret (None, None)
  | first :: _ =>
      match entry_attributes first with
      | None => mret (None, None)
      | Some attrs =>
          user_dn ← lift (from_option inr
                            (inl (KeyError (Py.str_of (lookup_dn_user_dn_attribute self))))
                            (lookup_dn_user_dn_attribute self ≫= (attrs !!.)));
          match user_dn with
          | AttrList [] => mret (None, None)
          | AttrList (user_dn :: _) | AttrStr user_dn =>
              dn ← lift (from_option inr (inl (KeyError "dn")) (entry_dn first));
              mret (Some user_dn, Some dn)
          end
      end
  end.

(** The search that [resolve_username] makes. *)
Definition lookup_request (self : LDAPAuthenticator) (search_filter : string)
  : search_request :=
  {| rq_base := user_search_base self;
     rq_scope := SUBTREE;
     rq_filter := search_filter;
     rq_attributes := [lookup_dn_user_dn_attribute self] |}.

(** [resolve_username] *)
Definition resolve_username (self : LDAPAuthenticator)
    (username_supplied_by_user : string)
  : prog (option string * option string) :=
  conn ← get_connection self AtLookup
            (lookup_dn_search_user self) (lookup_dn_search_password self);
  bound ← conn_bind AtLookup conn;
  if negb bound then mret (None, None) else
  template ← lift (from_option inr (inl AttributeError)
                     (lookup_dn_search_filter self));
  search_filter ← lift (str_format template
      [("login_attr", Py.str_of (user_attribute self));
       ("login", escape_filter_chars username_supplied_by_user)]);
  res ← conn_search AtLookup conn (lookup_request self search_filter);
  resolve_response self res.

(** [get_user_attributes] *)
Definition get_user_attributes (self : LDAPAuthenticator)
    (conn : connection) (userdn : string) : prog (gmap string (list string)) :=
  let attrs : gmap string (list string) := ∅ in
  if Py.nonempty (auth_state_attributes self) then
    res ← conn_search AtUserAttributes conn
        {| rq_base := Some userdn;
           rq_scope := SUBTREE;
           rq_filter := "(objectClass=*)";
           rq_attributes := Some <$> auth_state_attributes self |};
    if found res then
      lift (from_option inr (inl IndexError) (head (entries res)))
    else mret attrs
  else mret attrs.

(** The loop over [bind_dn_template] in [authenticate].  It answers
    [Some (conn, userdn)] when it is left by [break], with the
    connection and the DN of that round, and [None] when it ends with
    [is_bound] false.  Each round ends with
    [msg = msg.format(username=..., userdn=..., is_bound=...)] on the
    text it built: [status_msg], with the text of the exception after
    it when the connection raised [LDAPBindError]; the formatted text
    is only logged, but the formatting can raise. *)
Fixpoint bind_loop (self : LDAPAuthenticator) (username password : string)
    (bind_dn_template : list string) : prog (option (connection * string)) :=
  match bind_dn_template with
  | [] => mret None
  | dn :: rest =>
      userdn ← lift (str_format dn [("username", escape_rdn username)]);
      r ← attempt (get_connection self AtUserBind (Some userdn) (Some password));
      match r with
      | inl exc =>
          if is_LDAPBindError exc
          then
            _ ← lift (str_format (status_of_error exc)
                        (status_fields username userdn false));
            bind_loop self username password rest
          else Raise exc
      | inr conn =>
          is_bound ← (if conn_bound conn then mret true
                      else conn_bind AtUserBind conn);
          _ ← lift (str_format status_msg
                      (status_fields username userdn is_bound));
          if is_bound : bool then mret (Some (conn, userdn))
          else bind_loop self username password rest
      end
  end.

(** The loop over [allowed_groups] in [authenticate]; it answers
    [ldap_groups]. *)
Fixpoint probe_groups (self : LDAPAuthenticator) (conn : connection)
    (userdn username : string) (groups : list string) : prog (list string) :=
  match groups with
  | [] => mret []
  | group :: rest =>
      group_filter ← lift (str_format (group_search_filter self)
          [("userdn", escape_filter_chars userdn);
           ("uid", escape_filter_chars username)]);
      res ← conn_search AtGroupProbe conn
          {| rq_base := Some group;
             rq_scope := BASE;
             rq_filter := group_filter;
             rq_attributes := Some <$> group_attributes self |};
      if found res then mret [group]
      else probe_groups self conn userdn username rest
  end.

(** [authenticate] from [if not self.use_lookup_dn_username:] to the end. *)
Definition authenticate_finish (self : LDAPAuthenticator) (data : LoginData)
    (username : string) (conn : connection) (userdn : string)
    (ldap_groups : list string) : prog (option AuthModel) :=
  let username :=
    if negb (use_lookup_dn_username self) then data_username data
    else username in
  user_attributes ← get_user_attributes self conn userdn;
  mret (Some {| name := username;
                auth_state := Some {| ldap_groups := Some ldap_groups;
                                      user_attributes := user_attributes |} |}).

(** [authenticate] from [ldap_groups = []] to the end. *)
Definition authenticate_groups (self : LDAPAuthenticator) (data : LoginData)
    (username : string) (conn : connection) (userdn : string)
  : prog (option AuthModel) :=
  let groups := default [] (allowed_groups self) in
  if Py.nonempty groups then
    if negb (Py.truthy (group_search_filter self))
       || negb (Py.nonempty (group_attributes self))
    then mret None
    else
      ldap_groups ← probe_groups self conn userdn username groups;
      authenticate_finish self data username conn userdn ldap_groups
  else authenticate_finish self data username conn userdn [].

(** [authenticate] from [if self.search_filter:] to the end. *)
Definition authenticate_bound (self : LDAPAuthenticator) (data : LoginData)
    (username : string) (conn : connection) (userdn : string)
  : prog (option AuthModel) :=
  if Py.truthy (search_filter self) then
    user_filter ← lift (str_format (search_filter self)
        [("userattr", Py.str_of (user_attribute self));
         ("username", escape_filter_chars username)]);
    res ← conn_search AtSearchFilter conn
        {| rq_base := user_search_base self;
           rq_scope := SUBTREE;
           rq_filter := user_filter;
           rq_attributes := Some <$> attributes self |};
    let n_users := List.length (response res) in
    if Nat.eqb n_users 0 then mret None
    else if Nat.ltb 1 n_users then mret None
    else authenticate_groups self data username conn userdn
  else authenticate_groups self data username conn userdn.

(** [authenticate] from [is_bound = False] to the end. *)
Definition authenticate_candidates (self : LDAPAuthenticator) (data : LoginData)
    (username password : string) (bind_dn_template : list string)
  : prog (option AuthModel) :=
  bound ← bind_loop self username password bind_dn_template;
  match bound with
  | None => mret None
  | Some (conn, userdn) => authenticate_bound self data username conn userdn
  end.

(** [authenticate] *)
Definition authenticate (self : LDAPAuthenticator) (data : LoginData)
  : prog (option AuthModel) :=
  let username := data_username data in
  let password := data_password data in
  if negb (re_match (valid_username_regex self) username) then mret None else
  match password with
  | None => mret None
  | Some password =>
      if negb (Py.truthy (Py.strip password)) then mret None else
      if negb (lookup_dn self) && negb (Py.nonempty (bind_dn_template self))
      then mret None else
      let bind_dn_template := bind_dn_template self in
      if lookup_dn self then
        resolved ← resolve_username self username;
        match resolved with
        | (None, _) => mret None
        | (Some username, resolved_dn) =>
            if negb (Py.truthy username) then mret None else
            if negb (Py.nonempty bind_dn_template) then
              (* [bind_dn_template = [resolved_dn]]; [None.format] would
                 raise in the first round of the loop *)
              resolved_dn ← lift (from_option inr (inl AttributeError) resolved_dn);
              authenticate_candidates self data username password [resolved_dn]
            else
              authenticate_candidates self data username password bind_dn_template
        end
      else
        authenticate_candidates self data username password bind_dn_template
  end.

(** The loop over [allowed_groups] in [check_allowed]. *)
Fixpoint in_allowed_group (groups : list string) (in_groups : gset string)
  : bool :=
  match groups with
  | [] => false
  | group :: rest =>
      if bool_decide (group ∈ in_groups) then true
      else in_allowed_group rest in_groups
  end.

(** [check_allowed] *)
Definition check_allowed (self : LDAPAuthenticator) (username : string)
    (auth_model : AuthModel) : prog bool :=
  let allowed_groups := default [] (allowed_groups self) in
  let groups_and_filter : prog bool :=
    if Py.nonempty allowed_groups
       && in_allowed_group allowed_groups
            (list_to_set (default [] (auth_state auth_model ≫= ldap_groups)))
    then mret true
    else mret false in
  match allow_all self with
  | None =>
      (* [not hasattr(self, "allow_all")] *)
      if bool_decide (allowed_users self = ∅) && negb (Py.nonempty allowed_groups)
      then mret true
      else if negb (bool_decide (allowed_users self = ∅))
              && bool_decide (username ∈ allowed_users self)
      then mret true
      else groups_and_filter
  | Some _ =>
      let allowed := super_check_allowed self username auth_model in
      if allowed then mret true else groups_and_filter
  end.

End Authenticator.

(** ** Observing a run *)

Definition result_of {W A} (h : handler W) (w : W) (p : prog A) : result A :=
  (run h w p).1.1.

Definition trace_of {W A} (h : handler W) (w : W) (p : prog A) : list event :=
  (run h w p).1.2.

(** The end of a call whose answer is [ans]. *)
Definition result_of_answer {A} (ans : exn + A) : result A :=
  match ans with inl e => Raised e | inr a => Returned a end.

(** The calls made from site [s], in order. *)
Definition calls_at (s : site) (tr : list event) : list event :=
  filter (λ ev, ev_site ev = s) tr.

(** [ev] is the call of the bind loop that left [conn] bound: the
    connection came back bound, or its [bind()] answered true. *)
Definition is_bound_by (ev : event) (conn : connection) : Prop :=
  match ev with
  | EvConnect AtUserBind _ (inr c) => c = conn ∧ conn_bound c = true
  | EvBind AtUserBind c (inr true) => c = conn ∧ conn_bound c = false
  | _ => False
  end.

(** [ev] is a call of the lookup or of the bind loop that leaves no
    connection bound. *)
Definition unbound_event (ev : event) : Prop :=
  (ev_site ev = AtLookup ∨ ev_site ev = AtUserBind)
  ∧ ∀ conn, ¬ is_bound_by ev conn.

(** [evs] is a bind attempt for [userdn] that failed: the connection
    raised [LDAPBindError], or came back unbound and its [bind()]
    answered false. *)
Definition failed_attempt (userdn : string) (evs : list event) : Prop :=
  match evs with
  | [EvConnect AtUserBind rq (inl exc)] =>
      rq_user rq = Some userdn ∧ is_LDAPBindError exc = true
  | [EvConnect AtUserBind rq (inr c); EvBind AtUserBind c' (inr false)] =>
      rq_user rq = Some userdn ∧ c' = c ∧ conn_bound c = false
  | _ => False
  end.

(** [evs] is a bind attempt for [userdn] that left [conn] bound. *)
Definition successful_attempt (userdn : string) (conn : connection)
    (evs : list event) : Prop :=
  match evs with
  | [EvConnect AtUserBind rq (inr c)] =>
      rq_user rq = Some userdn ∧ c = conn ∧ conn_bound c = true
  | [EvConnect AtUserBind rq (inr c); EvBind AtUserBind c' (inr true)] =>
      rq_user rq = Some userdn ∧ c = conn ∧ c' = c ∧ conn_bound c = false
  | _ => False
  end.

(** [evs] is a bind attempt for [userdn] that ended [authenticate]
    with the exception [e]: the connection raised something other than
    [LDAPBindError], or [bind()] raised. *)
Definition aborted_attempt (userdn : string) (e : exn) (evs : list event)
  : Prop :=
  match evs with
  | [EvConnect AtUserBind rq (inl exc)] =>
      rq_user rq = Some userdn ∧ exc = e ∧ is_LDAPBindError exc = false
  | [EvConnect AtUserBind rq (inr c); EvBind AtUserBind c' (inl exc)] =>
      rq_user rq = Some userdn ∧ c' = c ∧ conn_bound c = false ∧ exc = e
  | _ => False
  end.

(** The run [tr] has come through the bind and, when a search filter
    is configured, through its search: its last call is the search
    that found exactly one entry, or, with no search filter, the call
    that left the connection bound. *)
Definition passed_checks (self : LDAPAuthenticator) (tr : list event) : Prop :=
  ∃ ev, last tr = Some ev ∧
    if Py.truthy (search_filter self) then
      ∃ c rq res, ev = EvSearch AtSearchFilter c rq (inr res)
                  ∧ List.length (response res) = 1
    else ∃ conn, is_bound_by ev conn.

(** [tr] has no call of the group loop or of [get_user_attributes]. *)
Definition before_groups (tr : list event) : Prop :=
  Forall (λ ev, ev_site ev ≠ AtGroupProbe ∧ ev_site ev ≠ AtUserAttributes) tr.

(** [ev] is the base-scoped membership probe of group [g], and the
    search returned [matched]. *)
Definition probe_of (matched : bool) (g : string) (ev : event) : Prop :=
  match ev with
  | EvSearch AtGroupProbe _ rq (inr res) =>
      rq_base rq = Some g ∧ rq_scope rq = BASE ∧ found res = matched
  | _ => False
  end.

(** The user attributes could not be fetched: the search of
    [get_user_attributes] raised [e], or it returned true with no
    entry and [conn.entries[0]] raised [IndexError]. *)
Definition attributes_failed (e : exn) (ev : event) : Prop :=
  match ev with
  | EvSearch AtUserAttributes _ _ (inl exc) => exc = e
  | EvSearch AtUserAttributes _ _ (inr res) =>
      found res = true ∧ entries res = [] ∧ e = IndexError
  | _ => False
  end.

(** The groups recorded in what [authenticate] returned. *)
Definition groups_of (id : AuthModel) : option (list string) :=
  auth_state id ≫= ldap_groups.

(** *** The shape of a run of [authenticate] *)

Section Shapes.
Context `{Externals}.

(** A run [tr], [r] of [authenticate] with user name [u] from the bind
    loop on: every connection of the loop is for a DN made from a
    template with the RDN-escaped [u]; and either no identity is
    returned and no connection was bound, or a successful attempt
    bound [conn] for [userdn] and the rest of the run is that of
    [authenticate_bound]. *)
Definition bind_phase (self : LDAPAuthenticator) (data : LoginData)
    (u : string) (tr : list event) (r : result (option AuthModel)) : Prop :=
  (∀ s rq ans, EvConnect s rq ans ∈ tr → s = AtUserBind →
     ∃ dn userdn, str_format dn [("username", escape_rdn u)] = inr userdn
                  ∧ rq_user rq = Some userdn)
  ∧ (((∀ id, r ≠ Returned (Some id)) ∧ Forall unbound_event tr)
     ∨ ∃ conn userdn tr_pre evs tr_post,
         tr = tr_pre ++ evs ++ tr_post ∧ Forall unbound_event tr_pre
         ∧ successful_attempt userdn conn evs
         ∧ runs (authenticate_bound self data u conn userdn) tr_post r).

(** The bind attempt [evs] for [userdn] failed on [LDAPBindError] and
    the message of the round, with the text of the exception in it,
    was formatted; or it failed on [bind()] answering false. *)
Definition logged_attempt (u userdn : string) (evs : list event) : Prop :=
  match evs with
  | [EvConnect AtUserBind _ (inl exc)] =>
      ∃ msg, str_format (status_of_error exc) (status_fields u userdn false)
             = inr msg
  | _ => True
  end.

(** The bind attempt [evs] for [userdn] failed on [LDAPBindError], and
    formatting the message of the round, with the text of the
    exception in it, raised [e]. *)
Definition unlogged_attempt (u userdn : string) (e : exn) (evs : list event)
  : Prop :=
  match evs with
  | [EvConnect AtUserBind rq (inl exc)] =>
      rq_user rq = Some userdn ∧ is_LDAPBindError exc = true
      ∧ str_format (status_of_error exc) (status_fields u userdn false)
        = inl e
  | _ => False
  end.

End Shapes.

(** ** A sample environment

    One instance of what the class imports and one directory server,
    to run the definitions on concrete inputs. *)

Module Sample.

Definition backslash : ascii := ascii_of_nat 92.
Definition dquote : ascii := ascii_of_nat 34.
Definition nul : ascii := ascii_of_nat 0.
Definition newline : ascii := ascii_of_nat 10.

Definition is_lower (c : ascii) : bool :=
  let n := nat_of_ascii c in Nat.leb 97 n && Nat.leb n 122.
Definition is_digit (c : ascii) : bool :=
  let n := nat_of_ascii c in Nat.leb 48 n && Nat.leb n 57.

(** The default [valid_username_regex]. *)
Definition default_regex : string := "^[a-z][.a-z0-9_-]*$".

(** The tail of a match of the default pattern: [[.a-z0-9_-]*] up to
    the end of the string or to a last newline. *)
Fixpoint default_tail (s : string) : bool :=
  match s with
  | EmptyString => true
  | String c s' =>
      if is_lower c || is_digit c
         || bool_decide (c = "."%char) || bool_decide (c = "_"%char)
         || bool_decide (c = "-"%char)
      then default_tail s'
      else bool_decide (c = newline) && bool_decide (s' = EmptyString)
  end.

Definition default_match (s : string) : bool :=
  match s with
  | EmptyString => false
  | String c s' => is_lower c && default_tail s'
  end.

(** [re.match] for the default pattern only. *)
Definition re_match (pattern s : string) : bool :=
  bool_decide (pattern = default_regex) && default_match s.

Definition all_digits (s : string) : bool :=
  forallb is_digit (list_ascii_of_string s).

(** The value of keyword [name], or the exception for a missing one. *)
Definition field (kw : list (string * string)) (name : string) : exn + string :=
  match list_find (λ kv, kv.1 = name) kw with
  | Some (_, (_, v)) => inr v
  | None => if all_digits name then inl IndexError else inl (KeyError name)
  end.

(** [str.format] with keyword arguments, for templates whose
    replacement fields are plain names: [{{] and [}}] are braces,
    [{name}] is the value of [name]. [open] is the name being read. *)
Fixpoint format_from (kw : list (string * string)) (open : option string)
    (t : string) : exn + string :=
  match t with
  | EmptyString =>
      match open with None => inr EmptyString | Some _ => inl ValueError end
  | String c t' =>
      match open with
      | Some name =>
          if bool_decide (c = "}"%char) then
            match field kw name, format_from kw None t' with
            | inr v, inr rest => inr (v +:+ rest)
            | inl e, _ | _, inl e => inl e
            end
          else format_from kw (Some (name +:+ String c EmptyString)) t'
      | None =>
          if bool_decide (c = "{"%char) then
            match t' with
            | String "{"%char t'' =>
                match format_from kw None t'' with
                | inr rest => inr (String "{"%char rest)
                | inl e => inl e
                end
            | _ => format_from kw (Some EmptyString) t'
            end
          else if bool_decide (c = "}"%char) then
            match t' with
            | String "}"%char t'' =>
                match format_from kw None t'' with
                | inr rest => inr (String "}"%char rest)
                | inl e => inl e
                end
            | _ => inl ValueError
            end
          else
            match format_from kw None t' with
            | inr rest => inr (String c rest)
            | inl e => inl e
            end
      end
  end.

Definition str_format (t : string) (kw : list (string * string)) : exn + string :=
  format_from kw None t.

(** RFC 4515 escaping of a filter value. *)
Fixpoint escape_filter_chars (s : string) : string :=
  match s with
  | EmptyString => EmptyString
  | String c s' =>
      (if bool_decide (c = backslash) then String backslash "5c"
       else if bool_decide (c = "*"%char) then String backslash "2a"
       else if bool_decide (c = "("%char) then String backslash "28"
       else if bool_decide (c = ")"%char) then String backslash "29"
       else if bool_decide (c = nul) then String backslash "00"
       else String c EmptyString) +:+ escape_filter_chars s'
  end.

Definition rdn_special (c : ascii) : bool :=
  bool_decide (c = backslash) || bool_decide (c = ","%char)
  || bool_decide (c = "+"%char) || bool_decide (c = dquote)
  || bool_decide (c = "<"%char) || bool_decide (c = ">"%char)
  || bool_decide (c = ";"%char) || bool_decide (c = "="%char)
  || bool_decide (c = nul).

Fixpoint escape_rdn_chars (s : string) : string :=
  match s with
  | EmptyString => EmptyString
  | String c s' =>
      (if rdn_special c then String backslash (String c EmptyString)
       else String c EmptyString) +:+ escape_rdn_chars s'
  end.

Fixpoint escape_last_space (s : string) : string :=
  match s with
  | EmptyString => EmptyString
  | String c EmptyString =>
      if bool_decide (c = " "%char) then String backslash " " else s
  | String c s' => String c (escape_last_space s')
  end.

(** RFC 4514 escaping of a relative DN value. *)
Definition escape_rdn (s : string) : string :=
  let s := escape_rdn_chars s in
  let s := match s with
           | String c _ =>
               if bool_decide (c = "#"%char) || bool_decide (c = " "%char)
               then String backslash s else s
           | EmptyString => s
           end in
  escape_last_space s.

(** The host's [check_allowed] of JupyterHub 5. *)
Definition super_check_allowed (self : LDAPAuthenticator) (username : string)
    (auth_model : AuthModel) : bool :=
  bool_decide (allow_all self = Some true)
  || bool_decide (username ∈ allowed_users self).

Definition externals : Externals :=
  Build_Externals re_match str_format escape_rdn escape_filter_chars
                  super_check_allowed
                  (λ username userdn is_bound, ex_intro _ _ eq_refl).

(** A directory: the DN and password pairs that bind, and the answers
    to searches by base, scope and filter. *)
Record directory : Type := {
  accounts : list (option string * option string);
  answers : list (option string * search_scope * string * search_result)
}.

Definition no_result : search_result :=
  {| found := false; response := []; entries := [] |}.

Definition bind_failure : exn :=
  LDAPBindError "LDAPBindError" "automatic bind not successful - invalidCredentials".

Global Instance search_scope_eq_dec : EqDecision search_scope.
Proof. solve_decision. Defined.

Definition server (d : directory) : handler unit :=
  {| serve_connect := λ w rq,
       (if bool_decide ((rq_user rq, rq_password rq) ∈ accounts d)
        then inr {| conn_id := 0; conn_bound := true |}
        else inl bind_failure, w);
     serve_bind := λ w c, (inr (conn_bound c), w);
     serve_search := λ w c rq,
       (inr (from_option (λ x, x.2.2) no_result
               (list_find (λ a, a.1 = (rq_base rq, rq_scope rq, rq_filter rq))
                          (answers d))), w) |}.

(** A configuration with the defaults of the class. *)
Definition defaults : LDAPAuthenticator :=
  {| server_address := "ldap.example.org";
     server_port := None;
     tls_strategy := before_bind;
     bind_dn_template := [];
     allowed_groups := None;
     group_search_filter :=
       "(|(member={userdn})(uniqueMember={userdn})(memberUid={uid}))";
     group_attributes := ["member"; "uniqueMember"; "memberUid"];
     valid_username_regex := default_regex;
     lookup_dn := false;
     user_search_base := None;
     user_attribute := None;
     lookup_dn_search_filter := Some "({login_attr}={login})";
     lookup_dn_search_user := None;
     lookup_dn_search_password := None;
     lookup_dn_user_dn_attribute := None;
     search_filter := "";
     attributes := [];
     auth_state_attributes := [];
     use_lookup_dn_username := true;
     allow_all := Some false;
     allowed_users := ∅ |}.

End Sample.

(** ** Scenarios

    Small directories and configurations on which the properties
    below are exercised. *)

Module Scenario.

Definition people : string := "ou=people,dc=example,dc=org".
Definition admins : string := "cn=admins,ou=groups,dc=example,dc=org".
Definition staff : string := "cn=staff,ou=groups,dc=example,dc=org".

(** The defaults of the class with the given templates, lookup flag,
    search filter, allowed groups and group attributes; users are
    looked up by [uid] under [people] and named by [cn]. *)
Definition config (templates : list string) (lookup : bool)
    (filter : string) (groups : option (list string))
    (group_attrs : list string) : LDAPAuthenticator :=
  {| server_address := server_address Sample.defaults;
     server_port := server_port Sample.defaults;
     tls_strategy := tls_strategy Sample.defaults;
     bind_dn_template := templates;
     allowed_groups := groups;
     group_search_filter := group_search_filter Sample.defaults;
     group_attributes := group_attrs;
     valid_username_regex := valid_username_regex Sample.defaults;
     lookup_dn := lookup;
     user_search_base := Some people;
     user_attribute := Some "uid";
     lookup_dn_search_filter := lookup_dn_search_filter Sample.defaults;
     lookup_dn_search_user := None;
     lookup_dn_search_password := None;
     lookup_dn_user_dn_attribute := Some "cn";
     search_filter := filter;
     attributes := attributes Sample.defaults;
     auth_state_attributes := auth_state_attributes Sample.defaults;
     use_lookup_dn_username := use_lookup_dn_username Sample.defaults;
     allow_all := allow_all Sample.defaults;
     allowed_users := allowed_users Sample.defaults |}.

Definition two_templates : list string :=
  ["uid={username},ou=a"; "uid={username},ou=b"].

Definition alice : LoginData :=
  {| data_username := "alice"; data_password := Some "secret" |}.

Definition jdoe : LoginData :=
  {| data_username := "jdoe"; data_password := Some "secret" |}.


Definition entry (dn : string) (cn : attr_value) : response_entry :=
  {| entry_dn := Some dn; entry_attributes := Some {["cn" := cn]} |}.

Definition one_entry (e : response_entry) : search_result :=
  {| found := true; response := [e]; entries := [] |}.

(** Only the second template binds [alice]; she is found once under
    [people] and is a member of [staff] alone. *)
Definition alice_in_b : Sample.directory :=
  {| Sample.accounts := [(Some "uid=alice,ou=b", Some "secret")];
     Sample.answers :=
       [(Some people, SUBTREE, "(uid=alice)",
         one_entry (entry "uid=alice,ou=b" (AttrStr "alice")));
        (Some staff, BASE,
         "(|(member=uid=alice,ou=b)(uniqueMember=uid=alice,ou=b)(memberUid=alice))",
         one_entry (entry staff (AttrStr "staff")))] |}.

(** As [alice_in_b], but [alice] is found under [people] twice. *)
Definition alice_twice : Sample.directory :=
  {| Sample.accounts := [(Some "uid=alice,ou=b", Some "secret")];
     Sample.answers :=
       [(Some people, SUBTREE, "(uid=alice)",
         {| found := true;
            response := [entry "uid=alice,ou=b" (AttrStr "alice");
                         entry "uid=alice,ou=c" (AttrStr "alice")];
            entries := [] |})] |}.

(** [alice] binds but is not found under [people]. *)
Definition alice_unprovisioned : Sample.directory :=
  {| Sample.accounts := [(Some "uid=alice,ou=b", Some "secret")];
     Sample.answers := [] |}.


(** The anonymous lookup finds [alice] with an empty [cn] value. *)
Definition alice_without_cn : Sample.directory :=
  {| Sample.accounts := [(None, None)];
     Sample.answers :=
       [(Some people, SUBTREE, "(uid=alice)",
         one_entry (entry "cn=alice,ou=people,dc=example,dc=org" (AttrList [])))] |}.

(** The anonymous lookup finds no one. *)
Definition nobody : Sample.directory :=
  {| Sample.accounts := [(None, None)]; Sample.answers := [] |}.

(** The entry of [jdoe] is under an organisational unit with braces
    in its name, and binds with his password. *)
Definition jdoe_dn : string := "uid=jdoe,ou={contractors},dc=example,dc=org".

Definition jdoe_in_braces : Sample.directory :=
  {| Sample.accounts := [(None, None); (Some jdoe_dn, Some "secret")];
     Sample.answers :=
       [(Some people, SUBTREE, "(uid=jdoe)",
         one_entry (entry jdoe_dn (AttrStr "jdoe")))] |}.

(** The entry of [jdoe] has a plain DN. *)
Definition jdoe_plain_dn : string := "uid=jdoe,ou=contractors,dc=example,dc=org".

Definition jdoe_plain : Sample.directory :=
  {| Sample.accounts := [(None, None); (Some jdoe_plain_dn, Some "secret")];
     Sample.answers :=
       [(Some people, SUBTREE, "(uid=jdoe)",
         one_entry (entry jdoe_plain_dn (AttrStr "jdoe")))] |}.

(** Two templates stored as given, a search filter, two allowed groups. *)
Definition full : LDAPAuthenticator :=
  config two_templates false "({userattr}={username})"
         (Some [admins; staff]) ["member"; "uniqueMember"; "memberUid"].

(** As [full], without a search filter. *)
Definition groups_only : LDAPAuthenticator :=
  config two_templates false ""
         (Some [admins; staff]) ["member"; "uniqueMember"; "memberUid"].

(** As [groups_only], with [group_attributes] empty. *)
Definition no_group_attributes : LDAPAuthenticator :=
  config two_templates false "" (Some [admins; staff]) [].

(** Lookup of the DN, no template. *)
Definition with_lookup : LDAPAuthenticator :=
  config [] true "" None ["member"; "uniqueMember"; "memberUid"].

(** No lookup, no template yet. *)
Definition unconfigured : LDAPAuthenticator :=
  config [] false "" None ["member"; "uniqueMember"; "memberUid"].

(** The connection that the sample server hands out. *)
Definition bound_connection : connection :=
  {| conn_id := 0; conn_bound := true |}.

(** The request of the bind loop for [dn] with the password of the
    scenarios. *)
Definition bind_request (dn : string) : conn_request :=
  {| rq_address := "ldap.example.org";
     rq_port := 389;
     rq_use_ssl := false;
     rq_auto_bind := AUTO_BIND_TLS_BEFORE_BIND;
     rq_user := Some dn;
     rq_password := Some "secret" |}.

(** The call that binds [alice] with the second template. *)
Definition alice_bound : event :=
  EvConnect AtUserBind (bind_request "uid=alice,ou=b") (inr bound_connection).


(** The identity of [alice] with the given groups. *)
Definition alice_with (groups : list string) : AuthModel :=
  {| name := "alice";
     auth_state := Some {| ldap_groups := Some groups; user_attributes := ∅ |} |}.

(** [authenticate] and [resolve_username] with the sample imports. *)
Definition authenticate :=
  @authenticate Sample.externals.
Definition resolve_username :=
  @resolve_username Sample.externals.
Definition check_allowed :=
  @check_allowed Sample.externals.

End Scenario.


(** ** The rest of the class *)

(** [_observe_use_ssl]: the observer of the deprecated [use_ssl] trait;
    [new] is [change.new], the value just assigned ([None] allowed).
    Apart from its warnings it sets [tls_strategy] when [new] is true. *)
Definition _observe_use_ssl (self : LDAPAuthenticator) (new : option bool)
  : LDAPAuthenticator :=
  if default false new then
    {| server_address := server_address self;
       server_port := server_port self;
       tls_strategy := on_connect;
       bind_dn_template := bind_dn_template self;
       allowed_groups := allowed_groups self;
       group_search_filter := group_search_filter self;
       group_attributes := group_attributes self;
       valid_username_regex := valid_username_regex self;
       lookup_dn := lookup_dn self;
       user_search_base := user_search_base self;
       user_attribute := user_attribute self;
       lookup_dn_search_filter := lookup_dn_search_filter self;
       lookup_dn_search_user := lookup_dn_search_user self;
       lookup_dn_search_password := lookup_dn_search_password self;
       lookup_dn_user_dn_attribute := lookup_dn_user_dn_attribute self;
       search_filter := search_filter self;
       attributes := attributes self;
       auth_state_attributes := auth_state_attributes self;
       use_lookup_dn_username := use_lookup_dn_username self;
       allow_all := allow_all self;
       allowed_users := allowed_users self |}
  else self.

(** *** What may be asked of the directory *)

(** A condition on the calls of a program: on the request of each
    connection, on the connection of each [bind()], on the connection
    and request of each search. *)
Record call_spec : Type := {
  connect_ok : site → conn_request → Prop;
  bind_ok : site → connection → Prop;
  search_ok : site → connection → search_request → Prop
}.

(** Every call that [p] can make, whatever the answers, meets [S]. *)
Inductive calls_ok {A} (S : call_spec) : prog A → Prop :=
| ok_Ret a : calls_ok S (Ret a)
| ok_Raise e : calls_ok S (Raise e)
| ok_Connect s rq k :
    connect_ok S s rq → (∀ ans, calls_ok S (k ans)) → calls_ok S (Connect s rq k)
| ok_BindOp s c k :
    bind_ok S s c → (∀ ans, calls_ok S (k ans)) → calls_ok S (BindOp s c k)
| ok_SearchOp s c rq k :
    search_ok S s c rq → (∀ ans, calls_ok S (k ans))
    → calls_ok S (SearchOp s c rq k).

Definition event_ok (S : call_spec) (ev : event) : Prop :=
  match ev with
  | EvConnect s rq _ => connect_ok S s rq
  | EvBind s c _ => bind_ok S s c
  | EvSearch s c rq _ => search_ok S s c rq
  end.

(** The SSL flag and the auto-bind mode that go with a TLS strategy. *)
Definition tls_parameters (strategy : TlsStrategy) : bool * auto_bind_mode :=
  match strategy with
  | on_connect => (true, AUTO_BIND_NO_TLS)
  | before_bind => (false, AUTO_BIND_TLS_BEFORE_BIND)
  | insecure => (false, AUTO_BIND_NO_TLS)
  end.

Section Calls.
Context `{Externals}.

(** What [authenticate self data] may ask, site by site. *)
Definition authenticate_calls (self : LDAPAuthenticator) (data : LoginData)
  : call_spec :=
  {| connect_ok := λ s rq,
       rq_address rq = server_address self
       ∧ rq_port rq = default (if tls_strategy self is on_connect
                               then 636 else 389)%Z (server_port self)
       ∧ (rq_use_ssl rq, rq_auto_bind rq) = tls_parameters (tls_strategy self)
       ∧ match s with
         | AtLookup =>
             rq_user rq = lookup_dn_search_user self
             ∧ rq_password rq = lookup_dn_search_password self
         | AtUserBind =>
             is_Some (rq_user rq) ∧ rq_password rq = data_password data
         | _ => False
         end;
     bind_ok := λ s c,
       match s with
       | AtLookup => True
       | AtUserBind => conn_bound c = false
       | _ => False
       end;
     search_ok := λ s c rq,
       match s with
       | AtLookup =>
           rq_base rq = user_search_base self ∧ rq_scope rq = SUBTREE
           ∧ rq_attributes rq = [lookup_dn_user_dn_attribute self]
           ∧ ∃ template,
               lookup_dn_search_filter self = Some template
               ∧ str_format template
                   [("login_attr", Py.str_of (user_attribute self));
                    ("login", escape_filter_chars (data_username data))]
                 = inr (rq_filter rq)
       | AtSearchFilter =>
           rq_base rq = user_search_base self ∧ rq_scope rq = SUBTREE
           ∧ rq_attributes rq = Some <$> attributes self
       | AtGroupProbe =>
           rq_scope rq = BASE
           ∧ rq_attributes rq = Some <$> group_attributes self
           ∧ ∃ group, group ∈ default [] (allowed_groups self)
                      ∧ rq_base rq = Some group
       | AtUserAttributes =>
           is_Some (rq_base rq) ∧ rq_scope rq = SUBTREE
           ∧ rq_filter rq = "(objectClass=*)"
           ∧ rq_attributes rq = Some <$> auth_state_attributes self
       | AtUserBind => False
       end |}.

End Calls.

(** [ev] is a call of the bind loop that ends [authenticate] with the
    exception [e]: a connection that raised something other than
    [LDAPBindError], or a [bind()] that raised. *)
Definition aborting (e : exn) (ev : event) : Prop :=
  match ev with
  | EvConnect AtUserBind _ (inl exc) => exc = e ∧ is_LDAPBindError exc = false
  | EvBind AtUserBind _ (inl exc) => exc = e
  | _ => False
  end.

(** What [authenticate] may ask once [conn] is bound for [userdn]:
    searches on [conn] only, and for the user attributes under
    [userdn]. *)
Definition bound_calls (conn : connection) (userdn : string) : call_spec :=
  {| connect_ok := λ _ _, False;
     bind_ok := λ _ _, False;
     search_ok := λ s c rq,
       c = conn ∧ s ≠ AtLookup ∧ s ≠ AtUserBind
       ∧ (s = AtUserAttributes → rq_base rq = Some userdn) |}.

(** The user attributes in what [authenticate] returned. *)
Definition attributes_of (id : AuthModel) : option (gmap string (list string)) :=
  user_attributes <$> auth_state id.

(** [ev] is a search on [conn]. *)
Definition is_search_on (conn : connection) (ev : event) : Prop :=
  match ev with
  | EvSearch _ c _ _ => c = conn
  | _ => False
  end.

(** [e] is the exception that the call [ev] raised. *)
Definition raised_by (e : exn) (ev : event) : Prop :=
  match ev with
  | EvConnect _ _ (inl exc) | EvBind _ _ (inl exc) | EvSearch _ _ _ (inl exc) =>
      exc = e
  | _ => False
  end.

(** No exception of a call of [p] is handled, except maybe that of a
    connection opened from a site in [caught]: when a call raises, [p]
    raises the same exception at once. *)
Inductive uncaught {A} (caught : site → Prop) : prog A → Prop :=
| un_Ret a : uncaught caught (Ret a)
| un_Raise e : uncaught caught (Raise e)
| un_Connect s rq k :
    (¬ caught s → ∀ e, k (inl e) = Raise e) →
    (∀ ans, uncaught caught (k ans)) → uncaught caught (Connect s rq k)
| un_BindOp s c k :
    (∀ e, k (inl e) = Raise e) →
    (∀ ans, uncaught caught (k ans)) → uncaught caught (BindOp s c k)
| un_SearchOp s c rq k :
    (∀ e, k (inl e) = Raise e) →
    (∀ ans, uncaught caught (k ans)) → uncaught caught (SearchOp s c rq k).


(** *** More servers and scenarios *)

Module Servers.

(** Every connection comes back unbound and every [bind()] answers
    false. *)
Definition refusing : handler unit :=
  {| serve_connect := λ w rq, (inr {| conn_id := 0; conn_bound := false |}, w);
     serve_bind := λ w c, (inr false, w);
     serve_search := λ w c rq, (inr Sample.no_result, w) |}.

(** The server cannot be reached: every connection raises an
    exception that is not an [LDAPBindError]. *)
Definition socket_error : exn := LDAPException "LDAPSocketOpenError".

Definition unreachable : handler unit :=
  {| serve_connect := λ w rq, (inl socket_error, w);
     serve_bind := λ w c, (inl socket_error, w);
     serve_search := λ w c rq, (inl socket_error, w) |}.

(** As [Sample.server], but a connection comes back unbound and is
    bound by [bind()]. *)
Definition late_binding (d : Sample.directory) : handler unit :=
  {| serve_connect := λ w rq,
       (if bool_decide ((rq_user rq, rq_password rq) ∈ Sample.accounts d)
        then inr {| conn_id := 1; conn_bound := false |}
        else inl Sample.bind_failure, w);
     serve_bind := λ w c, (inr true, w);
     serve_search := serve_search (Sample.server d) |}.

(** Every connection is refused with an [LDAPBindError] whose text
    has braces in it. *)
Definition brace_failure : exn :=
  LDAPBindError "LDAPBindError" "bind refused {reason}".

Definition garbling : handler unit :=
  {| serve_connect := λ w rq, (inl brace_failure, w);
     serve_bind := λ w c, (inr false, w);
     serve_search := λ w c rq, (inr Sample.no_result, w) |}.

End Servers.

(** More directories and configurations. *)

Module Cases.

(** The connection that [Servers.refusing] hands out. *)
Definition unbound_connection : connection :=
  {| conn_id := 0; conn_bound := false |}.

(** The anonymous lookup finds [alice] twice, the first entry with two
    values of [cn]. *)
Definition aliases_found : search_result :=
  {| found := true;
     response := [Scenario.entry "uid=alice,ou=b" (AttrList ["alice"; "al"]);
                  Scenario.entry "uid=al,ou=c" (AttrStr "al")];
     entries := [] |}.

Definition alice_aliases : Sample.directory :=
  {| Sample.accounts := [(None, None)];
     Sample.answers :=
       [(Some Scenario.people, SUBTREE, "(uid=alice)", aliases_found)] |}.

(** A search reference, with neither DN nor attributes. *)
Definition reference : response_entry :=
  {| entry_dn := None; entry_attributes := None |}.

(** The lookup answers a reference in front of the entry of [alice]. *)
Definition reference_found : search_result :=
  {| found := true;
     response := [reference; Scenario.entry "uid=alice,ou=b" (AttrStr "alice")];
     entries := [] |}.

Definition alice_behind_reference : Sample.directory :=
  {| Sample.accounts := [(None, None); (Some "uid=alice,ou=b", Some "secret")];
     Sample.answers :=
       [(Some Scenario.people, SUBTREE, "(uid=alice)", reference_found)] |}.

(** The entry of [alice] has a [uid] but no [cn]. *)
Definition nameless_found : search_result :=
  Scenario.one_entry
    {| entry_dn := Some "uid=alice,ou=b";
       entry_attributes := Some {["uid" := AttrStr "alice"]} |}.

Definition alice_without_name : Sample.directory :=
  {| Sample.accounts := [(None, None); (Some "uid=alice,ou=b", Some "secret")];
     Sample.answers :=
       [(Some Scenario.people, SUBTREE, "(uid=alice)", nameless_found)] |}.

(** The entry of [alice] has a [cn] but no DN. *)
Definition dnless_found : search_result :=
  Scenario.one_entry
    {| entry_dn := None;
       entry_attributes := Some {["cn" := AttrStr "alice"]} |}.

Definition alice_without_dn : Sample.directory :=
  {| Sample.accounts := [(None, None); (Some "uid=alice,ou=b", Some "secret")];
     Sample.answers :=
       [(Some Scenario.people, SUBTREE, "(uid=alice)", dnless_found)] |}.

(** The first connection of the bind loop of [Scenario.full] for
    [alice], refused by [Servers.unreachable]. *)
Definition alice_unreachable : event :=
  EvConnect AtUserBind (Scenario.bind_request "uid=alice,ou=a")
    (inl Servers.socket_error).

(** Two templates, no search filter, no allowed groups. *)
Definition no_groups : LDAPAuthenticator :=
  Scenario.config Scenario.two_templates false "" None
    ["member"; "uniqueMember"; "memberUid"].

(** [self] with [auth_state_attributes] set. *)
Definition with_auth_state_attributes (self : LDAPAuthenticator)
    (attrs : list string) : LDAPAuthenticator :=
  {| server_address := server_address self;
     server_port := server_port self;
     tls_strategy := tls_strategy self;
     bind_dn_template := bind_dn_template self;
     allowed_groups := allowed_groups self;
     group_search_filter := group_search_filter self;
     group_attributes := group_attributes self;
     valid_username_regex := valid_username_regex self;
     lookup_dn := lookup_dn self;
     user_search_base := user_search_base self;
     user_attribute := user_attribute self;
     lookup_dn_search_filter := lookup_dn_search_filter self;
     lookup_dn_search_user := lookup_dn_search_user self;
     lookup_dn_search_password := lookup_dn_search_password self;
     lookup_dn_user_dn_attribute := lookup_dn_user_dn_attribute self;
     search_filter := search_filter self;
     attributes := attributes self;
     auth_state_attributes := attrs;
     use_lookup_dn_username := use_lookup_dn_username self;
     allow_all := allow_all self;
     allowed_users := allowed_users self |}.

(** As [no_groups], fetching the [mail] of the user. *)
Definition with_mail : LDAPAuthenticator :=
  with_auth_state_attributes no_groups ["mail"].

(** What the directory knows of [alice]. *)
Definition alice_attributes : search_result :=
  {| found := true;
     response := [];
     entries := [{["mail" := ["alice@example.org"]]}] |}.

(** The second template binds [alice], whose entry has a [mail]. *)
Definition alice_with_mail : Sample.directory :=
  {| Sample.accounts := [(Some "uid=alice,ou=b", Some "secret")];
     Sample.answers :=
       [(Some "uid=alice,ou=b", SUBTREE, "(objectClass=*)", alice_attributes)] |}.

(** The search for the attributes of [alice]. *)
Definition alice_attributes_fetched : event :=
  EvSearch AtUserAttributes Scenario.bound_connection
    {| rq_base := Some "uid=alice,ou=b";
       rq_scope := SUBTREE;
       rq_filter := "(objectClass=*)";
       rq_attributes := [Some "mail"] |}
    (inr alice_attributes).






(** The lookup connection is refused: no account for the anonymous
    lookup. *)
Definition no_anonymous : Sample.directory :=
  {| Sample.accounts := [(Some "uid=alice,ou=b", Some "secret")];
     Sample.answers := [] |}.

(** The connection of the anonymous lookup of [Scenario.with_lookup],
    refused. *)
Definition lookup_refused : event :=
  EvConnect AtLookup
    {| rq_address := "ldap.example.org";
       rq_port := 389;
       rq_use_ssl := false;
       rq_auto_bind := AUTO_BIND_TLS_BEFORE_BIND;
       rq_user := None;
       rq_password := None |}
    (inl Sample.bind_failure).

(** The entry of [alice] has an empty [cn]. *)
Definition unnamed_found : search_result :=
  Scenario.one_entry (Scenario.entry "uid=alice,ou=b" (AttrStr "")).

Definition alice_unnamed : Sample.directory :=
  {| Sample.accounts := [(None, None); (Some "uid=alice,ou=b", Some "secret")];
     Sample.answers :=
       [(Some Scenario.people, SUBTREE, "(uid=alice)", unnamed_found)] |}.

End Cases.

(** An event is in a trace that computes. *)
Ltac in_trace :=
  vm_compute; repeat first [apply list_elem_of_here | apply list_elem_of_further].

(** Membership of an event in an explicit trace, case by case. *)
Ltac trace_mem H :=
  repeat first
    [ apply elem_of_nil in H; destruct H
    | apply elem_of_cons in H as [H|H]; [try discriminate H|]
    | apply elem_of_app in H as [H|H] ].

(** * Properties *)

(** ** Python strings *)



(** ** Runs of programs *)

Lemma run_runs {W A} (h : handler W) (w : W) (p : prog A) :
  runs p (trace_of h w p) (result_of h w p).
Proof.
  unfold trace_of, result_of. revert w.
  induction p as [a|e|s rq k IH|s c k IH|s c rq k IH]; intros w; simpl.
  - constructor.
  - constructor.
  - destruct (serve_connect h w rq) as [ans w1].
    specialize (IH ans w1). destruct (run h w1 (k ans)) as [[r tr] w2].
    by constructor.
  - destruct (serve_bind h w c) as [ans w1].
    specialize (IH ans w1). destruct (run h w1 (k ans)) as [[r tr] w2].
    by constructor.
  - destruct (serve_search h w c rq) as [ans w1].
    specialize (IH ans w1). destruct (run h w1 (k ans)) as [[r tr] w2].
    by constructor.
Qed.

Lemma runs_Ret_inv {A} (a : A) tr r :
  runs (Ret a) tr r → tr = [] ∧ r = Returned a.
Proof. by inversion 1. Qed.

Lemma runs_mret_inv {A} (a : A) tr r :
  runs (mret a) tr r → tr = [] ∧ r = Returned a.
Proof. apply runs_Ret_inv. Qed.

Lemma runs_Raise_inv {A} e tr (r : result A) :
  runs (Raise e) tr r → tr = [] ∧ r = Raised e.
Proof. by inversion 1. Qed.

Lemma runs_lift_inv {A} (x : exn + A) tr r :
  runs (lift x) tr r →
  tr = [] ∧ r = match x with inl e => Raised e | inr a => Returned a end.
Proof. destruct x; simpl; by inversion 1. Qed.

Lemma runs_bind_inv {A B} (m : prog A) (f : A → prog B) tr r :
  runs (m ≫= f) tr r →
  (∃ e, runs m tr (Raised e) ∧ r = Raised e)
  ∨ (∃ a tr1 tr2, runs m tr1 (Returned a) ∧ runs (f a) tr2 r ∧ tr = tr1 ++ tr2).
Proof.
  unfold mbind, prog_mbind. revert tr.
  induction m as [a|e|s rq k IH|s c k IH|s c rq k IH]; intros tr Hr; simpl in Hr.
  - right. exists a, [], tr. split; [constructor|done].
  - apply runs_Raise_inv in Hr as [-> ->]. left. exists e. split; [constructor|done].
  - inversion Hr as [| |? ? ? ans tr' ? Hk| |]; subst.
    destruct (IH _ _ Hk) as [(e & He & ->)|(a & tr1 & tr2 & H1 & H2 & ->)].
    + left. exists e. split; [by constructor|done].
    + right. exists a, (EvConnect s rq ans :: tr1), tr2.
      split; [by constructor|done].
  - inversion Hr as [| | |? ? ? ans tr' ? Hk|]; subst.
    destruct (IH _ _ Hk) as [(e & He & ->)|(a & tr1 & tr2 & H1 & H2 & ->)].
    + left. exists e. split; [by constructor|done].
    + right. exists a, (EvBind s c ans :: tr1), tr2.
      split; [by constructor|done].
  - inversion Hr as [| | | |? ? ? ? ans tr' ? Hk]; subst.
    destruct (IH _ _ Hk) as [(e & He & ->)|(a & tr1 & tr2 & H1 & H2 & ->)].
    + left. exists e. split; [by constructor|done].
    + right. exists a, (EvSearch s c rq ans :: tr1), tr2.
      split; [by constructor|done].
Qed.

Lemma runs_attempt_inv {A} (m : prog A) tr r :
  runs (attempt m) tr r →
  ∃ r0, runs m tr r0
        ∧ r = Returned match r0 with Returned a => inr a | Raised e => inl e end.
Proof.
  revert tr.
  induction m as [a|e|s rq k IH|s c k IH|s c rq k IH]; intros tr Hr; simpl in Hr.
  - apply runs_Ret_inv in Hr as [-> ->]. exists (Returned a). split; [constructor|done].
  - apply runs_Ret_inv in Hr as [-> ->]. exists (Raised e). split; [constructor|done].
  - inversion Hr as [| |? ? ? ans tr' ? Hk| |]; subst.
    destruct (IH _ _ Hk) as (r0 & H0 & ->). exists r0. split; [by constructor|done].
  - inversion Hr as [| | |? ? ? ans tr' ? Hk|]; subst.
    destruct (IH _ _ Hk) as (r0 & H0 & ->). exists r0. split; [by constructor|done].
  - inversion Hr as [| | | |? ? ? ? ans tr' ? Hk]; subst.
    destruct (IH _ _ Hk) as (r0 & H0 & ->). exists r0. split; [by constructor|done].
Qed.

Lemma runs_Connection_inv s rq tr r :
  runs (ldap3_Connection s rq) tr r →
  ∃ ans, tr = [EvConnect s rq ans] ∧ r = result_of_answer ans.
Proof.
  inversion 1 as [| |? ? ? ans tr' ? Hk| |]; subst.
  apply runs_lift_inv in Hk as [-> ->]. by exists ans.
Qed.

Lemma runs_conn_bind_inv s c tr r :
  runs (conn_bind s c) tr r →
  ∃ ans, tr = [EvBind s c ans] ∧ r = result_of_answer ans.
Proof.
  inversion 1 as [| | |? ? ? ans tr' ? Hk|]; subst.
  apply runs_lift_inv in Hk as [-> ->]. by exists ans.
Qed.

Lemma runs_conn_search_inv s c rq tr r :
  runs (conn_search s c rq) tr r →
  ∃ ans, tr = [EvSearch s c rq ans] ∧ r = result_of_answer ans.
Proof.
  inversion 1 as [| | | |? ? ? ? ans tr' ? Hk]; subst.
  apply runs_lift_inv in Hk as [-> ->]. by exists ans.
Qed.

Lemma runs_lift_Returned {A} (x : exn + A) tr a :
  runs (lift x) tr (Returned a) → tr = [] ∧ x = inr a.
Proof. intros [-> Hr]%runs_lift_inv. destruct x; by simplify_eq. Qed.

Lemma runs_lift_Raised {A} (x : exn + A) tr e :
  runs (lift x) tr (Raised e) → tr = [] ∧ x = inl e.
Proof. intros [-> Hr]%runs_lift_inv. destruct x; by simplify_eq. Qed.

Lemma runs_Connection_Returned s rq tr c :
  runs (ldap3_Connection s rq) tr (Returned c) → tr = [EvConnect s rq (inr c)].
Proof. intros (ans & -> & Hr)%runs_Connection_inv. destruct ans; by simplify_eq/=. Qed.

Lemma runs_Connection_Raised s rq tr e :
  runs (ldap3_Connection s rq) tr (Raised e) → tr = [EvConnect s rq (inl e)].
Proof. intros (ans & -> & Hr)%runs_Connection_inv. destruct ans; by simplify_eq/=. Qed.

Lemma runs_conn_bind_Returned s c tr b :
  runs (conn_bind s c) tr (Returned b) → tr = [EvBind s c (inr b)].
Proof. intros (ans & -> & Hr)%runs_conn_bind_inv. destruct ans; by simplify_eq/=. Qed.

Lemma runs_conn_bind_Raised s c tr e :
  runs (conn_bind s c) tr (Raised e) → tr = [EvBind s c (inl e)].
Proof. intros (ans & -> & Hr)%runs_conn_bind_inv. destruct ans; by simplify_eq/=. Qed.

Lemma runs_conn_search_Returned s c rq tr res :
  runs (conn_search s c rq) tr (Returned res) → tr = [EvSearch s c rq (inr res)].
Proof. intros (ans & -> & Hr)%runs_conn_search_inv. destruct ans; by simplify_eq/=. Qed.

Lemma runs_conn_search_Raised s c rq tr e :
  runs (conn_search s c rq) tr (Raised e) → tr = [EvSearch s c rq (inl e)].
Proof. intros (ans & -> & Hr)%runs_conn_search_inv. destruct ans; by simplify_eq/=. Qed.

(** *** Sites *)

Lemma calls_from_bind {A B} (P : site → Prop) (m : prog A) (f : A → prog B) :
  calls_from P m → (∀ a, calls_from P (f a)) → calls_from P (m ≫= f).
Proof.
  unfold mbind, prog_mbind.
  induction 1 as [a|e|s rq k Hs Hk IH|s c k Hs Hk IH|s c rq k Hs Hk IH];
    intros Hf; simpl; [done|constructor|constructor..]; auto.
Qed.

Lemma calls_from_lift {A} (P : site → Prop) (x : exn + A) : calls_from P (lift x).
Proof. destruct x; constructor. Qed.

Lemma calls_from_attempt {A} (P : site → Prop) (m : prog A) :
  calls_from P m → calls_from P (attempt m).
Proof. induction 1; simpl; constructor; auto. Qed.

Lemma calls_from_mret {A} (P : site → Prop) (a : A) : calls_from P (mret a).
Proof. constructor. Qed.

Lemma calls_from_weaken {A} (P Q : site → Prop) (p : prog A) :
  (∀ s, P s → Q s) → calls_from P p → calls_from Q p.
Proof. intros HPQ. induction 1; constructor; auto. Qed.

Lemma calls_from_runs {A} (P : site → Prop) (p : prog A) tr r :
  calls_from P p → runs p tr r → Forall (λ ev, P (ev_site ev)) tr.
Proof.
  intros Hp Hr. induction Hr; inversion Hp; subst; try constructor; auto.
Qed.

Lemma calls_at_app s tr1 tr2 :
  calls_at s (tr1 ++ tr2) = calls_at s tr1 ++ calls_at s tr2.
Proof. apply filter_app. Qed.

Lemma calls_at_none s (P : site → Prop) tr :
  ¬ P s → Forall (λ ev, P (ev_site ev)) tr → calls_at s tr = [].
Proof.
  intros Hs. induction 1 as [|ev tr Hev _ IH]; [done|].
  unfold calls_at in *. rewrite filter_cons_False; [done|].
  intros Heq. apply Hs. by rewrite <- Heq.
Qed.

Lemma calls_at_all s tr :
  Forall (λ ev, ev_site ev = s) tr → calls_at s tr = tr.
Proof.
  induction 1 as [|ev tr Hev _ IH]; [done|].
  unfold calls_at in *. rewrite filter_cons_True; [|done]. by rewrite IH.
Qed.

Section Phases.
Context `{Externals}.

Lemma get_connection_calls self s userdn password :
  calls_from (λ s', s' = s) (get_connection self s userdn password).
Proof.
  unfold get_connection. destruct (tls_strategy self);
    (constructor; [done|intros; apply calls_from_lift]).
Qed.

Lemma runs_get_connection_inv self s userdn password tr r :
  runs (get_connection self s userdn password) tr r →
  ∃ rq ans, tr = [EvConnect s rq ans] ∧ r = result_of_answer ans
            ∧ rq_user rq = userdn ∧ rq_password rq = password.
Proof.
  unfold get_connection.
  destruct (tls_strategy self);
    intros (ans & -> & ->)%runs_Connection_inv; by eexists _, ans.
Qed.

(** *** [resolve_username] *)

Lemma resolve_response_calls self res :
  calls_from (λ s, s = AtLookup) (resolve_response self res).
Proof.
  unfold resolve_response.
  destruct (response res) as [|first ?]; [constructor|].
  destruct (entry_attributes first); [|constructor].
  apply calls_from_bind; [apply calls_from_lift|].
  intros [?|[|??]]; try constructor;
    (apply calls_from_bind; [apply calls_from_lift|constructor]).
Qed.

Lemma resolve_username_calls self u :
  calls_from (λ s, s = AtLookup) (resolve_username self u).
Proof.
  unfold resolve_username.
  apply calls_from_bind; [apply get_connection_calls|intros conn].
  apply calls_from_bind; [constructor; [done|intros; apply calls_from_lift]|intros b].
  destruct (negb b); [constructor|].
  apply calls_from_bind; [apply calls_from_lift|intros t].
  apply calls_from_bind; [apply calls_from_lift|intros f].
  apply calls_from_bind; [constructor; [done|intros; apply calls_from_lift]|intros res].
  apply resolve_response_calls.
Qed.

Lemma resolve_response_silent self res tr r :
  runs (resolve_response self res) tr r → tr = [].
Proof.
  unfold resolve_response.
  destruct (response res) as [|first ?]; [by intros [-> _]%runs_mret_inv|].
  destruct (entry_attributes first); [|by intros [-> _]%runs_mret_inv].
  intros [(e & [-> _]%runs_lift_Raised & _)
         |(v & tr1 & tr2 & [-> _]%runs_lift_Returned & Hr & ->)]%runs_bind_inv;
    [done|].
  destruct v as [?|[|??]].
  - apply runs_bind_inv in Hr
      as [(e & [-> _]%runs_lift_Raised & _)
         |(v & tr1 & tr3 & [-> _]%runs_lift_Returned & [-> _]%runs_mret_inv & ->)];
      done.
  - by apply runs_mret_inv in Hr as [-> _].
  - apply runs_bind_inv in Hr
      as [(e & [-> _]%runs_lift_Raised & _)
         |(v & tr1 & tr3 & [-> _]%runs_lift_Returned & [-> _]%runs_mret_inv & ->)];
      done.
Qed.

(** Whatever [resolve_username] exchanged with the directory, a search
    that was answered decides its result. *)
Lemma resolve_username_search self u tr r s c rq res :
  runs (resolve_username self u) tr r →
  EvSearch s c rq (inr res) ∈ tr →
  runs (resolve_response self res) [] r.
Proof.
  unfold resolve_username. intros Hr Hin.
  apply runs_bind_inv in Hr
    as [(e & (rq0 & ans & -> & _)%runs_get_connection_inv & _)
       |(conn & tr1 & tr2 & (rq0 & ans & -> & _)%runs_get_connection_inv & Hr & ->)].
  { by trace_mem Hin. }
  apply runs_bind_inv in Hr
    as [(e & ->%runs_conn_bind_Raised & _)
       |(b & tr1 & tr3 & ->%runs_conn_bind_Returned & Hr & ->)].
  { by trace_mem Hin. }
  destruct (negb b).
  { apply runs_mret_inv in Hr as [-> _]. by trace_mem Hin. }
  apply runs_bind_inv in Hr
    as [(e & [-> _]%runs_lift_Raised & _)
       |(t & tr1 & tr4 & [-> _]%runs_lift_Returned & Hr & ->)].
  { by trace_mem Hin. }
  apply runs_bind_inv in Hr
    as [(e & [-> _]%runs_lift_Raised & _)
       |(f & tr1 & tr5 & [-> _]%runs_lift_Returned & Hr & ->)].
  { by trace_mem Hin. }
  apply runs_bind_inv in Hr
    as [(e & ->%runs_conn_search_Raised & _)
       |(res' & tr1 & tr6 & ->%runs_conn_search_Returned & Hr & ->)].
  { by trace_mem Hin. }
  pose proof (resolve_response_silent _ _ _ _ Hr) as ->.
  trace_mem Hin. by simplify_eq.
Qed.


Lemma resolve_response_Some self res tr u d :
  runs (resolve_response self res) tr (Returned (Some u, d)) →
  ∃ first rest dn,
    response res = first :: rest ∧ entry_dn first = Some dn ∧ d = Some dn.
Proof.
  unfold resolve_response.
  destruct (response res) as [|first rest]; [by intros [_ ?]%runs_mret_inv|].
  destruct (entry_attributes first); [|by intros [_ ?]%runs_mret_inv].
  intros [(e & _ & ?)
         |(v & tr1 & tr2 & _ & Hr & ->)]%runs_bind_inv; [done|].
  destruct v as [s|[|s l]].
  - apply runs_bind_inv in Hr
      as [(e & _ & ?)
         |(dn & tr3 & tr4 & [_ Hd]%runs_lift_Returned & [_ ?]%runs_mret_inv & _)];
      [done|].
    destruct (entry_dn first) eqn:Hdn; simplify_eq/=. eauto 10.
  - by apply runs_mret_inv in Hr as [_ ?].
  - apply runs_bind_inv in Hr
      as [(e & _ & ?)
         |(dn & tr3 & tr4 & [_ Hd]%runs_lift_Returned & [_ ?]%runs_mret_inv & _)];
      [done|].
    destruct (entry_dn first) eqn:Hdn; simplify_eq/=. eauto 10.
Qed.

Lemma resolve_response_no_entry self res tr r :
  response res = [] →
  runs (resolve_response self res) tr r → r = Returned (None, None).
Proof.
  unfold resolve_response. intros ->. by intros [_ ->]%runs_mret_inv.
Qed.

Lemma resolve_response_empty_value self res first rest attrs attr tr r :
  response res = first :: rest →
  entry_attributes first = Some attrs →
  lookup_dn_user_dn_attribute self = Some attr →
  attrs !! attr = Some (AttrList []) →
  runs (resolve_response self res) tr r → r = Returned (None, None).
Proof.
  unfold resolve_response. intros -> -> -> Hattr. simpl. rewrite Hattr. simpl.
  by intros [_ ->]%runs_mret_inv.
Qed.

(** A run of [resolve_username] that names a user ends with a search,
    whose first entry gives the DN. *)
Lemma resolve_username_Some self username tr u d :
  runs (resolve_username self username) tr (Returned (Some u, d)) →
  ∃ tr0 conn f res first rest dn,
    tr = tr0 ++ [EvSearch AtLookup conn (lookup_request self f) (inr res)]
    ∧ response res = first :: rest ∧ entry_dn first = Some dn ∧ d = Some dn.
Proof.
  unfold resolve_username. intros Hr.
  apply runs_bind_inv in Hr
    as [(e & _ & ?)|(conn & tr1 & tr2 & _ & Hr & ->)]; [done|].
  apply runs_bind_inv in Hr
    as [(e & _ & ?)|(b & tr3 & tr4 & _ & Hr & ->)]; [done|].
  destruct (negb b); [by apply runs_mret_inv in Hr as [_ ?]|].
  apply runs_bind_inv in Hr
    as [(e & _ & ?)|(t & tr5 & tr6 & _ & Hr & ->)]; [done|].
  apply runs_bind_inv in Hr
    as [(e & _ & ?)|(f & tr7 & tr8 & _ & Hr & ->)]; [done|].
  apply runs_bind_inv in Hr
    as [(e & _ & ?)|(res & tr9 & tr10 & ->%runs_conn_search_Returned & Hr & ->)];
    [done|].
  pose proof (resolve_response_silent _ _ _ _ Hr) as ->.
  apply resolve_response_Some in Hr as (first & rest & dn & ? & ? & ?).
  exists (tr1 ++ tr3 ++ tr5 ++ tr7), conn, f, res, first, rest, dn.
  split; [|done]. by rewrite !app_nil_r, <- !(assoc_L (++)).
Qed.

(** *** The loop over [bind_dn_template] *)

Lemma bind_loop_calls self u pw ts :
  calls_from (λ s, s = AtUserBind) (bind_loop self u pw ts).
Proof.
  induction ts as [|dn rest IH]; simpl; [constructor|].
  apply calls_from_bind; [apply calls_from_lift|intros userdn].
  apply calls_from_bind;
    [apply calls_from_attempt, get_connection_calls|intros [exc|conn]].
  - destruct (is_LDAPBindError exc); [|constructor].
    by apply calls_from_bind; [apply calls_from_lift|].
  - apply calls_from_bind.
    + destruct (conn_bound conn); [constructor|].
      constructor; [done|intros; apply calls_from_lift].
    + intros b. apply calls_from_bind; [apply calls_from_lift|intros _].
      destruct b; [constructor|done].
Qed.

(** One round of the loop. *)
(** Formatting [status_msg] goes through. *)
Lemma runs_status_inv {A} u userdn b (k : prog A) tr r :
  runs (lift (str_format status_msg (status_fields u userdn b)) ≫= λ _, k) tr r →
  runs k tr r.
Proof.
  destruct (str_format_status u userdn b) as [msg Hmsg]. by rewrite Hmsg.
Qed.

Lemma unlogged_attempt_failed u userdn e evs :
  unlogged_attempt u userdn e evs → failed_attempt userdn evs.
Proof.
  destruct evs as [|[[] rq [exc|c]| |] [|??]]; simpl; try done.
  by intros (? & ? & _).
Qed.

Lemma bind_loop_round self u pw dn rest tr r :
  runs (bind_loop self u pw (dn :: rest)) tr r →
  (∃ e, str_format dn [("username", escape_rdn u)] = inl e
        ∧ tr = [] ∧ r = Raised e)
  ∨ ∃ userdn, str_format dn [("username", escape_rdn u)] = inr userdn ∧
      ((∃ evs tr', failed_attempt userdn evs ∧ logged_attempt u userdn evs
                   ∧ tr = evs ++ tr'
                   ∧ runs (bind_loop self u pw rest) tr' r)
       ∨ (∃ conn, successful_attempt userdn conn tr
                  ∧ r = Returned (Some (conn, userdn)))
       ∨ (∃ e, aborted_attempt userdn e tr ∧ r = Raised e)
       ∨ (∃ e, unlogged_attempt u userdn e tr ∧ r = Raised e)).
Proof.
  simpl. intros Hr.
  apply runs_bind_inv in Hr
    as [(e & [-> Hf]%runs_lift_Raised & ->)
       |(userdn & tr1 & tr2 & [-> Hf]%runs_lift_Returned & Hr & ->)].
  { left. by exists e. }
  right. exists userdn. split; [done|]. simpl.
  apply runs_bind_inv in Hr
    as [(e & (r0 & _ & ?)%runs_attempt_inv & _)
       |(a & tr1 & tr3 & (r0 & Hc & Ha)%runs_attempt_inv & Hr & ->)]; [done|].
  apply runs_get_connection_inv in Hc as (rq & ans & -> & -> & Hu & Hp).
  destruct ans as [exc|conn]; simplify_eq/=.
  - destruct (is_LDAPBindError exc) eqn:Hexc.
    + apply runs_bind_inv in Hr
        as [(e & [-> Hmsg]%runs_lift_Raised & ->)
           |(msg & tr1 & tr4 & [-> Hmsg]%runs_lift_Returned & Hr & ->)].
      * do 3 right. by exists e.
      * left. exists [EvConnect AtUserBind rq (inl exc)], tr4.
        repeat split; [done..|by exists msg|done].
    + apply runs_Raise_inv in Hr as [-> ->]. right; right; left. by exists exc.
  - destruct (conn_bound conn) eqn:Hb.
    + apply runs_bind_inv in Hr
        as [(e & [_ ?]%runs_mret_inv & _)
           |(b & tr1 & tr4 & [-> ?]%runs_mret_inv & Hr & ->)]; [done|].
      simplify_eq. apply runs_status_inv in Hr.
      apply runs_mret_inv in Hr as [-> ->].
      right; left. exists conn. by simpl.
    + apply runs_bind_inv in Hr
        as [(e & ->%runs_conn_bind_Raised & ->)
           |(b & tr1 & tr4 & ->%runs_conn_bind_Returned & Hr & ->)].
      { right; right; left. exists e. by simpl. }
      apply runs_status_inv in Hr. destruct b.
      * apply runs_mret_inv in Hr as [-> ->]. right; left. exists conn. by simpl.
      * left. exists [EvConnect AtUserBind rq (inr conn);
                      EvBind AtUserBind conn (inr false)], tr4. by simpl.
Qed.


Lemma attempt_connect userdn evs s rq ans :
  (failed_attempt userdn evs ∨ (∃ conn, successful_attempt userdn conn evs)
   ∨ ∃ e, aborted_attempt userdn e evs) →
  EvConnect s rq ans ∈ evs → s = AtUserBind ∧ rq_user rq = Some userdn.
Proof.
  intros Hevs Hin.
  destruct evs as [|[[] rq1 [exc|c]| |] [|[|[] c' [exc'|[]]|] [|??]]];
    simpl in Hevs; try (destruct Hevs as [[]|[[? []]|[? []]]]; fail);
    trace_mem Hin; simplify_eq;
    destruct Hevs as [?|[[? ?]|[? ?]]]; intuition congruence.
Qed.

Lemma attempt_sites userdn evs :
  (failed_attempt userdn evs ∨ (∃ conn, successful_attempt userdn conn evs)
   ∨ ∃ e, aborted_attempt userdn e evs) →
  Forall (λ ev, ev_site ev = AtUserBind) evs.
Proof.
  intros Hevs.
  destruct evs as [|[[] rq1 [exc|c]| |] [|[|[] c' [exc'|[]]|] [|??]]];
    simpl in Hevs; try (destruct Hevs as [[]|[[? []]|[? []]]]; fail);
    by repeat constructor.
Qed.

(** The loop is left with a connection only by a successful attempt,
    which is its last exchange, for one of the templates. *)
Lemma bind_loop_bound self u pw ts tr conn userdn :
  runs (bind_loop self u pw ts) tr (Returned (Some (conn, userdn))) →
  ∃ tr0 evs dn,
    tr = tr0 ++ evs ∧ successful_attempt userdn conn evs
    ∧ dn ∈ ts ∧ str_format dn [("username", escape_rdn u)] = inr userdn.
Proof.
  revert tr. induction ts as [|dn rest IH]; intros tr Hr.
  { by apply runs_mret_inv in Hr as [_ ?]. }
  apply bind_loop_round in Hr
    as [(e & _ & _ & ?)
       |(userdn' & Hf &
          [(evs & tr' & Hevs & _ & -> & Hr)
          |[(conn' & Hevs & ?)|[(e & _ & ?)|(e & _ & ?)]]])];
    [done| | |done|done].
  - destruct (IH _ Hr) as (tr0 & evs' & dn' & -> & ? & ? & ?).
    exists (evs ++ tr0), evs', dn'. rewrite (assoc_L (++)).
    repeat split; [done|by apply elem_of_cons; right|done].
  - simplify_eq. exists [], tr, dn. repeat split; [done|apply list_elem_of_here|done].
Qed.

(** Every connection the loop asks for is for a DN made from one of
    the templates with the RDN-escaped user name. *)
Lemma bind_loop_connect self u pw ts tr r s rq ans :
  runs (bind_loop self u pw ts) tr r →
  EvConnect s rq ans ∈ tr →
  ∃ dn userdn,
    dn ∈ ts ∧ str_format dn [("username", escape_rdn u)] = inr userdn
    ∧ rq_user rq = Some userdn.
Proof.
  revert tr. induction ts as [|dn rest IH]; intros tr Hr Hin.
  { apply runs_mret_inv in Hr as [-> _]. by trace_mem Hin. }
  apply bind_loop_round in Hr
    as [(e & _ & -> & ?)
       |(userdn' & Hf &
          [(evs & tr' & Hevs & _ & -> & Hr)
          |[(conn' & Hevs & ?)|[(e & Hevs & ?)|(e & Hevs & ?)]]])].
  - by trace_mem Hin.
  - apply elem_of_app in Hin as [Hin|Hin].
    + apply (attempt_connect userdn') in Hin as [_ ?]; [|by left].
      exists dn, userdn'. repeat split; [apply list_elem_of_here|done..].
    + destruct (IH _ Hr Hin) as (dn' & ud & ? & ? & ?).
      exists dn', ud. repeat split; [by apply elem_of_cons; right|done..].
  - apply (attempt_connect userdn') in Hin as [_ ?]; [|right; left; by eexists].
    exists dn, userdn'. repeat split; [apply list_elem_of_here|done..].
  - apply (attempt_connect userdn') in Hin as [_ ?]; [|right; right; by eexists].
    exists dn, userdn'. repeat split; [apply list_elem_of_here|done..].
  - apply (attempt_connect userdn') in Hin as [_ ?];
      [|left; by eapply unlogged_attempt_failed].
    exists dn, userdn'. repeat split; [apply list_elem_of_here|done..].
Qed.

(** The whole loop: the templates are tried in order; each failed
    attempt is followed by the next template; the first successful
    attempt ends the loop with its connection; [None] is the answer
    only when every template was tried and failed. *)
Lemma bind_loop_spec self u pw ts tr r :
  runs (bind_loop self u pw ts) tr r →
  ∃ (failed : list (string * string * list event)) (rest : list string)
    (tr_last : list event),
    ts = failed.*1.*1 ++ rest
    ∧ Forall (λ x, str_format x.1.1 [("username", escape_rdn u)] = inr x.1.2
                   ∧ failed_attempt x.1.2 x.2
                   ∧ logged_attempt u x.1.2 x.2) failed
    ∧ tr = List.concat failed.*2 ++ tr_last
    ∧ match r with
      | Returned None => rest = [] ∧ tr_last = []
      | Returned (Some (conn, userdn)) =>
          ∃ dn rest', rest = dn :: rest'
            ∧ str_format dn [("username", escape_rdn u)] = inr userdn
            ∧ successful_attempt userdn conn tr_last
      | Raised e =>
          ∃ dn rest', rest = dn :: rest'
            ∧ ((str_format dn [("username", escape_rdn u)] = inl e ∧ tr_last = [])
               ∨ ∃ userdn,
                   str_format dn [("username", escape_rdn u)] = inr userdn
                   ∧ (aborted_attempt userdn e tr_last
                      ∨ unlogged_attempt u userdn e tr_last))
      end.
Proof.
  revert tr. induction ts as [|dn rest IH]; intros tr Hr.
  { apply runs_mret_inv in Hr as [-> ->]. by exists [], [], []. }
  apply bind_loop_round in Hr
    as [(e & Hf & -> & ->)
       |(userdn & Hf &
          [(evs & tr' & Hevs & Hlog & -> & Hr)
          |[(conn & Hevs & ->)|[(e & Hevs & ->)|(e & Hevs & ->)]]])].
  - exists [], (dn :: rest), []. repeat split; [constructor|]. eauto 10.
  - destruct (IH _ Hr) as (failed & rest' & tr_last & -> & Hfailed & -> & Hlast).
    exists ((dn, userdn, evs) :: failed), rest', tr_last.
    repeat split; [by constructor|simpl; by rewrite (assoc_L (++))|done].
  - exists [], (dn :: rest), tr. repeat split; [constructor|]. eauto 10.
  - exists [], (dn :: rest), tr. repeat split; [constructor|]. eauto 10.
  - exists [], (dn :: rest), tr. repeat split; [constructor|]. eauto 10.
Qed.


(** *** After the bind *)

Lemma get_user_attributes_calls self conn userdn :
  calls_from (λ s, s = AtUserAttributes) (get_user_attributes self conn userdn).
Proof.
  unfold get_user_attributes.
  destruct (Py.nonempty _); [|constructor].
  apply calls_from_bind; [constructor; [done|intros; apply calls_from_lift]|].
  intros res. destruct (found res); [apply calls_from_lift|constructor].
Qed.

Lemma get_user_attributes_runs self conn userdn tr r :
  runs (get_user_attributes self conn userdn) tr r →
  (∃ attrs, r = Returned attrs)
  ∨ (∃ e ev, r = Raised e ∧ tr = [ev] ∧ attributes_failed e ev).
Proof.
  unfold get_user_attributes.
  destruct (Py.nonempty _); [|intros [_ ->]%runs_mret_inv; eauto].
  intros [(e & ->%runs_conn_search_Raised & ->)
         |(res & tr1 & tr2 & ->%runs_conn_search_Returned & Hr & ->)]%runs_bind_inv.
  { right. by eexists e, _. }
  destruct (found res) eqn:Hfound; [|apply runs_mret_inv in Hr as [_ ->]; eauto].
  apply runs_lift_inv in Hr as [-> ->].
  destruct (entries res) as [|entry ?] eqn:Hentries; simpl; [|eauto].
  right. eexists IndexError, _. by repeat split.
Qed.


Lemma authenticate_finish_calls self data u conn userdn gs :
  calls_from (λ s, s = AtUserAttributes)
    (authenticate_finish self data u conn userdn gs).
Proof.
  unfold authenticate_finish.
  apply calls_from_bind; [apply get_user_attributes_calls|constructor].
Qed.

(** The end of [authenticate] returns an identity with the groups it
    was given, unless fetching the user attributes raises. *)
Lemma authenticate_finish_runs self data u conn userdn gs tr r :
  runs (authenticate_finish self data u conn userdn gs) tr r →
  (∃ id, r = Returned (Some id) ∧ groups_of id = Some gs)
  ∨ (∃ e ev, r = Raised e ∧ tr = [ev] ∧ attributes_failed e ev).
Proof.
  unfold authenticate_finish.
  intros [(e & Hr & ->)|(attrs & tr1 & tr2 & Hr & [-> ->]%runs_mret_inv & ->)]
    %runs_bind_inv.
  - apply get_user_attributes_runs in Hr as [(? & ?)|(e' & ev & ? & -> & ?)];
      [done|]. simplify_eq. right. by exists e', ev.
  - left. by eexists.
Qed.


Lemma probe_groups_cons self conn userdn u g rest :
  probe_groups self conn userdn u (g :: rest)
  = (group_filter ← lift (str_format (group_search_filter self)
         [("userdn", escape_filter_chars userdn);
          ("uid", escape_filter_chars u)]);
     res ← conn_search AtGroupProbe conn
         {| rq_base := Some g;
            rq_scope := BASE;
            rq_filter := group_filter;
            rq_attributes := Some <$> group_attributes self |};
     if found res then mret [g]
     else probe_groups self conn userdn u rest).
Proof. reflexivity. Qed.

Lemma probe_groups_calls self conn userdn u groups :
  calls_from (λ s, s = AtGroupProbe) (probe_groups self conn userdn u groups).
Proof.
  induction groups as [|g rest IH]; [constructor|].
  rewrite probe_groups_cons.
  apply calls_from_bind; [apply calls_from_lift|intros f].
  apply calls_from_bind; [constructor; [done|intros; apply calls_from_lift]|].
  intros res. destruct (found res); [constructor|done].
Qed.

(** The loop over the groups: the groups are probed in order, each
    with a base-scoped search; a probe that does not match is followed
    by the next group; the first probe that matches ends the loop with
    that group alone; the list is empty only when every group was
    probed and none matched. *)
Lemma probe_groups_spec self conn userdn u groups tr r :
  runs (probe_groups self conn userdn u groups) tr r →
  ∃ missed rest evs tr_last,
    groups = missed ++ rest ∧ Forall2 (probe_of false) missed evs
    ∧ tr = evs ++ tr_last
    ∧ match r with
      | Returned gs =>
          (rest = [] ∧ tr_last = [] ∧ gs = [])
          ∨ (∃ g rest' ev, rest = g :: rest' ∧ tr_last = [ev]
                           ∧ probe_of true g ev ∧ gs = [g])
      | Raised e =>
          rest ≠ []
          ∧ (tr_last = [] ∨ ∃ c rq, tr_last = [EvSearch AtGroupProbe c rq (inl e)])
      end.
Proof.
  revert tr. induction groups as [|g rest IH]; intros tr Hr.
  { apply runs_mret_inv in Hr as [-> ->]. exists [], [], [], []. by auto 10. }
  rewrite probe_groups_cons in Hr.
  apply runs_bind_inv in Hr
    as [(e & [-> _]%runs_lift_Raised & ->)
       |(f & tr1 & tr2 & [-> _]%runs_lift_Returned & Hr & ->)].
  { exists [], (g :: rest), [], []. by auto 10. }
  apply runs_bind_inv in Hr
    as [(e & ->%runs_conn_search_Raised & ->)
       |(res & tr1 & tr3 & ->%runs_conn_search_Returned & Hr & ->)].
  { exists [], (g :: rest), [], [EvSearch AtGroupProbe conn
        {| rq_base := Some g; rq_scope := BASE; rq_filter := f;
           rq_attributes := Some <$> group_attributes self |} (inl e)].
    repeat split; [constructor|done|eauto]. }
  destruct (found res) eqn:Hfound.
  - apply runs_mret_inv in Hr as [-> ->].
    exists [], (g :: rest), [], [EvSearch AtGroupProbe conn
        {| rq_base := Some g; rq_scope := BASE; rq_filter := f;
           rq_attributes := Some <$> group_attributes self |} (inr res)].
    repeat split; [constructor|]. right. eexists g, rest, _. by repeat split.
  - destruct (IH _ Hr) as (missed & rest' & evs & tr_last & -> & Hm & -> & Hlast).
    exists (g :: missed), rest', (EvSearch AtGroupProbe conn
        {| rq_base := Some g; rq_scope := BASE; rq_filter := f;
           rq_attributes := Some <$> group_attributes self |} (inr res) :: evs),
      tr_last.
    repeat split; [|done]. by constructor.
Qed.

(** Every search of the loop over the groups is made on the bound
    connection with the group filter, in which the DN and the user
    name are filter-escaped. *)
Lemma probe_groups_search self conn userdn u groups tr r s c rq ans :
  runs (probe_groups self conn userdn u groups) tr r →
  EvSearch s c rq ans ∈ tr →
  c = conn ∧ rq_scope rq = BASE
  ∧ str_format (group_search_filter self)
      [("userdn", escape_filter_chars userdn); ("uid", escape_filter_chars u)]
    = inr (rq_filter rq).
Proof.
  revert tr. induction groups as [|g rest IH]; intros tr Hr Hin.
  { apply runs_mret_inv in Hr as [-> _]. by trace_mem Hin. }
  rewrite probe_groups_cons in Hr.
  apply runs_bind_inv in Hr
    as [(e & [-> _]%runs_lift_Raised & ->)
       |(f & tr1 & tr2 & [-> Hf]%runs_lift_Returned & Hr & ->)].
  { by trace_mem Hin. }
  apply runs_bind_inv in Hr
    as [(e & ->%runs_conn_search_Raised & ->)
       |(res & tr1 & tr3 & ->%runs_conn_search_Returned & Hr & ->)].
  { trace_mem Hin. by simplify_eq. }
  simpl in Hin. apply elem_of_cons in Hin as [Hin|Hin]; [by simplify_eq|].
  destruct (found res).
  - apply runs_mret_inv in Hr as [-> _]. by trace_mem Hin.
  - by apply (IH _ Hr).
Qed.

Lemma authenticate_groups_calls self data u conn userdn :
  calls_from (λ s, s = AtGroupProbe ∨ s = AtUserAttributes)
    (authenticate_groups self data u conn userdn).
Proof.
  unfold authenticate_groups.
  destruct (Py.nonempty _).
  - destruct (_ || _); [constructor|].
    apply calls_from_bind.
    + eapply calls_from_weaken, probe_groups_calls. auto.
    + intros gs. eapply calls_from_weaken, authenticate_finish_calls. auto.
  - eapply calls_from_weaken, authenticate_finish_calls. auto.
Qed.

Lemma authenticate_bound_calls self data u conn userdn :
  calls_from (λ s, s = AtSearchFilter ∨ s = AtGroupProbe ∨ s = AtUserAttributes)
    (authenticate_bound self data u conn userdn).
Proof.
  unfold authenticate_bound.
  assert (calls_from
            (λ s, s = AtSearchFilter ∨ s = AtGroupProbe ∨ s = AtUserAttributes)
            (authenticate_groups self data u conn userdn)) as Hg.
  { eapply calls_from_weaken, authenticate_groups_calls. intros ? [?|?]; auto. }
  destruct (Py.truthy _); [|done].
  apply calls_from_bind; [apply calls_from_lift|intros f].
  apply calls_from_bind; [constructor; [auto|intros; apply calls_from_lift]|].
  intros res. simpl.
  destruct (Nat.eqb _ _); [constructor|]. by destruct (Nat.ltb _ _); [constructor|].
Qed.


(** *** The whole of [authenticate] *)

Lemma failed_attempt_unbound userdn evs :
  failed_attempt userdn evs → Forall unbound_event evs.
Proof.
  intros Hevs.
  destruct evs as [|[[] rq1 [exc|c]| |] [|[|[] c' [exc'|[]]|] [|??]]];
    simpl in Hevs; try done; repeat constructor; simpl; auto;
    intros conn; simpl; intuition congruence.
Qed.

Lemma aborted_attempt_unbound userdn e evs :
  aborted_attempt userdn e evs → Forall unbound_event evs.
Proof.
  intros Hevs.
  destruct evs as [|[[] rq1 [exc|c]| |] [|[|[] c' [exc'|[]]|] [|??]]];
    simpl in Hevs; try done; repeat constructor; simpl; auto;
    intros conn; simpl; intuition congruence.
Qed.

Lemma successful_attempt_sites userdn conn evs :
  successful_attempt userdn conn evs →
  Forall (λ ev, ev_site ev = AtUserBind) evs.
Proof. intros Hevs. eapply attempt_sites; eauto. Qed.

(** In a successful attempt the bound connection is the one it names,
    and its last call is the one that bound it. *)
Lemma successful_attempt_bound userdn conn evs ev conn' :
  successful_attempt userdn conn evs →
  ev ∈ evs → is_bound_by ev conn' → conn' = conn.
Proof.
  intros Hevs Hin Hb.
  destruct evs as [|[[] rq1 [exc|c]| |] [|[|[] c' [exc'|[]]|] [|??]]];
    simpl in Hevs; try done; trace_mem Hin; simplify_eq; simpl in Hb;
    intuition congruence.
Qed.

Lemma successful_attempt_last userdn conn evs :
  successful_attempt userdn conn evs →
  ∃ ev, last evs = Some ev ∧ is_bound_by ev conn.
Proof.
  intros Hevs.
  destruct evs as [|[[] rq1 [exc|c]| |] [|[|[] c' [exc'|[]]|] [|??]]];
    simpl in Hevs; try done; eexists; (split; [done|]); simpl;
    intuition congruence.
Qed.

Lemma lookup_unbound tr :
  Forall (λ ev, ev_site ev = AtLookup) tr → Forall unbound_event tr.
Proof.
  intros Hf. eapply Forall_impl; [exact Hf|].
  intros ev Hs. split; [by left|].
  intros conn Hb.
  destruct ev as [s ? ans|s ? ans|]; simpl in *; [| |done]; by subst s.
Qed.

(** A loop that is not left with a connection bound none. *)
Lemma bind_loop_unbound self u pw ts tr r :
  runs (bind_loop self u pw ts) tr r →
  (∀ x, r ≠ Returned (Some x)) → Forall unbound_event tr.
Proof.
  intros (failed & rest & tr_last & _ & Hfailed & -> & Hlast)%bind_loop_spec Hr.
  apply Forall_app. split.
  - clear Hlast. induction Hfailed as [|[[dn ud] evs] failed (_ & Hevs & _) _ IH];
      simpl; [constructor|].
    apply Forall_app. split; [by eapply failed_attempt_unbound|done].
  - destruct r as [[[conn userdn]|]|e]; [by destruct (Hr (conn, userdn))| |].
    + destruct Hlast as [_ ->]. constructor.
    + destruct Hlast as (dn & rest' & _ & [[_ ->]|(ud & _ & [Hevs|Hevs])]);
        [constructor|by eapply aborted_attempt_unbound|].
      by eapply failed_attempt_unbound, unlogged_attempt_failed.
Qed.

(** A loop left with a connection: what came before the successful
    attempt bound none. *)
Lemma bind_loop_bound_split self u pw ts tr conn userdn :
  runs (bind_loop self u pw ts) tr (Returned (Some (conn, userdn))) →
  ∃ tr0 evs,
    tr = tr0 ++ evs ∧ Forall unbound_event tr0
    ∧ successful_attempt userdn conn evs.
Proof.
  intros (failed & rest & tr_last & _ & Hfailed & -> & Hlast)%bind_loop_spec.
  destruct Hlast as (dn & rest' & _ & _ & Hevs).
  exists (List.concat failed.*2), tr_last. repeat split; [|done].
  clear Hevs. induction Hfailed as [|[[dn' ud] evs] failed (_ & Hevs & _) _ IH];
    simpl; [constructor|].
  apply Forall_app. split; [by eapply failed_attempt_unbound|done].
Qed.

Lemma authenticate_candidates_runs self data u pw ts tr r :
  runs (authenticate_candidates self data u pw ts) tr r →
  (∃ tr1 tr2 conn userdn,
      tr = tr1 ++ tr2
      ∧ runs (bind_loop self u pw ts) tr1 (Returned (Some (conn, userdn)))
      ∧ runs (authenticate_bound self data u conn userdn) tr2 r)
  ∨ (runs (bind_loop self u pw ts) tr (Returned None) ∧ r = Returned None)
  ∨ (∃ e, runs (bind_loop self u pw ts) tr (Raised e) ∧ r = Raised e).
Proof.
  unfold authenticate_candidates.
  intros [(e & Hr & ->)|([[conn userdn]|] & tr1 & tr2 & Hl & Hr & ->)]%runs_bind_inv.
  - right; right. by exists e.
  - left. by exists tr1, tr2, conn, userdn.
  - apply runs_mret_inv in Hr as [-> ->]. right; left. by rewrite app_nil_r.
Qed.

Lemma authenticate_candidates_calls self data u pw ts :
  calls_from (λ s, s ≠ AtLookup) (authenticate_candidates self data u pw ts).
Proof.
  unfold authenticate_candidates. apply calls_from_bind.
  - eapply calls_from_weaken, bind_loop_calls. by intros ? ->.
  - intros [[conn userdn]|]; [|constructor].
    eapply calls_from_weaken, authenticate_bound_calls.
    by intros ? [->|[->| ->]].
Qed.

(** The ways through [authenticate] up to the bind loop. *)
Lemma authenticate_runs self data tr r :
  runs (authenticate self data) tr r →
  (tr = [] ∧ r = Returned None)
  ∨ (∃ pw, data_password data = Some pw ∧ lookup_dn self = false
           ∧ runs (authenticate_candidates self data (data_username data) pw
                     (bind_dn_template self)) tr r)
  ∨ (lookup_dn self = true
     ∧ ∃ pw tr_lookup r0,
         data_password data = Some pw
         ∧ runs (resolve_username self (data_username data)) tr_lookup r0
         ∧ match r0 with
           | Raised e => tr = tr_lookup ∧ r = Raised e
           | Returned (None, _) => tr = tr_lookup ∧ r = Returned None
           | Returned (Some u, d) =>
               if Py.truthy u then
                 match bind_dn_template self, d with
                 | [], None => tr = tr_lookup ∧ r = Raised AttributeError
                 | [], Some dn =>
                     ∃ tr_rest, tr = tr_lookup ++ tr_rest
                       ∧ runs (authenticate_candidates self data u pw [dn]) tr_rest r
                 | ts, _ =>
                     ∃ tr_rest, tr = tr_lookup ++ tr_rest
                       ∧ runs (authenticate_candidates self data u pw ts) tr_rest r
                 end
               else tr = tr_lookup ∧ r = Returned None
           end).
Proof.
  unfold authenticate. intros Hr.
  destruct (negb (re_match _ _)); [left; by apply runs_mret_inv in Hr|].
  destruct (data_password data) as [pw|]; [|left; by apply runs_mret_inv in Hr].
  destruct (negb (Py.truthy (Py.strip pw))); [left; by apply runs_mret_inv in Hr|].
  destruct (lookup_dn self) eqn:Hlookup; simpl in Hr.
  - right; right. split; [done|].
    apply runs_bind_inv in Hr
      as [(e & Hl & ->)|([[u|] d] & tr1 & tr2 & Hl & Hr & ->)].
    + by exists pw, tr, (Raised e).
    + exists pw, tr1, (Returned (Some u, d)). repeat split; [done|].
      destruct (Py.truthy u); simpl in Hr;
        [|apply runs_mret_inv in Hr as [-> ->]; by rewrite app_nil_r].
      destruct (bind_dn_template self) as [|t ts]; simpl in Hr; [|by exists tr2].
      apply runs_bind_inv in Hr
        as [(e & [-> Hd]%runs_lift_Raised & ->)
           |(dn & tr3 & tr4 & [-> Hd]%runs_lift_Returned & Hr & ->)].
      * destruct d; simplify_eq/=. by rewrite app_nil_r.
      * destruct d; simplify_eq/=. by exists tr4.
    + apply runs_mret_inv in Hr as [-> ->].
      exists pw, tr1, (Returned (None, d)). by rewrite app_nil_r.
  - destruct (negb (Py.nonempty (bind_dn_template self)));
      [left; by apply runs_mret_inv in Hr|].
    right; left. by exists pw.
Qed.


Lemma Forall_site_elem (P : site → Prop) tr ev :
  Forall (λ ev, P (ev_site ev)) tr → ev ∈ tr → P (ev_site ev).
Proof. intros Hf Hin. by apply (proj1 (Forall_forall _ _) Hf). Qed.

Lemma authenticate_candidates_reach self data u pw ts tr r :
  runs (authenticate_candidates self data u pw ts) tr r →
  bind_phase self data u tr r.
Proof.
  intros [(tr1 & tr2 & conn & userdn & -> & Hl & Hr)
         |[[Hl ->]|(e & Hl & ->)]]%authenticate_candidates_runs.
  - split.
    + intros s rq ans [Hin|Hin]%elem_of_app Hs.
      * destruct (bind_loop_connect _ _ _ _ _ _ _ _ _ Hl Hin)
          as (dn & ud & _ & ? & ?). eauto.
      * pose proof (Forall_site_elem _ _ _
          (calls_from_runs _ _ _ _ (authenticate_bound_calls _ _ _ _ _) Hr) Hin)
          as Hsite.
        simpl in Hsite. subst s. by destruct Hsite as [?|[?|?]].
    + right. apply bind_loop_bound_split in Hl as (tr0 & evs & -> & ? & ?).
      exists conn, userdn, tr0, evs, tr2. by rewrite <- (assoc_L (++)).
  - split.
    + intros s rq ans Hin _.
      destruct (bind_loop_connect _ _ _ _ _ _ _ _ _ Hl Hin)
        as (dn & ud & _ & ? & ?). eauto.
    + left. split; [done|]. by eapply bind_loop_unbound.
  - split.
    + intros s rq ans Hin _.
      destruct (bind_loop_connect _ _ _ _ _ _ _ _ _ Hl Hin)
        as (dn & ud & _ & ? & ?). eauto.
    + left. split; [done|]. by eapply bind_loop_unbound.
Qed.

(** A run that made only lookup calls and returned no identity. *)
Lemma lookup_only_phase self data u tr r :
  Forall (λ ev, ev_site ev = AtLookup) tr →
  (∀ id, r ≠ Returned (Some id)) →
  bind_phase self data u tr r.
Proof.
  intros Hsites Hid. split.
  - intros s rq ans Hin Hs.
    pose proof (Forall_site_elem (λ s, s = AtLookup) _ _ Hsites Hin) as Hsite.
    simpl in Hsite. by subst s.
  - left. split; [done|]. by apply lookup_unbound.
Qed.

(** Lookup calls in front of a run do not change its shape. *)
Lemma lookup_then_phase self data u tr_lookup tr r :
  Forall (λ ev, ev_site ev = AtLookup) tr_lookup →
  bind_phase self data u tr r →
  bind_phase self data u (tr_lookup ++ tr) r.
Proof.
  intros Hsites [Hconn Hcases]. split.
  - intros s rq ans [Hin|Hin]%elem_of_app Hs; [|by eapply Hconn].
    pose proof (Forall_site_elem (λ s, s = AtLookup) _ _ Hsites Hin) as Hsite.
    simpl in Hsite. by subst s.
  - destruct Hcases as [[Hid Hun]|(conn & userdn & tr_pre & evs & tr_post
                                    & -> & Hpre & Hevs & Hr')].
    + left. split; [done|].
      apply Forall_app. split; [by apply lookup_unbound|done].
    + right. exists conn, userdn, (tr_lookup ++ tr_pre), evs, tr_post.
      rewrite <- (assoc_L (++)). repeat split; [|done..].
      apply Forall_app. split; [by apply lookup_unbound|done].
Qed.

(** Every run of [authenticate] has one effective user name [u], the
    supplied one unless [lookup_dn] is set, with which it goes through
    the bind loop. *)
Lemma authenticate_reach self data tr r :
  runs (authenticate self data) tr r →
  ∃ u, (lookup_dn self = false → u = data_username data)
       ∧ bind_phase self data u tr r.
Proof.
  intros [[-> ->]|[(pw & _ & Hlookup & Hr)
                  |(Hlookup & pw & tr_lookup & r0 & _ & Hl & Hr)]]%authenticate_runs.
  - exists (data_username data). split; [done|].
    by apply lookup_only_phase; [constructor|].
  - exists (data_username data). split; [done|].
    by apply authenticate_candidates_reach in Hr.
  - pose proof (calls_from_runs _ _ _ _ (resolve_username_calls _ _) Hl) as Hsites.
    assert (∀ u, lookup_dn self = false → u = data_username data) as Hu.
    { intros u. by rewrite Hlookup. }
    destruct r0 as [[[u|] d]|e].
    + destruct (Py.truthy u);
        [|destruct Hr as [-> ->]; exists u; split; [apply Hu|];
          by apply lookup_only_phase].
      exists u. split; [apply Hu|].
      destruct (bind_dn_template self) as [|t ts].
      * destruct d as [dn|].
        -- destruct Hr as (tr_rest & -> & Hr).
           by apply lookup_then_phase, (authenticate_candidates_reach _ _ _ pw [dn]).
        -- destruct Hr as [-> ->]. by apply lookup_only_phase.
      * destruct Hr as (tr_rest & -> & Hr).
        by apply lookup_then_phase,
             (authenticate_candidates_reach _ _ _ pw (t :: ts)).
    + destruct Hr as [-> ->]. exists (data_username data). split; [apply Hu|].
      by apply lookup_only_phase.
    + destruct Hr as [-> ->]. exists (data_username data). split; [apply Hu|].
      by apply lookup_only_phase.
Qed.

(** ** The validator of [bind_dn_template] *)

(** A single string is kept as a one-element list, unless it is empty. *)
Lemma validate_single_string value :
  _validate_bind_dn_template (ProposedStr value)
  = if Py.truthy value then [value] else [].
Proof. by destruct value. Qed.

(** C1 (the code departs from the claim): whatever list of templates is
    configured, the validator answers the empty list; the given
    templates are not preserved. *)
Theorem validate_drops_configured_list (value : list string) :
  _validate_bind_dn_template (ProposedList value) = [].
Proof. reflexivity. Qed.

(** C2 (the code departs from the claim): with [lookup_dn] off, once a
    list of templates has been configured [authenticate] returns
    [None] for every login without asking the directory anything;
    no template is substituted and no bind is attempted. *)
Theorem configured_list_never_tried self (value : list string) data :
  lookup_dn self = false →
  ∀ W (h : handler W) (w : W),
    run h w (authenticate (set_bind_dn_template self (ProposedList value)) data)
    = (Returned None, [], w).
Proof.
  intros Hlookup W h w. unfold authenticate. simpl. rewrite Hlookup. simpl.
  destruct (negb (re_match _ _)); [done|].
  destruct (data_password data) as [pw|]; [|done].
  by destruct (negb (Py.truthy (Py.strip pw))).
Qed.

(** ** Rejection before any call *)


(** ** [check_allowed] *)

(** C9: [check_allowed] is a program that returns a verdict without
    any call to the directory; the verdict depends only on the
    configuration, the user name and the auth model, so two calls,
    against whatever directories in whatever states, or one after the
    other, give the same verdict, an empty trace, and leave the
    directory as it was. *)
Theorem check_allowed_pure self username auth_model :
  ∃ verdict : bool,
    check_allowed self username auth_model = Ret verdict
    ∧ ∀ W1 W2 (h1 : handler W1) (h2 : handler W2) (w1 : W1) (w2 : W2),
        run h1 w1 (check_allowed self username auth_model)
        = (Returned verdict, [], w1)
        ∧ run h2 w2 (check_allowed self username auth_model)
          = (Returned verdict, [], w2)
        ∧ run h1 w1 (first ← check_allowed self username auth_model;
                     second ← check_allowed self username auth_model;
                     mret (first, second))
          = (Returned (verdict, verdict), [], w1).
Proof.
  assert (∃ verdict, check_allowed self username auth_model = Ret verdict)
    as [verdict Hv].
  { unfold check_allowed.
    destruct (allow_all self).
    - destruct (super_check_allowed _ _ _); [by eexists|].
      destruct (_ && _); by eexists.
    - destruct (_ && _); [by eexists|].
      destruct (_ && _); [by eexists|].
      destruct (_ && _); by eexists. }
  exists verdict. split; [done|]. intros. by rewrite Hv.
Qed.

(** ** Lookup of the DN *)

(** A lookup search whose answer makes [resolve_username] give up ends
    [authenticate] with [None], with no call but those of the lookup. *)
Lemma lookup_rejects self data tr r c rq res :
  runs (authenticate self data) tr r →
  EvSearch AtLookup c rq (inr res) ∈ tr →
  (∀ tr' r', runs (resolve_response self res) tr' r'
             → r' = Returned (None, None)) →
  r = Returned None ∧ Forall (λ ev, ev_site ev = AtLookup) tr.
Proof.
  intros [[-> ->]|[(pw & _ & _ & Hr)
                  |(_ & pw & tr_lookup & r0 & _ & Hl & Hr)]]%authenticate_runs
    Hin Hres.
  - by trace_mem Hin.
  - pose proof (Forall_site_elem _ _ _
      (calls_from_runs _ _ _ _ (authenticate_candidates_calls _ _ _ _ _) Hr) Hin)
      as Hsite. by simpl in Hsite.
  - pose proof (calls_from_runs _ _ _ _ (resolve_username_calls _ _) Hl) as Hsites.
    assert (EvSearch AtLookup c rq (inr res) ∈ tr_lookup) as Hin'.
    { destruct r0 as [[[u|] d]|e]; [|by destruct Hr as [-> _]..].
      destruct (Py.truthy u); [|by destruct Hr as [-> _]].
      assert (∀ tr_rest ts, tr = tr_lookup ++ tr_rest →
                runs (authenticate_candidates self data u pw ts) tr_rest r →
                EvSearch AtLookup c rq (inr res) ∈ tr_lookup) as Hrest.
      { intros tr_rest ts -> Hr'. apply elem_of_app in Hin as [Hin|Hin]; [done|].
        pose proof (Forall_site_elem _ _ _
          (calls_from_runs _ _ _ _ (authenticate_candidates_calls _ _ _ _ _) Hr')
          Hin) as Hsite. by simpl in Hsite. }
      destruct (bind_dn_template self) as [|t ts].
      - destruct d as [dn|]; [|by destruct Hr as [-> _]].
        destruct Hr as (tr_rest & Htr & Hr). by eapply Hrest.
      - destruct Hr as (tr_rest & Htr & Hr). by eapply Hrest. }
    pose proof (resolve_username_search _ _ _ _ _ _ _ _ Hl Hin') as Hr0.
    apply Hres in Hr0 as ->. by destruct Hr as [-> ->].
Qed.

(** C10: when the lookup search of a run is answered with a first
    entry whose [lookup_dn_user_dn_attribute] value is the empty list,
    [resolve_username] returns [(None, None)], and [authenticate]
    returns [None] having made no call but those of the lookup: no
    user bind is attempted. *)
Theorem empty_dn_attribute_rejects self res first rest attrs attr :
  response res = first :: rest →
  entry_attributes first = Some attrs →
  lookup_dn_user_dn_attribute self = Some attr →
  attrs !! attr = Some (AttrList []) →
  (∀ username W (h : handler W) (w : W) c rq,
     EvSearch AtLookup c rq (inr res)
       ∈ trace_of h w (resolve_username self username) →
     result_of h w (resolve_username self username) = Returned (None, None))
  ∧ (∀ data W (h : handler W) (w : W) c rq,
       EvSearch AtLookup c rq (inr res) ∈ trace_of h w (authenticate self data) →
       result_of h w (authenticate self data) = Returned None
       ∧ calls_at AtUserBind (trace_of h w (authenticate self data)) = []
       ∧ Forall (λ ev, ev_site ev = AtLookup)
           (trace_of h w (authenticate self data))).
Proof.
  intros Hres Hattrs Hattr Hvalue. split.
  - intros username W h w c rq Hin.
    pose proof (run_runs h w (resolve_username self username)) as Hr.
    pose proof (resolve_username_search _ _ _ _ _ _ _ _ Hr Hin) as Hr0.
    by eapply resolve_response_empty_value.
  - intros data W h w c rq Hin.
    pose proof (run_runs h w (authenticate self data)) as Hr.
    destruct (lookup_rejects _ _ _ _ _ _ _ Hr Hin) as [-> Hsites].
    { intros tr' r'. by eapply resolve_response_empty_value. }
    repeat split; [|done].
    by eapply (calls_at_none _ (λ s, s = AtLookup)).
Qed.


(** ** The search filter *)

Lemma successful_attempt_split userdn conn evs ev conn' :
  successful_attempt userdn conn evs →
  ev ∈ evs → is_bound_by ev conn' →
  conn' = conn ∧ ∃ evs0, evs = evs0 ++ [ev].
Proof.
  intros Hevs Hin Hb.
  destruct evs as [|[[] rq1 [exc|c]| |] [|[|[] c' [exc'|[]]|] [|??]]];
    simpl in Hevs; try done; trace_mem Hin; simplify_eq; simpl in Hb.
  - split; [intuition congruence|]. by exists [].
  - intuition congruence.
  - split; [intuition congruence|]. by eexists [_].
Qed.

Lemma authenticate_bound_runs self data u conn userdn tr r :
  runs (authenticate_bound self data u conn userdn) tr r →
  if Py.truthy (search_filter self) then
    (∃ e, str_format (search_filter self)
            [("userattr", Py.str_of (user_attribute self));
             ("username", escape_filter_chars u)] = inl e
          ∧ tr = [] ∧ r = Raised e)
    ∨ ∃ rq ans tr',
        tr = EvSearch AtSearchFilter conn rq ans :: tr'
        ∧ rq_base rq = user_search_base self ∧ rq_scope rq = SUBTREE
        ∧ rq_attributes rq = Some <$> attributes self
        ∧ str_format (search_filter self)
            [("userattr", Py.str_of (user_attribute self));
             ("username", escape_filter_chars u)] = inr (rq_filter rq)
        ∧ match ans with
          | inl e => tr' = [] ∧ r = Raised e
          | inr res =>
              if decide (List.length (response res) = 1)
              then runs (authenticate_groups self data u conn userdn) tr' r
              else tr' = [] ∧ r = Returned None
          end
  else runs (authenticate_groups self data u conn userdn) tr r.
Proof.
  unfold authenticate_bound. destruct (Py.truthy (search_filter self)); [|done].
  intros [(e & [-> Hf]%runs_lift_Raised & ->)
         |(f & tr1 & tr2 & [-> Hf]%runs_lift_Returned & Hr & ->)]%runs_bind_inv.
  { left. by exists e. }
  right.
  apply runs_bind_inv in Hr
    as [(e & ->%runs_conn_search_Raised & ->)
       |(res & tr1 & tr3 & ->%runs_conn_search_Returned & Hr & ->)].
  { eexists _, (inl e), []. by repeat split. }
  eexists _, (inr res), tr3. repeat split; [done|]. simpl in Hr.
  destruct (List.length (response res)) as [|[|n]]; simpl in *.
  - by apply runs_mret_inv in Hr.
  - done.
  - by apply runs_mret_inv in Hr.
Qed.

Lemma authenticate_groups_runs self data u conn userdn tr r :
  runs (authenticate_groups self data u conn userdn) tr r →
  if Py.nonempty (default [] (allowed_groups self)) then
    if negb (Py.truthy (group_search_filter self))
       || negb (Py.nonempty (group_attributes self))
    then tr = [] ∧ r = Returned None
    else
      (∃ e, runs (probe_groups self conn userdn u
                    (default [] (allowed_groups self))) tr (Raised e)
            ∧ r = Raised e)
      ∨ (∃ gs tr1 tr2,
            tr = tr1 ++ tr2
            ∧ runs (probe_groups self conn userdn u
                      (default [] (allowed_groups self))) tr1 (Returned gs)
            ∧ runs (authenticate_finish self data u conn userdn gs) tr2 r)
  else runs (authenticate_finish self data u conn userdn []) tr r.
Proof.
  unfold authenticate_groups.
  destruct (Py.nonempty _); [|done].
  destruct (_ || _); [apply runs_mret_inv|].
  intros [(e & Hr & ->)|(gs & tr1 & tr2 & Hp & Hr & ->)]%runs_bind_inv.
  - left. by exists e.
  - right. by exists gs, tr1, tr2.
Qed.

(** A search made for the search filter is the first call after the
    successful bind; what it finds decides how the run goes on. *)
Lemma search_filter_event self data tr r c rq ans :
  runs (authenticate self data) tr r →
  EvSearch AtSearchFilter c rq ans ∈ tr →
  ∃ u userdn tr_pre evs tr_post,
    tr = tr_pre ++ evs ++ EvSearch AtSearchFilter c rq ans :: tr_post
    ∧ Forall unbound_event tr_pre ∧ successful_attempt userdn c evs
    ∧ (lookup_dn self = false → u = data_username data)
    ∧ rq_base rq = user_search_base self ∧ rq_scope rq = SUBTREE
    ∧ rq_attributes rq = Some <$> attributes self
    ∧ str_format (search_filter self)
        [("userattr", Py.str_of (user_attribute self));
         ("username", escape_filter_chars u)] = inr (rq_filter rq)
    ∧ match ans with
      | inl e => tr_post = [] ∧ r = Raised e
      | inr res =>
          if decide (List.length (response res) = 1)
          then runs (authenticate_groups self data u c userdn) tr_post r
          else tr_post = [] ∧ r = Returned None
      end.
Proof.
  intros (u & Hu & _ & [[_ Hun]|(conn & userdn & tr_pre & evs & tr_post
                                 & -> & Hpre & Hevs & Hr)])%authenticate_reach Hin.
  { apply (proj1 (Forall_forall _ _) Hun) in Hin as [[?|?] _]; done. }
  apply elem_of_app in Hin as [Hin|[Hin|Hin]%elem_of_app].
  { apply (proj1 (Forall_forall _ _) Hpre) in Hin as [[?|?] _]; done. }
  { by apply (Forall_site_elem (λ s, s = AtUserBind) _ _
                (successful_attempt_sites _ _ _ Hevs)) in Hin. }
  pose proof (authenticate_bound_runs _ _ _ _ _ _ _ Hr) as Hb.
  destruct (Py.truthy (search_filter self)).
  - destruct Hb as [(e & _ & -> & _)
                   |(rq' & ans' & tr' & -> & ? & ? & ? & ? & Hans)];
      [by trace_mem Hin|].
    apply elem_of_cons in Hin as [Hin|Hin].
    + simplify_eq. by exists u, userdn, tr_pre, evs, tr'.
    + assert (runs (authenticate_groups self data u conn userdn) tr' r) as Hg.
      { destruct ans' as [e|res]; [destruct Hans as [-> _]; by trace_mem Hin|].
        destruct (decide _); [done|]. destruct Hans as [-> _]. by trace_mem Hin. }
      pose proof (Forall_site_elem _ _ _
        (calls_from_runs _ _ _ _ (authenticate_groups_calls _ _ _ _ _) Hg) Hin)
        as Hsite. by destruct Hsite.
  - pose proof (Forall_site_elem _ _ _
      (calls_from_runs _ _ _ _ (authenticate_groups_calls _ _ _ _ _) Hb) Hin)
      as Hsite. by destruct Hsite.
Qed.

(** The search of the search filter.  With a [search_filter]
    configured, (1) once a call of the bind loop has left a connection
    bound, the next call is the search, on that connection, under
    [user_search_base], sub-tree scoped, with the filter in which the
    filter-escaped user name is substituted (or formatting the filter
    raised); (2) a search whose response has no element, or more than
    one, ends [authenticate] with [None] and nothing more is asked of
    the directory; (3) an identity is returned only after a search
    whose response has exactly one element.  What is counted is
    [len(conn.response)]: entries and search references alike. *)
Theorem search_filter_counts_response self data W (h : handler W) (w : W) :
  Py.truthy (search_filter self) = true →
  (∀ ev conn, ev ∈ trace_of h w (authenticate self data) →
     is_bound_by ev conn →
     ∃ u, (lookup_dn self = false → u = data_username data) ∧
       ((∃ e tr_pre,
           str_format (search_filter self)
             [("userattr", Py.str_of (user_attribute self));
              ("username", escape_filter_chars u)] = inl e
           ∧ trace_of h w (authenticate self data) = tr_pre ++ [ev]
           ∧ result_of h w (authenticate self data) = Raised e)
        ∨ (∃ rq ans tr_pre tr_post,
             trace_of h w (authenticate self data)
             = tr_pre ++ ev :: EvSearch AtSearchFilter conn rq ans :: tr_post
             ∧ rq_base rq = user_search_base self ∧ rq_scope rq = SUBTREE
             ∧ rq_attributes rq = Some <$> attributes self
             ∧ str_format (search_filter self)
                 [("userattr", Py.str_of (user_attribute self));
                  ("username", escape_filter_chars u)] = inr (rq_filter rq))))
  ∧ (∀ c rq res,
       EvSearch AtSearchFilter c rq (inr res)
         ∈ trace_of h w (authenticate self data) →
       List.length (response res) ≠ 1 →
       result_of h w (authenticate self data) = Returned None
       ∧ last (trace_of h w (authenticate self data))
         = Some (EvSearch AtSearchFilter c rq (inr res)))
  ∧ (∀ id, result_of h w (authenticate self data) = Returned (Some id) →
       ∃ c rq res,
         EvSearch AtSearchFilter c rq (inr res)
           ∈ trace_of h w (authenticate self data)
         ∧ List.length (response res) = 1).
Proof.
  intros Hfilter.
  pose proof (run_runs h w (authenticate self data)) as Hrun.
  revert Hrun.
  generalize (trace_of h w (authenticate self data)) as tr.
  generalize (result_of h w (authenticate self data)) as r.
  intros r tr Hrun. split; [|split].
  - intros ev conn Hin Hb.
    destruct (authenticate_reach _ _ _ _ Hrun)
      as (u & Hu & _ & [[_ Hun]|(conn' & userdn & tr_pre & evs & tr_post
                                 & -> & Hpre & Hevs & Hr)]).
    { apply (proj1 (Forall_forall _ _) Hun) in Hin as [_ Hnb]. by destruct (Hnb conn). }
    exists u. split; [done|].
    assert (ev ∈ evs) as Hin'.
    { apply elem_of_app in Hin as [Hin|[Hin|Hin]%elem_of_app]; [|done|].
      - apply (proj1 (Forall_forall _ _) Hpre) in Hin as [_ Hnb].
        by destruct (Hnb conn).
      - pose proof (Forall_site_elem _ _ _
          (calls_from_runs _ _ _ _ (authenticate_bound_calls _ _ _ _ _) Hr) Hin)
          as Hsite.
        destruct ev as [s ? [?|?]|s ? [?|[]]|]; simpl in *; try done;
          destruct s; try done; by destruct Hsite as [?|[?|?]]. }
    destruct (successful_attempt_split _ _ _ _ _ Hevs Hin' Hb) as [-> [evs0 ->]].
    apply authenticate_bound_runs in Hr. rewrite Hfilter in Hr.
    destruct Hr as [(e & Hf & -> & ->)
                   |(rq & ans & tr' & -> & ? & ? & ? & ? & _)].
    + left. exists e, (tr_pre ++ evs0). by rewrite app_nil_r, (assoc_L (++)).
    + right. exists rq, ans, (tr_pre ++ evs0), tr'.
      repeat split; [|done..]. by rewrite <- !(assoc_L (++)).
  - intros c rq res Hin Hlen.
    destruct (search_filter_event _ _ _ _ _ _ _ Hrun Hin)
      as (u & userdn & tr_pre & evs & tr_post & -> & _ & _ & _ & _ & _ & _ & _ & Hans).
    simpl in Hans. destruct (decide _); [done|]. destruct Hans as [-> ->].
    split; [done|]. by rewrite !(assoc_L (++)), last_snoc.
  - intros id ->.
    destruct (authenticate_reach _ _ _ _ Hrun)
      as (u & Hu & _ & [[Hid _]|(conn' & userdn & tr_pre & evs & tr_post
                                 & -> & Hpre & Hevs & Hr)]).
    { by destruct (Hid id). }
    apply authenticate_bound_runs in Hr. rewrite Hfilter in Hr.
    destruct Hr as [(e & _ & _ & ?)
                   |(rq & [e|res] & tr' & -> & _ & _ & _ & _ & Hans)]; [done| |].
    { by destruct Hans. }
    destruct (decide _) as [Hone|]; [|by destruct Hans].
    exists conn', rq, res. split; [|done].
    apply elem_of_app; right. apply elem_of_app; right. apply list_elem_of_here.
Qed.


(** ** The allowed groups *)

Lemma unbound_before_groups tr : Forall unbound_event tr → before_groups tr.
Proof.
  intros Hf. eapply Forall_impl; [exact Hf|].
  intros ev [[Hs|Hs] _]; rewrite Hs; done.
Qed.

Lemma user_bind_before_groups tr :
  Forall (λ ev, ev_site ev = AtUserBind) tr → before_groups tr.
Proof. intros Hf. eapply Forall_impl; [exact Hf|]. by intros ev ->. Qed.

Lemma unbound_not_passed self tr : Forall unbound_event tr → ¬ passed_checks self tr.
Proof.
  intros Hun (ev & Hlast & Hev).
  assert (ev ∈ tr) as Hin.
  { destruct tr as [|ev0 tr] using rev_ind; [done|].
    rewrite last_snoc in Hlast. simplify_eq.
    apply elem_of_app; right. apply list_elem_of_here. }
  apply (proj1 (Forall_forall _ _) Hun) in Hin as [Hsite Hnb].
  destruct (Py.truthy (search_filter self)).
  - destruct Hev as (c & rq & res & -> & _). by destruct Hsite.
  - destruct Hev as (conn & Hb). by destruct (Hnb conn).
Qed.

(** Every run of [authenticate] either stops before the group check,
    without an identity, or comes through the bind and the search
    filter and goes on as [authenticate_groups]. *)
Lemma authenticate_reach_groups self data tr r :
  runs (authenticate self data) tr r →
  ((∀ id, r ≠ Returned (Some id)) ∧ before_groups tr ∧ ¬ passed_checks self tr)
  ∨ ∃ u conn userdn tr_pre tr_g,
      tr = tr_pre ++ tr_g ∧ before_groups tr_pre ∧ passed_checks self tr_pre
      ∧ runs (authenticate_groups self data u conn userdn) tr_g r.
Proof.
  intros (u & _ & _ & [[Hid Hun]|(conn & userdn & tr_pre & evs & tr_post
                                  & -> & Hpre & Hevs & Hr)])%authenticate_reach.
  { left. repeat split; [done|by apply unbound_before_groups
                         |by apply unbound_not_passed]. }
  destruct (successful_attempt_last _ _ _ Hevs) as (ev & Hlast & Hb).
  assert (∃ evs0, evs = evs0 ++ [ev]) as [evs0 ->].
  { destruct evs as [|ev' evs0] using rev_ind; [done|].
    rewrite last_snoc in Hlast. simplify_eq. by exists evs0. }
  assert (before_groups (tr_pre ++ evs0 ++ [ev])) as Hbefore.
  { apply Forall_app. split; [by apply unbound_before_groups|].
    by apply user_bind_before_groups, (successful_attempt_sites userdn conn). }
  apply authenticate_bound_runs in Hr.
  destruct (Py.truthy (search_filter self)) eqn:Hfilter.
  - destruct Hr as [(e & _ & -> & ->)
                   |(rq & ans & tr' & -> & _ & _ & _ & _ & Hans)].
    + left. rewrite app_nil_r. repeat split; [done..|].
      intros (ev' & Hlast' & Hev'). rewrite Hfilter in Hev'.
      rewrite !(assoc_L (++)), last_snoc in Hlast'. simplify_eq.
      destruct Hev' as (c & rq & res & -> & _). by simpl in Hb.
    + assert (before_groups ((tr_pre ++ evs0 ++ [ev])
                             ++ [EvSearch AtSearchFilter conn rq ans])) as Hbefore'.
      { apply Forall_app. split; [done|]. by repeat constructor. }
      assert ((tr_pre ++ (evs0 ++ [ev]) ++ EvSearch AtSearchFilter conn rq ans :: tr')
              = ((tr_pre ++ evs0 ++ [ev]) ++ [EvSearch AtSearchFilter conn rq ans])
                ++ tr') as Heq.
      { by rewrite <- !(assoc_L (++)). }
      rewrite Heq.
      destruct ans as [e|res].
      * destruct Hans as [-> ->]. left. rewrite app_nil_r. repeat split; [done..|].
        intros (ev' & Hlast' & Hev'). rewrite Hfilter in Hev'.
        rewrite last_snoc in Hlast'. simplify_eq. by destruct Hev' as (? & ? & ? & ? & _).
      * destruct (decide _) as [Hone|Hnone].
        -- right. eexists u, conn, userdn, _, tr'. repeat split; [done| |done].
           eexists. rewrite last_snoc. split; [done|]. rewrite Hfilter. eauto.
        -- destruct Hans as [-> ->]. left. rewrite app_nil_r.
           repeat split; [done..|].
           intros (ev' & Hlast' & Hev'). rewrite Hfilter in Hev'.
           rewrite last_snoc in Hlast'. simplify_eq.
           destruct Hev' as (? & ? & ? & ? & ?). by simplify_eq.
  - right. exists u, conn, userdn, (tr_pre ++ evs0 ++ [ev]), tr_post.
    repeat split; [by rewrite <- !(assoc_L (++))|done| |done].
    exists ev. rewrite !(assoc_L (++)), last_snoc. split; [done|].
    rewrite Hfilter. by exists conn.
Qed.

(** C6: with [allowed_groups] configured and [group_search_filter] or
    [group_attributes] empty, [authenticate] never returns an identity
    and never probes a group or fetches attributes; and a run that has
    come through the bind (and the search filter, if there is one)
    returns [None]. *)
Theorem missing_group_settings_deny self data groups W (h : handler W) (w : W) :
  allowed_groups self = Some groups → groups ≠ [] →
  Py.truthy (group_search_filter self) = false
  ∨ Py.nonempty (group_attributes self) = false →
  (∀ id, result_of h w (authenticate self data) ≠ Returned (Some id))
  ∧ calls_at AtGroupProbe (trace_of h w (authenticate self data)) = []
  ∧ calls_at AtUserAttributes (trace_of h w (authenticate self data)) = []
  ∧ (passed_checks self (trace_of h w (authenticate self data)) →
     result_of h w (authenticate self data) = Returned None).
Proof.
  intros Hgroups Hne Hmissing.
  pose proof (run_runs h w (authenticate self data)) as Hrun.
  revert Hrun.
  generalize (trace_of h w (authenticate self data)) as tr.
  generalize (result_of h w (authenticate self data)) as r.
  intros r tr Hrun.
  assert (∀ tr', before_groups tr' →
            calls_at AtGroupProbe tr' = [] ∧ calls_at AtUserAttributes tr' = [])
    as Hnone.
  { intros tr' Hb. split.
    - apply (calls_at_none _ (λ s, s ≠ AtGroupProbe)); [by intros []|].
      eapply Forall_impl; [exact Hb|]. by intros ? [? _].
    - apply (calls_at_none _ (λ s, s ≠ AtUserAttributes)); [by intros []|].
      eapply Forall_impl; [exact Hb|]. by intros ? [_ ?]. }
  destruct (authenticate_reach_groups _ _ _ _ Hrun)
    as [(Hid & Hbefore & Hnot)
       |(u & conn & userdn & tr_pre & tr_g & -> & Hbefore & Hpassed & Hg)].
  { destruct (Hnone _ Hbefore). by repeat split. }
  apply authenticate_groups_runs in Hg. rewrite Hgroups in Hg. simpl in Hg.
  destruct groups as [|g groups]; [done|]. simpl in Hg.
  assert (negb (Py.truthy (group_search_filter self))
          || negb (Py.nonempty (group_attributes self)) = true) as Hm.
  { destruct Hmissing as [-> | ->]; [done|]. by rewrite orb_true_r. }
  rewrite Hm in Hg. destruct Hg as [-> ->]. rewrite app_nil_r.
  destruct (Hnone _ Hbefore). by repeat split.
Qed.







(** ** Escaping of the user name *)

Lemma authenticate_bound_searches self data u conn userdn tr r s c rq ans :
  runs (authenticate_bound self data u conn userdn) tr r →
  EvSearch s c rq ans ∈ tr →
  (s = AtSearchFilter →
   str_format (search_filter self)
     [("userattr", Py.str_of (user_attribute self));
      ("username", escape_filter_chars u)] = inr (rq_filter rq))
  ∧ (s = AtGroupProbe →
     str_format (group_search_filter self)
       [("userdn", escape_filter_chars userdn);
        ("uid", escape_filter_chars u)] = inr (rq_filter rq)).
Proof.
  intros Hr Hin.
  assert (∀ tr', runs (authenticate_groups self data u conn userdn) tr' r →
                 EvSearch s c rq ans ∈ tr' →
                 s ≠ AtSearchFilter
                 ∧ (s = AtGroupProbe →
                    str_format (group_search_filter self)
                      [("userdn", escape_filter_chars userdn);
                       ("uid", escape_filter_chars u)] = inr (rq_filter rq)))
    as Hgroups.
  { intros tr' Hg Hin'. split.
    { pose proof (Forall_site_elem _ _ _
        (calls_from_runs _ _ _ _ (authenticate_groups_calls _ _ _ _ _) Hg) Hin')
        as Hsite. simpl in Hsite. by destruct Hsite as [-> | ->]. }
    intros ->. apply authenticate_groups_runs in Hg.
    destruct (Py.nonempty _).
    - destruct (_ || _); [destruct Hg as [-> _]; by trace_mem Hin'|].
      destruct Hg as [(e & Hp & _)|(gs & tr1 & tr2 & -> & Hp & Hfin)].
      + by eapply probe_groups_search.
      + apply elem_of_app in Hin' as [Hin'|Hin'];
          [by eapply probe_groups_search|].
        by pose proof (Forall_site_elem _ _ _
          (calls_from_runs _ _ _ _ (authenticate_finish_calls _ _ _ _ _ _) Hfin)
          Hin').
    - by pose proof (Forall_site_elem _ _ _
        (calls_from_runs _ _ _ _ (authenticate_finish_calls _ _ _ _ _ _) Hg)
        Hin'). }
  apply authenticate_bound_runs in Hr.
  destruct (Py.truthy (search_filter self)).
  - destruct Hr as [(e & _ & -> & _)
                   |(rq' & ans' & tr' & -> & _ & _ & _ & Hf & Hans)];
      [by trace_mem Hin|].
    apply elem_of_cons in Hin as [Hin|Hin]; [by simplify_eq|].
    assert (runs (authenticate_groups self data u conn userdn) tr' r) as Hg.
    { destruct ans' as [e|res]; [destruct Hans as [-> _]; by trace_mem Hin|].
      destruct (decide _); [done|]. destruct Hans as [-> _]. by trace_mem Hin. }
    destruct (Hgroups _ Hg Hin) as [? ?]. by split.
  - destruct (Hgroups _ Hr Hin) as [? ?]. by split.
Qed.

Lemma authenticate_candidates_connect self data u pw ts tr r s rq ans :
  runs (authenticate_candidates self data u pw ts) tr r →
  EvConnect s rq ans ∈ tr → s = AtUserBind →
  ∃ dn userdn,
    dn ∈ ts ∧ str_format dn [("username", escape_rdn u)] = inr userdn
    ∧ rq_user rq = Some userdn.
Proof.
  intros [(tr1 & tr2 & conn & userdn & -> & Hl & Hr)
         |[[Hl ->]|(e & Hl & ->)]]%authenticate_candidates_runs Hin Hs;
    [|by eapply bind_loop_connect..].
  apply elem_of_app in Hin as [Hin|Hin]; [by eapply bind_loop_connect|].
  pose proof (Forall_site_elem _ _ _
    (calls_from_runs _ _ _ _ (authenticate_bound_calls _ _ _ _ _) Hr) Hin)
    as Hsite.
  simpl in Hsite. subst s. by destruct Hsite as [?|[?|?]].
Qed.

(** The user name of a run, and where the DN of each connection of the
    bind loop comes from: one of the configured templates, or, with
    [lookup_dn] and no template, the DN of the first entry that the
    lookup found. *)
Lemma authenticate_templates self data tr r :
  runs (authenticate self data) tr r →
  ∃ u, (lookup_dn self = false → u = data_username data)
    ∧ bind_phase self data u tr r
    ∧ ∀ s rq ans, EvConnect s rq ans ∈ tr → s = AtUserBind →
        ∃ dn userdn,
          (dn ∈ bind_dn_template self
           ∨ (bind_dn_template self = [] ∧ lookup_dn self = true
              ∧ ∃ c rq' res first rest,
                  EvSearch AtLookup c rq' (inr res) ∈ tr
                  ∧ response res = first :: rest
                  ∧ entry_dn first = Some dn))
          ∧ str_format dn [("username", escape_rdn u)] = inr userdn
          ∧ rq_user rq = Some userdn.
Proof.
  intros Hrun.
  assert (∀ tr', Forall (λ ev, ev_site ev = AtLookup) tr' →
            ∀ s rq ans, EvConnect s rq ans ∈ tr' → s = AtUserBind → False)
    as Hlookup_sites.
  { intros tr' Hsites s rq ans Hin ->.
    by pose proof (Forall_site_elem (λ s, s = AtLookup) _ _ Hsites Hin). }
  destruct (authenticate_runs _ _ _ _ Hrun)
    as [[-> ->]|[(pw & _ & Hlookup & Hr)
                |(Hlookup & pw & tr_lookup & r0 & _ & Hl & Hr)]].
  - exists (data_username data). split; [done|].
    split; [by apply lookup_only_phase; [constructor|]|].
    intros s rq ans Hin. by apply elem_of_nil in Hin.
  - exists (data_username data). split; [done|].
    split; [by apply authenticate_candidates_reach in Hr|].
    intros s rq ans Hin Hs.
    destruct (authenticate_candidates_connect _ _ _ _ _ _ _ _ _ _ Hr Hin Hs)
      as (dn & userdn & ? & ? & ?).
    exists dn, userdn. split; [by left|done].
  - pose proof (calls_from_runs _ _ _ _ (resolve_username_calls _ _) Hl) as Hsites.
    assert (∀ u, lookup_dn self = false → u = data_username data) as Hu.
    { intros u. by rewrite Hlookup. }
    assert (∀ u : string, tr = tr_lookup →
              (∀ id, r ≠ Returned (Some id)) →
              (lookup_dn self = false → u = data_username data)
                ∧ bind_phase self data u tr r
                ∧ ∀ s rq ans, EvConnect s rq ans ∈ tr → s = AtUserBind →
                    ∃ dn userdn,
                      (dn ∈ bind_dn_template self
                       ∨ (bind_dn_template self = [] ∧ lookup_dn self = true
                          ∧ ∃ c rq' res first rest,
                              EvSearch AtLookup c rq' (inr res) ∈ tr
                              ∧ response res = first :: rest
                              ∧ entry_dn first = Some dn))
                      ∧ str_format dn [("username", escape_rdn u)] = inr userdn
                      ∧ rq_user rq = Some userdn) as Honly.
    { intros u -> Hr'. split; [apply Hu|].
      split; [by apply lookup_only_phase|].
      intros s rq ans Hin Hs. by destruct (Hlookup_sites _ Hsites _ _ _ Hin Hs). }
    destruct r0 as [[[u|] d]|e];
      [|destruct Hr as [-> ->]; exists (data_username data);
        by apply Honly..].
    destruct (Py.truthy u);
      [|destruct Hr as [-> ->]; exists u; by apply Honly].
    exists u. split; [apply Hu|].
    destruct (bind_dn_template self) as [|t ts] eqn:Hts.
    + destruct d as [dn|].
      2:{ destruct Hr as [-> ->]. split; [by apply lookup_only_phase|].
          intros s rq ans Hin Hs.
          by destruct (Hlookup_sites _ Hsites _ _ _ Hin Hs). }
      destruct Hr as (tr_rest & -> & Hr).
      split;
        [by apply lookup_then_phase,
              (authenticate_candidates_reach _ _ _ pw [dn])|].
      intros s rq ans [Hin|Hin]%elem_of_app Hs;
        [by destruct (Hlookup_sites _ Hsites _ _ _ Hin Hs)|].
      destruct (authenticate_candidates_connect _ _ _ _ _ _ _ _ _ _ Hr Hin Hs)
        as (dn' & userdn & ->%list_elem_of_singleton & ? & ?).
      exists dn, userdn. split; [|done]. right. do 2 (split; [done|]).
      destruct (resolve_username_Some _ _ _ _ _ Hl)
        as (tr0 & c & f & res & first & rest & dn' & -> & ? & ? & ?).
      simplify_eq.
      exists c, (lookup_request self f), res, first, rest.
      split; [|done].
      apply elem_of_app; left. apply elem_of_app; right.
      apply list_elem_of_here.
    + destruct Hr as (tr_rest & -> & Hr).
      split;
        [by apply lookup_then_phase,
              (authenticate_candidates_reach _ _ _ pw (t :: ts))|].
      intros s rq ans [Hin|Hin]%elem_of_app Hs;
        [by destruct (Hlookup_sites _ Hsites _ _ _ Hin Hs)|].
      destruct (authenticate_candidates_connect _ _ _ _ _ _ _ _ _ _ Hr Hin Hs)
        as (dn & userdn & ? & ? & ?).
      exists dn, userdn. split; [by left|done].
Qed.

(** C8: every run of [authenticate] has one user name [u], the one
    supplied when [lookup_dn] is off, such that the search-filter
    search is made with [search_filter] formatted with
    [escape_filter_chars u], every group probe with
    [group_search_filter] formatted with the same
    [escape_filter_chars u], and every connection of the bind loop
    for the DN that [str.format] makes, with [escape_rdn u] for
    [username], of a template: one of [bind_dn_template], or, with
    [lookup_dn] and no template, the DN of the first entry that the
    lookup found. *)
Theorem user_name_escaped_consistently self data W (h : handler W) (w : W) :
  ∃ u, (lookup_dn self = false → u = data_username data) ∧
    ∀ ev, ev ∈ trace_of h w (authenticate self data) →
      match ev with
      | EvConnect AtUserBind rq _ =>
          ∃ dn userdn,
            (dn ∈ bind_dn_template self
             ∨ (bind_dn_template self = [] ∧ lookup_dn self = true
                ∧ ∃ c rq' res first rest,
                    EvSearch AtLookup c rq' (inr res)
                      ∈ trace_of h w (authenticate self data)
                    ∧ response res = first :: rest
                    ∧ entry_dn first = Some dn))
            ∧ str_format dn [("username", escape_rdn u)] = inr userdn
            ∧ rq_user rq = Some userdn
      | EvSearch AtSearchFilter _ rq _ =>
          str_format (search_filter self)
            [("userattr", Py.str_of (user_attribute self));
             ("username", escape_filter_chars u)] = inr (rq_filter rq)
      | EvSearch AtGroupProbe _ rq _ =>
          ∃ userdn,
            str_format (group_search_filter self)
              [("userdn", escape_filter_chars userdn);
               ("uid", escape_filter_chars u)] = inr (rq_filter rq)
      | _ => True
      end.
Proof.
  pose proof (run_runs h w (authenticate self data)) as Hrun.
  revert Hrun.
  generalize (trace_of h w (authenticate self data)) as tr.
  generalize (result_of h w (authenticate self data)) as r.
  intros r tr Hrun.
  destruct (authenticate_templates _ _ _ _ Hrun)
    as (u & Hu & [_ Hcases] & Hconn).
  exists u. split; [done|]. intros ev Hin.
  destruct ev as [s rq ans|s c ans|s c rq ans]; [|done|].
  { destruct s; try done. by eapply Hconn. }
  assert (s = AtSearchFilter ∨ s = AtGroupProbe → ∃ conn userdn tr_post,
            runs (authenticate_bound self data u conn userdn) tr_post r
            ∧ EvSearch s c rq ans ∈ tr_post) as Hpost.
  { intros Hs.
    destruct Hcases as [[_ Hun]|(conn & userdn & tr_pre & evs & tr_post
                                 & -> & Hpre & Hevs & Hr)].
    { apply (proj1 (Forall_forall _ _) Hun) in Hin as [[?|?] _];
        simpl in *; destruct Hs; congruence. }
    exists conn, userdn, tr_post. split; [done|].
    apply elem_of_app in Hin as [Hin|[Hin|Hin]%elem_of_app]; [| |done].
    - apply (proj1 (Forall_forall _ _) Hpre) in Hin as [[?|?] _];
        simpl in *; destruct Hs; congruence.
    - apply (Forall_site_elem (λ s, s = AtUserBind) _ _
               (successful_attempt_sites _ _ _ Hevs)) in Hin.
      simpl in *; destruct Hs; congruence. }
  destruct s; try done.
  - destruct Hpost as (conn & userdn & tr_post & Hr & Hin'); [by left|].
    by apply (authenticate_bound_searches _ _ _ _ _ _ _ _ _ _ _ Hr Hin').
  - destruct Hpost as (conn & userdn & tr_post & Hr & Hin'); [by right|].
    exists userdn.
    by apply (authenticate_bound_searches _ _ _ _ _ _ _ _ _ _ _ Hr Hin').
Qed.


(** ** The looked-up DN as bind candidate *)

Lemma bind_loop_single self u pw dn tr r :
  runs (bind_loop self u pw [dn]) tr r →
  (∃ e, str_format dn [("username", escape_rdn u)] = inl e
        ∧ tr = [] ∧ r = Raised e)
  ∨ ∃ userdn, str_format dn [("username", escape_rdn u)] = inr userdn ∧
      ((failed_attempt userdn tr ∧ logged_attempt u userdn tr
        ∧ r = Returned None)
       ∨ (∃ conn, successful_attempt userdn conn tr
                  ∧ r = Returned (Some (conn, userdn)))
       ∨ (∃ e, aborted_attempt userdn e tr ∧ r = Raised e)
       ∨ (∃ e, unlogged_attempt u userdn e tr ∧ r = Raised e)).
Proof.
  intros [?|(userdn & Hf & [(evs & tr' & Hevs & Hlog & -> & Hr)|?])]
    %bind_loop_round;
    [by left| |right; exists userdn; split; [done|by right]].
  apply runs_mret_inv in Hr as [-> ->]. rewrite app_nil_r.
  right. exists userdn. split; [done|]. by left.
Qed.

(** With [lookup_dn] set and no template, the calls of the bind loop
    are one attempt, for the DN that [str.format] makes of the DN of
    the first entry found: the entry's DN is the only template. *)
Lemma looked_up_dn_only_template self data tr r :
  runs (authenticate self data) tr r →
  lookup_dn self = true → bind_dn_template self = [] →
  calls_at AtUserBind tr = []
  ∨ ∃ c rq res first rest dn u userdn,
      EvSearch AtLookup c rq (inr res) ∈ tr
      ∧ response res = first :: rest ∧ entry_dn first = Some dn
      ∧ str_format dn [("username", escape_rdn u)] = inr userdn
      ∧ (failed_attempt userdn (calls_at AtUserBind tr)
         ∨ (∃ conn, successful_attempt userdn conn (calls_at AtUserBind tr))
         ∨ ∃ e, aborted_attempt userdn e (calls_at AtUserBind tr)).
Proof.
  intros [[-> ->]|[(pw & _ & Hlookup & Hr)
                  |(_ & pw & tr_lookup & r0 & _ & Hl & Hr)]]%authenticate_runs
    Hlookup' Htemplates.
  { by left. }
  { congruence. }
  pose proof (calls_from_runs _ _ _ _ (resolve_username_calls _ _) Hl) as Hsites.
  assert (calls_at AtUserBind tr_lookup = []) as Hnone.
  { by apply (calls_at_none _ (λ s, s = AtLookup)). }
  rewrite Htemplates in Hr.
  destruct r0 as [[[u|] d]|e]; [|destruct Hr as [-> _]; by left..].
  destruct (Py.truthy u); [|destruct Hr as [-> _]; by left].
  destruct d as [dn|]; [|destruct Hr as [-> _]; by left].
  destruct Hr as (tr_rest & -> & Hr).
  apply resolve_username_Some in Hl
    as (tr0 & c & f & res & first & rest & dn' & -> & Hres & Hdn & ?).
  simplify_eq.
  assert (∀ tr1 tr2 r1, tr_rest = tr1 ++ tr2 →
            runs (bind_loop self u pw [dn']) tr1 r1 →
            Forall (λ ev, ev_site ev ≠ AtUserBind) tr2 →
            calls_at AtUserBind
              ((tr0 ++ [EvSearch AtLookup c (lookup_request self f) (inr res)])
               ++ tr_rest) = tr1) as Hcalls.
  { intros tr1 tr2 r1 -> Hb Hpost.
    rewrite !calls_at_app, <- calls_at_app, Hnone. simpl.
    rewrite (calls_at_all _ tr1);
      [|by apply (calls_from_runs _ _ _ _ (bind_loop_calls _ _ _ _) Hb)].
    rewrite (calls_at_none _ (λ s, s ≠ AtUserBind) tr2); [|by intros []|done].
    by rewrite app_nil_r. }
  assert (∀ tr1 r1, runs (bind_loop self u pw [dn']) tr1 r1 →
            tr1 = []
            ∨ ∃ userdn, str_format dn' [("username", escape_rdn u)] = inr userdn
                ∧ (failed_attempt userdn tr1
                   ∨ (∃ conn, successful_attempt userdn conn tr1)
                   ∨ ∃ e, aborted_attempt userdn e tr1)) as Hshape.
  { intros tr1 r1 [(e & _ & -> & _)
                  |(userdn & Hf & [[? _]|[(conn & ? & _)
                                         |[(e & ? & _)|(e & ? & _)]]])]
                  %bind_loop_single;
      [by left|right; exists userdn; eauto 6..|].
    right. exists userdn. split; [done|]. left.
    by eapply unlogged_attempt_failed. }
  assert (EvSearch AtLookup c (lookup_request self f) (inr res)
          ∈ (tr0 ++ [EvSearch AtLookup c (lookup_request self f) (inr res)])
            ++ tr_rest) as Hin.
  { apply elem_of_app; left. apply elem_of_app; right. apply list_elem_of_here. }
  apply authenticate_candidates_runs in Hr
    as [(tr1 & tr2 & conn & userdn & Htr & Hb & Hpost)
       |[[Hb _]|(e & Hb & _)]].
  - rewrite (Hcalls tr1 tr2 _ Htr Hb).
    + destruct (Hshape _ _ Hb) as [->|(ud & ? & ?)]; [by left|].
      right. by exists c, (lookup_request self f), res, first, rest, dn', u, ud.
    + eapply Forall_impl;
        [exact (calls_from_runs _ _ _ _ (authenticate_bound_calls _ _ _ _ _) Hpost)|].
      by intros ev [->|[->| ->]].
  - rewrite (Hcalls tr_rest [] _ (eq_sym (app_nil_r _)) Hb); [|constructor].
    destruct (Hshape _ _ Hb) as [->|(ud & ? & ?)]; [by left|].
    right. by exists c, (lookup_request self f), res, first, rest, dn', u, ud.
  - rewrite (Hcalls tr_rest [] _ (eq_sym (app_nil_r _)) Hb); [|constructor].
    destruct (Hshape _ _ Hb) as [->|(ud & ? & ?)]; [by left|].
    right. by exists c, (lookup_request self f), res, first, rest, dn', u, ud.
Qed.

(** A lookup search that finds no entry ends [authenticate] with
    [None], with no call but those of the lookup. *)
Lemma lookup_without_entry_rejects self data W (h : handler W) (w : W) c rq res :
  EvSearch AtLookup c rq (inr res) ∈ trace_of h w (authenticate self data) →
  response res = [] →
  result_of h w (authenticate self data) = Returned None
  ∧ calls_at AtUserBind (trace_of h w (authenticate self data)) = []
  ∧ Forall (λ ev, ev_site ev = AtLookup) (trace_of h w (authenticate self data)).
Proof.
  intros Hin Hres.
  pose proof (run_runs h w (authenticate self data)) as Hr.
  destruct (lookup_rejects _ _ _ _ _ _ _ Hr Hin) as [-> Hsites].
  { intros tr' r'. by apply resolve_response_no_entry. }
  repeat split; [|done].
  by eapply (calls_at_none _ (λ s, s = AtLookup)).
Qed.

End Phases.

(** * The properties on the scenarios *)

(** Stored as given, two templates are tried in order: the bind for
    the first fails, the bind for the second succeeds and the loop
    stops with it. *)
Example second_template_binds :
  result_of (Sample.server Scenario.alice_in_b) tt
    (Scenario.authenticate Scenario.groups_only Scenario.alice)
  = Returned (Some (Scenario.alice_with [Scenario.staff]))
  ∧ (λ ev, match ev with
           | EvConnect _ rq (inl _) => (rq_user rq, false)
           | EvConnect _ rq (inr c) => (rq_user rq, conn_bound c)
           | _ => (None, false)
           end)
      <$> calls_at AtUserBind
            (trace_of (Sample.server Scenario.alice_in_b) tt
               (Scenario.authenticate Scenario.groups_only Scenario.alice))
    = [(Some "uid=alice,ou=a", false); (Some "uid=alice,ou=b", true)].
Proof. split; vm_compute; reflexivity. Qed.

(** The same two templates, configured through the trait, are lost. *)
Example configured_templates_lost :
  bind_dn_template
    (set_bind_dn_template Scenario.unconfigured
       (ProposedList Scenario.two_templates)) = [].
Proof. reflexivity. Qed.

(** [check_allowed] on what [authenticate] recorded: the member of the
    second allowed group is allowed, the member of none is not. *)
Example check_allowed_by_group :
  Scenario.check_allowed Scenario.full "alice"
    (Scenario.alice_with [Scenario.staff]) = Ret true
  ∧ Scenario.check_allowed Scenario.full "alice" (Scenario.alice_with [])
    = Ret false.
Proof. split; vm_compute; reflexivity. Qed.

(** With a plain DN the looked-up entry is the one that is bound. *)
Example looked_up_plain_dn_bound :
  (λ ev, match ev with EvConnect _ rq _ => rq_user rq | _ => None end)
    <$> calls_at AtUserBind
          (trace_of (Sample.server Scenario.jdoe_plain) tt
             (Scenario.authenticate Scenario.with_lookup Scenario.jdoe))
  = [Some Scenario.jdoe_plain_dn].
Proof. vm_compute. reflexivity. Qed.

(** A bind refused with an [LDAPBindError] whose text has braces: the
    text is appended to the message of the round, the message is
    formatted, [str.format] raises, and the second template is not
    tried. *)
Example brace_in_bind_error_raises :
  result_of Servers.garbling tt
    (Scenario.authenticate Scenario.groups_only Scenario.alice)
  = Raised (KeyError "reason")
  ∧ (λ ev, match ev with EvConnect _ rq _ => rq_user rq | _ => None end)
      <$> trace_of Servers.garbling tt
            (Scenario.authenticate Scenario.groups_only Scenario.alice)
    = [Some "uid=alice,ou=a"].
Proof. split; vm_compute; reflexivity. Qed.


(** C3 (the code departs from the claim): the lookup finds the entry
    of [jdoe], whose DN [uid=jdoe,ou={contractors},dc=example,dc=org]
    has braces; no template is configured.  The DN is then used as a
    format template: [str.format] raises [KeyError],
    [authenticate] ends with that exception, and no bind is
    attempted for the DN of the entry. *)
Theorem looked_up_dn_is_formatted :
  (∃ c rq,
     EvSearch AtLookup c rq
       (inr (Scenario.one_entry
               (Scenario.entry Scenario.jdoe_dn (AttrStr "jdoe"))))
     ∈ trace_of (Sample.server Scenario.jdoe_in_braces) tt
         (Scenario.authenticate Scenario.with_lookup Scenario.jdoe))
  ∧ result_of (Sample.server Scenario.jdoe_in_braces) tt
      (Scenario.authenticate Scenario.with_lookup Scenario.jdoe)
    = Raised (KeyError "contractors")
  ∧ calls_at AtUserBind
      (trace_of (Sample.server Scenario.jdoe_in_braces) tt
         (Scenario.authenticate Scenario.with_lookup Scenario.jdoe))
    = [].
Proof.
  split; [|split; vm_compute; reflexivity].
  eexists _, _. in_trace.
Qed.

(** ** Witnesses *)

Lemma configured_list_never_tried_witness :
  lookup_dn Scenario.unconfigured = false
  ∧ run (Sample.server Scenario.alice_in_b) tt
      (Scenario.authenticate
         (set_bind_dn_template Scenario.unconfigured
            (ProposedList Scenario.two_templates))
         Scenario.alice)
    = (Returned None, [], tt).
Proof.
  split; [reflexivity|].
  apply (@configured_list_never_tried Sample.externals). reflexivity.
Defined.


Lemma empty_dn_attribute_rejects_witness :
  result_of (Sample.server Scenario.alice_without_cn) tt
    (Scenario.resolve_username Scenario.with_lookup "alice")
  = Returned (None, None)
  ∧ result_of (Sample.server Scenario.alice_without_cn) tt
      (Scenario.authenticate Scenario.with_lookup Scenario.alice)
    = Returned None
  ∧ calls_at AtUserBind
      (trace_of (Sample.server Scenario.alice_without_cn) tt
         (Scenario.authenticate Scenario.with_lookup Scenario.alice))
    = [].
Proof.
  destruct (@empty_dn_attribute_rejects Sample.externals Scenario.with_lookup
              (Scenario.one_entry
                 (Scenario.entry "cn=alice,ou=people,dc=example,dc=org"
                    (AttrList [])))
              (Scenario.entry "cn=alice,ou=people,dc=example,dc=org"
                 (AttrList []))
              [] {["cn" := AttrList []]} "cn"
              eq_refl eq_refl eq_refl) as [Hresolve Hauth].
  { vm_compute. reflexivity. }
  split.
  - eapply Hresolve. in_trace.
  - refine (let Ha := Hauth Scenario.alice unit
                          (Sample.server Scenario.alice_without_cn) tt _ _ _ in
            conj (proj1 Ha) (proj1 (proj2 Ha))).
    in_trace.
Defined.

Lemma search_filter_counts_response_witness :
  Py.truthy (search_filter Scenario.full) = true
  ∧ (∃ c rq res,
       EvSearch AtSearchFilter c rq (inr res)
         ∈ trace_of (Sample.server Scenario.alice_in_b) tt
             (Scenario.authenticate Scenario.full Scenario.alice)
       ∧ List.length (response res) = 1)
  ∧ (∃ rq ans tr_pre tr_post,
       trace_of (Sample.server Scenario.alice_in_b) tt
         (Scenario.authenticate Scenario.full Scenario.alice)
       = tr_pre ++ Scenario.alice_bound
           :: EvSearch AtSearchFilter Scenario.bound_connection rq ans :: tr_post
       ∧ rq_filter rq = "(uid=alice)")
  ∧ result_of (Sample.server Scenario.alice_twice) tt
      (Scenario.authenticate Scenario.full Scenario.alice)
    = Returned None
  ∧ result_of (Sample.server Scenario.alice_unprovisioned) tt
      (Scenario.authenticate Scenario.full Scenario.alice)
    = Returned None.
Proof.
  split; [reflexivity|].
  destruct (@search_filter_counts_response Sample.externals Scenario.full
              Scenario.alice unit (Sample.server Scenario.alice_in_b) tt eq_refl)
    as (Hnext & _ & Hone).
  destruct (@search_filter_counts_response Sample.externals Scenario.full
              Scenario.alice unit (Sample.server Scenario.alice_twice) tt eq_refl)
    as (_ & Hmany & _).
  destruct (@search_filter_counts_response Sample.externals Scenario.full
              Scenario.alice unit (Sample.server Scenario.alice_unprovisioned)
              tt eq_refl)
    as (_ & Hnone & _).
  split; [|split; [|split]].
  - eapply Hone. vm_compute. reflexivity.
  - destruct (Hnext Scenario.alice_bound Scenario.bound_connection)
      as (u & Hu & [(e & tr_pre & _ & _ & Hres)
                   |(rq & ans & tr_pre & tr_post & Htr & _ & _ & _ & Hf)]).
    + in_trace.
    + split; reflexivity.
    + vm_compute in Hres. discriminate Hres.
    + exists rq, ans, tr_pre, tr_post. split; [exact Htr|].
      assert (inr (rq_filter rq) = (inr "(uid=alice)" : exn + string)) as Heq.
      { rewrite <- Hf, (Hu eq_refl). vm_compute. reflexivity. }
      congruence.
  - refine (proj1 (Hmany _ _ _ _ _)); [in_trace|vm_compute; lia].
  - refine (proj1 (Hnone _ _ _ _ _)); [in_trace|vm_compute; lia].
Defined.


Lemma missing_group_settings_deny_witness :
  allowed_groups Scenario.no_group_attributes
  = Some [Scenario.admins; Scenario.staff]
  ∧ Py.nonempty (group_attributes Scenario.no_group_attributes) = false
  ∧ result_of (Sample.server Scenario.alice_in_b) tt
      (Scenario.authenticate Scenario.no_group_attributes Scenario.alice)
    = Returned None.
Proof.
  split; [reflexivity|]. split; [reflexivity|].
  destruct (@missing_group_settings_deny Sample.externals
              Scenario.no_group_attributes Scenario.alice
              [Scenario.admins; Scenario.staff] unit
              (Sample.server Scenario.alice_in_b) tt eq_refl)
    as (_ & _ & _ & Hdeny); [discriminate|right; reflexivity|].
  apply Hdeny. exists Scenario.alice_bound. split; [vm_compute; reflexivity|].
  exists Scenario.bound_connection. split; reflexivity.
Defined.

Lemma user_name_escaped_consistently_witness :
  Sample.str_format (search_filter Scenario.full)
    [("userattr", "uid"); ("username", Sample.escape_filter_chars "alice")]
  = inr "(uid=alice)"
  ∧ (∃ userdn,
       Sample.str_format (group_search_filter Scenario.full)
         [("userdn", Sample.escape_filter_chars userdn);
          ("uid", Sample.escape_filter_chars "alice")]
       = inr "(|(member=uid=alice,ou=b)(uniqueMember=uid=alice,ou=b)(memberUid=alice))")
  ∧ (Scenario.alice_bound
       ∈ trace_of (Sample.server Scenario.alice_in_b) tt
           (Scenario.authenticate Scenario.full Scenario.alice)
     ∧ ∃ dn userdn,
         dn ∈ Scenario.two_templates
         ∧ Sample.str_format dn [("username", Sample.escape_rdn "alice")]
           = inr userdn
         ∧ Some "uid=alice,ou=b" = Some userdn).
Proof.
  destruct (@user_name_escaped_consistently Sample.externals Scenario.full
              Scenario.alice unit (Sample.server Scenario.alice_in_b) tt)
    as (u & Hu & Hev).
  rewrite (Hu eq_refl) in Hev.
  split; [|split].
  - refine (Hev (EvSearch AtSearchFilter _ {| rq_filter := "(uid=alice)" |} _) _).
    in_trace.
  - refine (Hev (EvSearch AtGroupProbe _
                   {| rq_base := Some Scenario.staff;
                      rq_filter := "(|(member=uid=alice,ou=b)(uniqueMember=uid=alice,ou=b)(memberUid=alice))" |}
                   _) _).
    in_trace.
  - split; [in_trace|].
    destruct (Hev Scenario.alice_bound) as (dn & userdn & [Hdn|(Hnone & _)] & ?);
      [in_trace| |discriminate Hnone].
    by exists dn, userdn.
Defined.

(** * More of the class *)

(** ** Conditions on calls *)

Lemma calls_ok_bind {A B} (S : call_spec) (m : prog A) (f : A → prog B) :
  calls_ok S m → (∀ a, calls_ok S (f a)) → calls_ok S (m ≫= f).
Proof.
  unfold mbind, prog_mbind.
  induction 1 as [a|e|s rq k Hs Hk IH|s c k Hs Hk IH|s c rq k Hs Hk IH];
    intros Hf; simpl; [done|constructor|constructor..]; auto.
Qed.

Lemma calls_ok_lift {A} (S : call_spec) (x : exn + A) : calls_ok S (lift x).
Proof. destruct x; constructor. Qed.

(** What follows a value that may be an exception is only run on the
    value. *)
Lemma calls_ok_lift_bind {A B} (S : call_spec) (x : exn + A) (f : A → prog B) :
  (∀ a, x = inr a → calls_ok S (f a)) → calls_ok S (lift x ≫= f).
Proof. destruct x as [e|a]; intros Hf; [constructor|by apply Hf]. Qed.

Lemma calls_ok_attempt {A} (S : call_spec) (m : prog A) :
  calls_ok S m → calls_ok S (attempt m).
Proof. induction 1; simpl; constructor; auto. Qed.

Lemma calls_ok_runs {A} (S : call_spec) (p : prog A) tr r :
  calls_ok S p → runs p tr r → Forall (event_ok S) tr.
Proof.
  intros Hp Hr. induction Hr; inversion Hp; subst; try constructor; auto.
Qed.

Lemma calls_ok_trace {W A} (S : call_spec) (h : handler W) (w : W)
    (p : prog A) ev :
  calls_ok S p → ev ∈ trace_of h w p → event_ok S ev.
Proof.
  intros Hp Hin.
  by apply (proj1 (Forall_forall _ _) (calls_ok_runs _ _ _ _ Hp (run_runs h w p))).
Qed.

Section More.
Context `{Externals}.

Lemma get_connection_ok self data s userdn password :
  match s with
  | AtLookup =>
      userdn = lookup_dn_search_user self
      ∧ password = lookup_dn_search_password self
  | AtUserBind => is_Some userdn ∧ password = data_password data
  | _ => False
  end →
  calls_ok (authenticate_calls self data)
    (get_connection self s userdn password).
Proof.
  intros Hs. unfold get_connection.
  destruct (tls_strategy self) eqn:Htls;
    (apply ok_Connect; [|intros; apply calls_ok_lift]);
    simpl; unfold port_of, read_server_port, _server_port_default;
    rewrite Htls; destruct (server_port self); by repeat split.
Qed.

Lemma resolve_response_ok (S : call_spec) self res :
  calls_ok S (resolve_response self res).
Proof.
  unfold resolve_response.
  destruct (response res) as [|first ?]; [constructor|].
  destruct (entry_attributes first); [|constructor].
  apply calls_ok_bind; [apply calls_ok_lift|].
  intros [?|[|??]]; try constructor;
    (apply calls_ok_bind; [apply calls_ok_lift|constructor]).
Qed.

Lemma resolve_username_ok self data :
  calls_ok (authenticate_calls self data)
    (resolve_username self (data_username data)).
Proof.
  unfold resolve_username.
  apply calls_ok_bind; [by apply get_connection_ok|intros conn].
  apply calls_ok_bind; [constructor; [done|intros; apply calls_ok_lift]|intros b].
  destruct (negb b); [constructor|].
  apply calls_ok_lift_bind. intros template Htemplate.
  apply calls_ok_lift_bind. intros f Hf.
  apply calls_ok_bind; [|intros; apply resolve_response_ok].
  constructor; [|intros; apply calls_ok_lift].
  simpl. repeat split. exists template. split; [|done].
  by destruct (lookup_dn_search_filter self); simplify_eq/=.
Qed.

Lemma bind_loop_ok self data u pw ts :
  data_password data = Some pw →
  calls_ok (authenticate_calls self data) (bind_loop self u pw ts).
Proof.
  intros Hpw. induction ts as [|dn rest IH]; simpl; [constructor|].
  apply calls_ok_bind; [apply calls_ok_lift|intros userdn].
  apply calls_ok_bind.
  { apply calls_ok_attempt, get_connection_ok. by split; [eexists|]. }
  intros [exc|conn].
  - destruct (is_LDAPBindError exc); [|constructor].
    by apply calls_ok_bind; [apply calls_ok_lift|].
  - apply calls_ok_bind.
    + destruct (conn_bound conn) eqn:Hb; [constructor|].
      constructor; [done|intros; apply calls_ok_lift].
    + intros b. apply calls_ok_bind; [apply calls_ok_lift|intros _].
      destruct b; [constructor|done].
Qed.

Lemma get_user_attributes_ok self data conn userdn :
  calls_ok (authenticate_calls self data)
    (get_user_attributes self conn userdn).
Proof.
  unfold get_user_attributes.
  destruct (Py.nonempty _); [|constructor].
  apply calls_ok_bind.
  - constructor; [|intros; apply calls_ok_lift]. simpl. by repeat split.
  - intros res. destruct (found res); [apply calls_ok_lift|constructor].
Qed.

Lemma probe_groups_ok self data conn userdn u groups :
  (∀ g, g ∈ groups → g ∈ default [] (allowed_groups self)) →
  calls_ok (authenticate_calls self data)
    (probe_groups self conn userdn u groups).
Proof.
  induction groups as [|g rest IH]; intros Hsub; [constructor|].
  rewrite probe_groups_cons.
  apply calls_ok_bind; [apply calls_ok_lift|intros f].
  apply calls_ok_bind.
  - constructor; [|intros; apply calls_ok_lift]. simpl. repeat split.
    exists g. split; [|done]. apply Hsub, list_elem_of_here.
  - intros res. destruct (found res); [constructor|].
    apply IH. intros g' Hg'. by apply Hsub, list_elem_of_further.
Qed.

Lemma authenticate_bound_ok self data u conn userdn :
  calls_ok (authenticate_calls self data)
    (authenticate_bound self data u conn userdn).
Proof.
  assert (∀ gs, calls_ok (authenticate_calls self data)
                  (authenticate_finish self data u conn userdn gs)) as Hfinish.
  { intros gs. unfold authenticate_finish.
    apply calls_ok_bind; [apply get_user_attributes_ok|constructor]. }
  assert (calls_ok (authenticate_calls self data)
            (authenticate_groups self data u conn userdn)) as Hgroups.
  { unfold authenticate_groups.
    destruct (Py.nonempty _); [|done].
    destruct (_ || _); [constructor|].
    apply calls_ok_bind; [by apply probe_groups_ok|done]. }
  unfold authenticate_bound.
  destruct (Py.truthy _); [|done].
  apply calls_ok_bind; [apply calls_ok_lift|intros f].
  apply calls_ok_bind.
  - constructor; [|intros; apply calls_ok_lift]. simpl. by repeat split.
  - intros res. simpl.
    destruct (Nat.eqb _ _); [constructor|]. by destruct (Nat.ltb _ _); [constructor|].
Qed.

Lemma authenticate_candidates_ok self data u pw ts :
  data_password data = Some pw →
  calls_ok (authenticate_calls self data)
    (authenticate_candidates self data u pw ts).
Proof.
  intros Hpw. unfold authenticate_candidates.
  apply calls_ok_bind; [by apply bind_loop_ok|].
  intros [[conn userdn]|]; [apply authenticate_bound_ok|constructor].
Qed.

(** Every call that [authenticate] can make is one of
    [authenticate_calls]. *)
Lemma authenticate_ok self data :
  calls_ok (authenticate_calls self data) (authenticate self data).
Proof.
  unfold authenticate.
  destruct (negb (re_match _ _)); [constructor|].
  destruct (data_password data) as [pw|] eqn:Hpw; [|constructor].
  destruct (negb (Py.truthy (Py.strip pw))); [constructor|].
  destruct (negb (lookup_dn self) && _); [constructor|].
  destruct (lookup_dn self); [|by apply authenticate_candidates_ok].
  apply calls_ok_bind; [apply resolve_username_ok|].
  intros [[u|] d]; [|constructor].
  destruct (negb (Py.truthy u)); [constructor|].
  destruct (negb (Py.nonempty _)); [|by apply authenticate_candidates_ok].
  apply calls_ok_bind; [apply calls_ok_lift|intros dn].
  by apply authenticate_candidates_ok.
Qed.

(** ** Connections *)

(** X1: the arguments of every [get_connection] of [authenticate], for
    the lookup or for a user bind.  [ldap3.Server] is given
    [server_address] as host and the value of [server_port] as port:
    the stored value (assigned, or a default kept from an earlier
    read), and with none stored the default of this read, 636 with
    [on_connect] and 389 otherwise; [use_ssl] is true only with
    [on_connect], and [ldap3.Connection] is given
    [AUTO_BIND_TLS_BEFORE_BIND] only with [before_bind]. *)
Theorem connections_follow_tls_strategy self data W (h : handler W) (w : W)
    s rq ans :
  EvConnect s rq ans ∈ trace_of h w (authenticate self data) →
  rq_address rq = server_address self
  ∧ rq_port rq = match server_port self with
                 | Some port => port
                 | None => if tls_strategy self is on_connect then 636 else 389
                 end%Z
  ∧ (rq_use_ssl rq, rq_auto_bind rq)
    = match tls_strategy self with
      | on_connect => (true, AUTO_BIND_NO_TLS)
      | before_bind => (false, AUTO_BIND_TLS_BEFORE_BIND)
      | insecure => (false, AUTO_BIND_NO_TLS)
      end.
Proof.
  intros Hin.
  destruct (calls_ok_trace _ h w _ _ (authenticate_ok self data) Hin)
    as (Haddr & Hport & Htls & _).
  repeat split; [done| |done].
  rewrite Hport. by destruct (server_port self).
Qed.

(** X2: the observer of [use_ssl].  Once [use_ssl = True] has been
    observed, every [get_connection] of [authenticate] passes
    [use_ssl=True] and [AUTO_BIND_NO_TLS]; the port that it passes is
    the stored value of [server_port] when there is one, and 636 when
    there is none.  A default port that was read before the observer
    ran is a stored value: the observer does not move it, so the port
    stays the one of that first read. *)
Theorem use_ssl_means_on_connect self data W (h : handler W) (w : W) s rq ans :
  (EvConnect s rq ans
     ∈ trace_of h w (authenticate (_observe_use_ssl self (Some true)) data) →
   rq_use_ssl rq = true ∧ rq_auto_bind rq = AUTO_BIND_NO_TLS
   ∧ rq_port rq = default 636%Z (server_port self))
  ∧ (EvConnect s rq ans
       ∈ trace_of h w
           (authenticate
              (_observe_use_ssl (read_server_port self).2 (Some true)) data) →
     rq_use_ssl rq = true ∧ rq_auto_bind rq = AUTO_BIND_NO_TLS
     ∧ rq_port rq = port_of self).
Proof.
  split; intros Hin.
  - destruct (calls_ok_trace _ h w _ _ (authenticate_ok _ data) Hin)
      as (_ & Hport & Htls & _).
    simpl in Hport, Htls. by simplify_eq.
  - assert (server_port (read_server_port self).2 = Some (port_of self))
      as Hstored.
    { unfold port_of, read_server_port. by destruct (server_port self) eqn:Hp. }
    revert Hin Hstored. generalize (read_server_port self).2 as stored.
    intros stored Hin Hstored.
    destruct (calls_ok_trace _ h w _ _ (authenticate_ok _ data) Hin)
      as (_ & Hport & Htls & _).
    simpl in Hport, Htls. rewrite Hstored in Hport. by simplify_eq.
Qed.

(** X3: the credentials of each connection.  A lookup connection is
    opened as [lookup_dn_search_user] with
    [lookup_dn_search_password]; a connection of the bind loop carries
    the password exactly as it was supplied (it is not stripped) and
    a DN.  The supplied password is sent on no other call. *)
Theorem credentials_of_connections self data W (h : handler W) (w : W)
    s rq ans :
  EvConnect s rq ans ∈ trace_of h w (authenticate self data) →
  (s = AtLookup ∧ rq_user rq = lookup_dn_search_user self
   ∧ rq_password rq = lookup_dn_search_password self)
  ∨ (s = AtUserBind ∧ is_Some (rq_user rq)
     ∧ rq_password rq = data_password data).
Proof.
  intros Hin.
  destruct (calls_ok_trace _ h w _ _ (authenticate_ok self data) Hin)
    as (_ & _ & _ & Hs).
  destruct s; try done; [left|right]; by destruct Hs.
Qed.

(** X4: the search of the lookup is a sub-tree search under
    [user_search_base] that asks for the one attribute
    [lookup_dn_user_dn_attribute], with [lookup_dn_search_filter]
    formatted with [user_attribute] and the filter-escaped supplied
    user name. *)
Theorem lookup_search_request self data W (h : handler W) (w : W) c rq ans :
  EvSearch AtLookup c rq ans ∈ trace_of h w (authenticate self data) →
  rq_base rq = user_search_base self ∧ rq_scope rq = SUBTREE
  ∧ rq_attributes rq = [lookup_dn_user_dn_attribute self]
  ∧ ∃ template,
      lookup_dn_search_filter self = Some template
      ∧ str_format template
          [("login_attr", Py.str_of (user_attribute self));
           ("login", escape_filter_chars (data_username data))]
        = inr (rq_filter rq).
Proof.
  intros Hin.
  exact (calls_ok_trace _ h w _ _ (authenticate_ok self data) Hin).
Qed.

End More.

Lemma connections_follow_tls_strategy_witness :
  Scenario.alice_bound
    ∈ trace_of (Sample.server Scenario.alice_in_b) tt
        (Scenario.authenticate Scenario.full Scenario.alice)
  ∧ rq_port (Scenario.bind_request "uid=alice,ou=b") = 389%Z
  ∧ rq_use_ssl (Scenario.bind_request "uid=alice,ou=b") = false.
Proof.
  split; [in_trace|].
  destruct (@connections_follow_tls_strategy Sample.externals Scenario.full
              Scenario.alice unit (Sample.server Scenario.alice_in_b) tt
              AtUserBind (Scenario.bind_request "uid=alice,ou=b")
              (inr Scenario.bound_connection)) as (_ & Hport & Htls);
    [in_trace|].
  split; [exact Hport|]. exact (f_equal fst Htls).
Defined.

Lemma use_ssl_means_on_connect_witness :
  (∃ rq ans,
     EvConnect AtUserBind rq ans
       ∈ trace_of (Sample.server Scenario.alice_in_b) tt
           (Scenario.authenticate
              (_observe_use_ssl Scenario.full (Some true)) Scenario.alice)
     ∧ rq_use_ssl rq = true ∧ rq_port rq = 636%Z)
  ∧ (∃ rq ans,
       EvConnect AtUserBind rq ans
         ∈ trace_of (Sample.server Scenario.alice_in_b) tt
             (Scenario.authenticate
                (_observe_use_ssl (read_server_port Scenario.full).2 (Some true))
                Scenario.alice)
       ∧ rq_use_ssl rq = true ∧ rq_port rq = 389%Z).
Proof.
  split.
  - eexists _, _. split; [in_trace|].
    refine (let Hx := proj1 (@use_ssl_means_on_connect Sample.externals
                               Scenario.full Scenario.alice unit
                               (Sample.server Scenario.alice_in_b) tt
                               AtUserBind _ _) _ in
            conj (proj1 Hx) (proj2 (proj2 Hx))).
    in_trace.
  - eexists _, _. split; [in_trace|].
    refine (let Hx := proj2 (@use_ssl_means_on_connect Sample.externals
                               Scenario.full Scenario.alice unit
                               (Sample.server Scenario.alice_in_b) tt
                               AtUserBind _ _) _ in
            conj (proj1 Hx) (proj2 (proj2 Hx))).
    in_trace.
Defined.

Lemma credentials_of_connections_witness :
  Scenario.alice_bound
    ∈ trace_of (Sample.server Scenario.alice_in_b) tt
        (Scenario.authenticate Scenario.full Scenario.alice)
  ∧ rq_password (Scenario.bind_request "uid=alice,ou=b")
    = data_password Scenario.alice.
Proof.
  split; [in_trace|].
  destruct (@credentials_of_connections Sample.externals Scenario.full
              Scenario.alice unit (Sample.server Scenario.alice_in_b) tt
              AtUserBind (Scenario.bind_request "uid=alice,ou=b")
              (inr Scenario.bound_connection)) as [(Hs & _)|(_ & _ & Hpw)];
    [in_trace|discriminate Hs|exact Hpw].
Defined.

Lemma lookup_search_request_witness :
  ∃ c rq ans,
    EvSearch AtLookup c rq ans
      ∈ trace_of (Sample.server Scenario.jdoe_plain) tt
          (Scenario.authenticate Scenario.with_lookup Scenario.jdoe)
    ∧ rq_base rq = Some Scenario.people ∧ rq_scope rq = SUBTREE
    ∧ rq_filter rq = "(uid=jdoe)".
Proof.
  eexists _, {| rq_filter := "(uid=jdoe)" |}, _. split; [in_trace|].
  refine (let Hx := @lookup_search_request Sample.externals Scenario.with_lookup
                      Scenario.jdoe unit (Sample.server Scenario.jdoe_plain) tt
                      _ _ _ _ in
          conj (proj1 Hx) (conj (proj1 (proj2 Hx)) eq_refl)).
  in_trace.
Defined.

(** ** More on the lookup *)

Section Lookup.
Context `{Externals}.

(** A lookup call of a run of [authenticate] is a call of its
    [resolve_username], whose result decides how the run goes on. *)
Lemma authenticate_lookup_event self data tr r ev :
  runs (authenticate self data) tr r →
  ev ∈ tr → ev_site ev = AtLookup →
  ∃ tr_lookup r0,
    runs (resolve_username self (data_username data)) tr_lookup r0
    ∧ ev ∈ tr_lookup
    ∧ match r0 with
      | Raised e => tr = tr_lookup ∧ r = Raised e
      | Returned (None, _) => tr = tr_lookup ∧ r = Returned None
      | Returned (Some u, d) => True
      end.
Proof.
  intros [[-> ->]|[(pw & _ & _ & Hr)
                  |(_ & pw & tr_lookup & r0 & _ & Hl & Hr)]]%authenticate_runs
    Hin Hsite.
  - by trace_mem Hin.
  - pose proof (Forall_site_elem _ _ _
      (calls_from_runs _ _ _ _ (authenticate_candidates_calls _ _ _ _ _) Hr) Hin)
      as Hsite'. by simpl in Hsite'.
  - exists tr_lookup, r0. split; [done|].
    assert (∀ u tr_rest ts, tr = tr_lookup ++ tr_rest →
              runs (authenticate_candidates self data u pw ts) tr_rest r →
              ev ∈ tr_lookup) as Hrest.
    { intros u tr_rest ts -> Hr'. apply elem_of_app in Hin as [Hin|Hin]; [done|].
      pose proof (Forall_site_elem _ _ _
        (calls_from_runs _ _ _ _ (authenticate_candidates_calls _ _ _ _ _) Hr')
        Hin) as Hsite'. by simpl in Hsite'. }
    destruct r0 as [[[u|] d]|e]; [|by destruct Hr as [-> ->]..].
    split; [|done].
    destruct (Py.truthy u); [|by destruct Hr as [-> _]].
    destruct (bind_dn_template self) as [|t ts].
    + destruct d as [dn|]; [|by destruct Hr as [-> _]].
      destruct Hr as (tr_rest & Htr & Hr). by eapply Hrest.
    + destruct Hr as (tr_rest & Htr & Hr). by eapply Hrest.
Qed.

Lemma resolve_username_refused self username tr r s c :
  runs (resolve_username self username) tr r →
  EvBind s c (inr false) ∈ tr →
  r = Returned (None, None) ∧ ∀ s' c' rq ans, EvSearch s' c' rq ans ∉ tr.
Proof.
  unfold resolve_username. intros Hr Hin.
  apply runs_bind_inv in Hr
    as [(e & (rq0 & ans & -> & _)%runs_get_connection_inv & _)
       |(conn & tr1 & tr2 & (rq0 & ans & -> & _)%runs_get_connection_inv & Hr & ->)].
  { by trace_mem Hin. }
  apply runs_bind_inv in Hr
    as [(e & ->%runs_conn_bind_Raised & _)
       |(b & tr1 & tr3 & ->%runs_conn_bind_Returned & Hr & ->)].
  { by trace_mem Hin. }
  destruct (negb b) eqn:Hnb.
  2:{ exfalso. destruct b; [|done].
    apply runs_bind_inv in Hr
      as [(e & [-> _]%runs_lift_Raised & _)
         |(t & tr1 & tr4 & [-> _]%runs_lift_Returned & Hr & ->)].
    { by trace_mem Hin. }
    apply runs_bind_inv in Hr
      as [(e & [-> _]%runs_lift_Raised & _)
         |(f & tr1 & tr5 & [-> _]%runs_lift_Returned & Hr & ->)].
    { by trace_mem Hin. }
    apply runs_bind_inv in Hr
      as [(e & ->%runs_conn_search_Raised & _)
         |(res' & tr1 & tr6 & ->%runs_conn_search_Returned & Hr & ->)].
    { by trace_mem Hin. }
    pose proof (resolve_response_silent _ _ _ _ Hr) as ->.
    by trace_mem Hin. }
  apply runs_mret_inv in Hr as [-> ->]. split; [done|].
  intros s' c' rq' ans' Hin'. by trace_mem Hin'.
Qed.

(** X5: when the [bind()] of the lookup connection answers false,
    [authenticate] returns [None]; it makes no search at all and no
    user bind. *)
Theorem lookup_bind_refused_rejects self data W (h : handler W) (w : W) c :
  EvBind AtLookup c (inr false) ∈ trace_of h w (authenticate self data) →
  result_of h w (authenticate self data) = Returned None
  ∧ (∀ s c' rq ans,
       EvSearch s c' rq ans ∉ trace_of h w (authenticate self data))
  ∧ calls_at AtUserBind (trace_of h w (authenticate self data)) = [].
Proof.
  intros Hin.
  pose proof (run_runs h w (authenticate self data)) as Hrun.
  destruct (authenticate_lookup_event _ _ _ _ _ Hrun Hin eq_refl)
    as (tr_lookup & r0 & Hl & Hin' & Hr).
  destruct (resolve_username_refused _ _ _ _ _ _ Hl Hin') as [-> Hnone].
  destruct Hr as [-> ->]. repeat split; [done|].
  apply (calls_at_none _ (λ s, s = AtLookup)); [done|].
  by apply (calls_from_runs _ _ _ _ (resolve_username_calls _ _) Hl).
Qed.

(** X6: [resolve_username] takes the first entry of the response and
    the first value of its attribute: whatever other entries and
    values the search returned, the result is that value with the DN
    of that entry. *)
Theorem lookup_takes_first_entry_and_value self username W (h : handler W)
    (w : W) c rq res first rest attrs attr value more dn :
  EvSearch AtLookup c rq (inr res)
    ∈ trace_of h w (resolve_username self username) →
  response res = first :: rest →
  entry_attributes first = Some attrs →
  lookup_dn_user_dn_attribute self = Some attr →
  attrs !! attr = Some (AttrList (value :: more)) →
  entry_dn first = Some dn →
  result_of h w (resolve_username self username)
  = Returned (Some value, Some dn).
Proof.
  intros Hin Hres Hattrs Hattr Hvalue Hdn.
  pose proof (run_runs h w (resolve_username self username)) as Hr.
  pose proof (resolve_username_search _ _ _ _ _ _ _ _ Hr Hin) as Hr0.
  unfold resolve_response in Hr0.
  rewrite Hres, Hattrs, Hattr in Hr0. simpl in Hr0.
  rewrite Hvalue, Hdn in Hr0. simpl in Hr0.
  by apply runs_Ret_inv in Hr0 as [_ ->].
Qed.

(** X7: an entry without attributes in front of the response (a
    search reference) makes [resolve_username] give up: it returns
    [(None, None)] and [authenticate] returns [None] without a user
    bind, whatever entries follow. *)
Theorem lookup_reference_first_rejects self data W (h : handler W) (w : W)
    c rq res first rest :
  EvSearch AtLookup c rq (inr res) ∈ trace_of h w (authenticate self data) →
  response res = first :: rest →
  entry_attributes first = None →
  result_of h w (authenticate self data) = Returned None
  ∧ calls_at AtUserBind (trace_of h w (authenticate self data)) = [].
Proof.
  intros Hin Hres Hattrs.
  pose proof (run_runs h w (authenticate self data)) as Hr.
  destruct (lookup_rejects _ _ _ _ _ _ _ Hr Hin) as [-> Hsites].
  { intros tr' r'. unfold resolve_response. rewrite Hres, Hattrs.
    by intros [_ ->]%runs_mret_inv. }
  split; [done|]. by eapply (calls_at_none _ (λ s, s = AtLookup)).
Qed.

(** X8: when the first entry has attributes but none under
    [lookup_dn_user_dn_attribute], or has the attribute but no DN,
    [authenticate] does not return: it ends with [KeyError], and no
    user bind is attempted. *)
Theorem lookup_missing_key_raises self data W (h : handler W) (w : W)
    c rq res first rest attrs attr :
  EvSearch AtLookup c rq (inr res) ∈ trace_of h w (authenticate self data) →
  response res = first :: rest →
  entry_attributes first = Some attrs →
  lookup_dn_user_dn_attribute self = Some attr →
  (attrs !! attr = None →
   result_of h w (authenticate self data) = Raised (KeyError attr)
   ∧ calls_at AtUserBind (trace_of h w (authenticate self data)) = [])
  ∧ (∀ value, attrs !! attr = Some (AttrStr value) → entry_dn first = None →
     result_of h w (authenticate self data) = Raised (KeyError "dn")
     ∧ calls_at AtUserBind (trace_of h w (authenticate self data)) = []).
Proof.
  intros Hin Hres Hattrs Hattr.
  pose proof (run_runs h w (authenticate self data)) as Hrun.
  destruct (authenticate_lookup_event _ _ _ _ _ Hrun Hin eq_refl)
    as (tr_lookup & r0 & Hl & Hin' & Hr).
  pose proof (resolve_username_search _ _ _ _ _ _ _ _ Hl Hin') as Hr0.
  pose proof (calls_from_runs _ _ _ _ (resolve_username_calls _ _) Hl) as Hsites.
  unfold resolve_response in Hr0.
  rewrite Hres, Hattrs, Hattr in Hr0. simpl in Hr0.
  split.
  - intros Hnone. rewrite Hnone in Hr0. simpl in Hr0.
    apply runs_Raise_inv in Hr0 as [_ ->]. destruct Hr as [-> ->].
    split; [done|]. by apply (calls_at_none _ (λ s, s = AtLookup)).
  - intros value Hvalue Hdn. rewrite Hvalue, Hdn in Hr0. simpl in Hr0.
    apply runs_Raise_inv in Hr0 as [_ ->]. destruct Hr as [-> ->].
    split; [done|]. by apply (calls_at_none _ (λ s, s = AtLookup)).
Qed.

End Lookup.

(** ** Exceptions in the bind loop *)

Lemma last_after tr1 tr2 (ev : event) :
  last tr2 = Some ev → last (tr1 ++ tr2) = Some ev.
Proof. intros Hl. rewrite last_app. by rewrite Hl. Qed.

Section Aborts.
Context `{Externals}.

Lemma aborting_site e ev : aborting e ev → ev_site ev = AtUserBind.
Proof. by destruct ev as [[] ? [?|?]|[] ? [?|?]|]. Qed.

Lemma failed_attempt_goes_on userdn evs e ev :
  failed_attempt userdn evs → ev ∈ evs → ¬ aborting e ev.
Proof.
  intros Hevs Hin Hab.
  destruct evs as [|[[] rq1 [exc|c]| |] [|[|[] c' [exc'|[]]|] [|??]]];
    simpl in Hevs; try done; trace_mem Hin; simplify_eq; simpl in Hab;
    intuition congruence.
Qed.

Lemma successful_attempt_goes_on userdn conn evs e ev :
  successful_attempt userdn conn evs → ev ∈ evs → ¬ aborting e ev.
Proof.
  intros Hevs Hin Hab.
  destruct evs as [|[[] rq1 [exc|c]| |] [|[|[] c' [exc'|[]]|] [|??]]];
    simpl in Hevs; try done; trace_mem Hin; simplify_eq; by simpl in Hab.
Qed.

Lemma aborted_attempt_ends userdn e' evs e ev :
  aborted_attempt userdn e' evs → ev ∈ evs → aborting e ev →
  e' = e ∧ last evs = Some ev.
Proof.
  intros Hevs Hin Hab.
  destruct evs as [|[[] rq1 [exc|c]| |] [|[|[] c' [exc'|[]]|] [|??]]];
    simpl in Hevs; try done; trace_mem Hin; simplify_eq; simpl in Hab;
    try done; (split; [intuition congruence|done]).
Qed.

Lemma bind_loop_abort self u pw ts tr r e ev :
  runs (bind_loop self u pw ts) tr r →
  ev ∈ tr → aborting e ev → r = Raised e ∧ last tr = Some ev.
Proof.
  revert tr. induction ts as [|dn rest IH]; intros tr Hr Hin Hab.
  { apply runs_mret_inv in Hr as [-> _]. by trace_mem Hin. }
  apply bind_loop_round in Hr
    as [(e' & _ & -> & _)
       |(userdn & Hf &
          [(evs & tr' & Hevs & _ & -> & Hr)
          |[(conn & Hevs & _)|[(e' & Hevs & ->)|(e' & Hevs & ->)]]])].
  - by trace_mem Hin.
  - apply elem_of_app in Hin as [Hin|Hin].
    + by destruct (failed_attempt_goes_on _ _ e _ Hevs Hin).
    + destruct (IH _ Hr Hin Hab) as [-> Hlast]. split; [done|].
      by apply last_after.
  - by destruct (successful_attempt_goes_on _ _ _ e _ Hevs Hin).
  - by destruct (aborted_attempt_ends _ _ _ _ _ Hevs Hin Hab) as [-> ?].
  - apply unlogged_attempt_failed in Hevs.
    by destruct (failed_attempt_goes_on _ _ e _ Hevs Hin).
Qed.

Lemma authenticate_candidates_abort self data u pw ts tr r e ev :
  runs (authenticate_candidates self data u pw ts) tr r →
  ev ∈ tr → aborting e ev → r = Raised e ∧ last tr = Some ev.
Proof.
  intros [(tr1 & tr2 & conn & userdn & -> & Hl & Hr)
         |[[Hl ->]|(e' & Hl & ->)]]%authenticate_candidates_runs Hin Hab.
  - apply elem_of_app in Hin as [Hin|Hin].
    + by destruct (bind_loop_abort _ _ _ _ _ _ _ _ Hl Hin Hab).
    + pose proof (Forall_site_elem _ _ _
        (calls_from_runs _ _ _ _ (authenticate_bound_calls _ _ _ _ _) Hr) Hin)
        as Hsite.
      simpl in Hsite. rewrite (aborting_site _ _ Hab) in Hsite.
      by destruct Hsite as [?|[?|?]].
  - by destruct (bind_loop_abort _ _ _ _ _ _ _ _ Hl Hin Hab).
  - destruct (bind_loop_abort _ _ _ _ _ _ _ _ Hl Hin Hab) as [Heq ?].
    by simplify_eq.
Qed.

(** X9: only [LDAPBindError] raised by the connection is caught.  When
    a connection of the bind loop raises another exception, or a
    [bind()] of the loop raises any exception, [authenticate] ends
    with that exception and that call is its last: the templates that
    remain are not tried. *)
Theorem other_exceptions_end_the_loop self data W (h : handler W) (w : W) e ev :
  ev ∈ trace_of h w (authenticate self data) →
  aborting e ev →
  result_of h w (authenticate self data) = Raised e
  ∧ last (trace_of h w (authenticate self data)) = Some ev.
Proof.
  intros Hin Hab.
  pose proof (run_runs h w (authenticate self data)) as Hrun.
  revert Hrun Hin.
  generalize (trace_of h w (authenticate self data)) as tr.
  generalize (result_of h w (authenticate self data)) as r.
  intros r tr
    [[-> ->]|[(pw & _ & _ & Hr)
             |(_ & pw & tr_lookup & r0 & _ & Hl & Hr)]]%authenticate_runs Hin.
  - by trace_mem Hin.
  - by eapply authenticate_candidates_abort.
  - pose proof (calls_from_runs _ _ _ _ (resolve_username_calls _ _) Hl) as Hsites.
    assert (ev ∉ tr_lookup) as Hnot.
    { intros Hin'.
      pose proof (Forall_site_elem (λ s, s = AtLookup) _ _ Hsites Hin') as Hsite.
      simpl in Hsite. by rewrite (aborting_site _ _ Hab) in Hsite. }
    assert (∀ u tr_rest ts, tr = tr_lookup ++ tr_rest →
              runs (authenticate_candidates self data u pw ts) tr_rest r →
              r = Raised e ∧ last tr = Some ev) as Hrest.
    { intros u tr_rest ts -> Hr'. apply elem_of_app in Hin as [Hin|Hin]; [done|].
      destruct (authenticate_candidates_abort _ _ _ _ _ _ _ _ _ Hr' Hin Hab)
        as [-> Hlast].
      split; [done|]. by apply last_after. }
    destruct r0 as [[[u|] d]|e0]; [|by destruct Hr as [-> _]..].
    destruct (Py.truthy u); [|by destruct Hr as [-> _]].
    destruct (bind_dn_template self) as [|t ts].
    + destruct d as [dn|]; [|by destruct Hr as [-> _]].
      destruct Hr as (tr_rest & Htr & Hr). by eapply Hrest.
    + destruct Hr as (tr_rest & Htr & Hr). by eapply Hrest.
Qed.

(** ** The bound connection *)

Lemma authenticate_bound_on_connection self data u conn userdn :
  calls_ok (bound_calls conn userdn)
    (authenticate_bound self data u conn userdn).
Proof.
  assert (∀ gs, calls_ok (bound_calls conn userdn)
                  (authenticate_finish self data u conn userdn gs)) as Hfinish.
  { intros gs. unfold authenticate_finish. apply calls_ok_bind; [|constructor].
    unfold get_user_attributes.
    destruct (Py.nonempty _); [|constructor].
    apply calls_ok_bind.
    - constructor; [|intros; apply calls_ok_lift]. simpl. by repeat split.
    - intros res. destruct (found res); [apply calls_ok_lift|constructor]. }
  assert (∀ groups, calls_ok (bound_calls conn userdn)
                      (probe_groups self conn userdn u groups)) as Hprobe.
  { induction groups as [|g rest IH]; [constructor|].
    rewrite probe_groups_cons.
    apply calls_ok_bind; [apply calls_ok_lift|intros f].
    apply calls_ok_bind.
    - constructor; [|intros; apply calls_ok_lift]. simpl. by repeat split.
    - intros res. destruct (found res); [constructor|done]. }
  assert (calls_ok (bound_calls conn userdn)
            (authenticate_groups self data u conn userdn)) as Hgroups.
  { unfold authenticate_groups.
    destruct (Py.nonempty _); [|done].
    destruct (_ || _); [constructor|].
    by apply calls_ok_bind. }
  unfold authenticate_bound.
  destruct (Py.truthy _); [|done].
  apply calls_ok_bind; [apply calls_ok_lift|intros f].
  apply calls_ok_bind.
  - constructor; [|intros; apply calls_ok_lift]. simpl. by repeat split.
  - intros res. simpl.
    destruct (Nat.eqb _ _); [constructor|]. by destruct (Nat.ltb _ _); [constructor|].
Qed.

(** X10: an identity is returned only after a call that left a
    connection bound; and every search other than the lookup's comes
    after the call that bound its connection, after which [authenticate]
    opens no connection and calls no [bind()]: all that follows is
    searches on that connection. *)
Theorem searches_use_bound_connection self data W (h : handler W) (w : W) :
  (∀ id, result_of h w (authenticate self data) = Returned (Some id) →
     ∃ ev conn, ev ∈ trace_of h w (authenticate self data)
                ∧ is_bound_by ev conn)
  ∧ (∀ s c rq ans,
       EvSearch s c rq ans ∈ trace_of h w (authenticate self data) →
       s ≠ AtLookup →
       ∃ tr_pre ev tr_post,
         trace_of h w (authenticate self data) = tr_pre ++ ev :: tr_post
         ∧ is_bound_by ev c
         ∧ EvSearch s c rq ans ∈ tr_post
         ∧ Forall (is_search_on c) tr_post).
Proof.
  pose proof (calls_ok_runs _ _ _ _ (authenticate_ok self data)
                (run_runs h w (authenticate self data))) as Hok.
  pose proof (run_runs h w (authenticate self data)) as Hrun.
  revert Hrun Hok.
  generalize (trace_of h w (authenticate self data)) as tr.
  generalize (result_of h w (authenticate self data)) as r.
  intros r tr Hrun Hok.
  destruct (authenticate_reach _ _ _ _ Hrun)
    as (u & _ & _ & [[Hid Hun]|(conn & userdn & tr_pre & evs & tr_post
                                & -> & Hpre & Hevs & Hr)]).
  - split; [intros id ->; by destruct (Hid id)|].
    intros s c rq ans Hin Hs. exfalso.
    pose proof (proj1 (Forall_forall _ _) Hok _ Hin) as Hev.
    apply (proj1 (Forall_forall _ _) Hun) in Hin as [[?|?] _];
      simpl in *; [done|]. by subst s.
  - destruct (successful_attempt_last _ _ _ Hevs) as (ev & Hlast & Hb).
    apply last_Some in Hlast as [evs0 ->].
    split.
    { intros id _. exists ev, conn. split; [|done].
      apply elem_of_app; right. apply elem_of_app; left.
      apply elem_of_app; right. apply list_elem_of_here. }
    intros s c rq ans Hin Hs.
    pose proof (proj1 (Forall_forall _ _) Hok _ Hin) as Hev.
    pose proof (calls_ok_runs _ _ _ _
                  (authenticate_bound_on_connection self data u conn userdn) Hr)
      as Hpost.
    assert (EvSearch s c rq ans ∈ tr_post) as Hin'.
    { apply elem_of_app in Hin as [Hin|[Hin|Hin]%elem_of_app]; [| |done].
      - apply (proj1 (Forall_forall _ _) Hpre) in Hin as [[?|?] _];
          simpl in *; [done|]. by subst s.
      - apply (Forall_site_elem (λ s, s = AtUserBind) _ _
                 (successful_attempt_sites _ _ _ Hevs)) in Hin.
        simpl in *. by subst s. }
    pose proof (proj1 (Forall_forall _ _) Hpost _ Hin') as (-> & _).
    exists (tr_pre ++ evs0), ev, tr_post.
    repeat split; [by rewrite <- !(assoc_L (++))|done..|].
    eapply Forall_impl; [exact Hpost|].
    intros [| |s' c' rq' ans'] Hev'; simpl in *; try done. by destruct Hev'.
Qed.

End Aborts.

(** ** The identity that is returned *)

Section Identity.
Context `{Externals}.

Lemma get_user_attributes_Returned self conn userdn tr attrs :
  runs (get_user_attributes self conn userdn) tr (Returned attrs) →
  (auth_state_attributes self = [] ∧ tr = [] ∧ attrs = ∅)
  ∨ (auth_state_attributes self ≠ []
     ∧ ∃ rq res,
         tr = [EvSearch AtUserAttributes conn rq (inr res)]
         ∧ rq_base rq = Some userdn
         ∧ attrs = (if found res then default ∅ (head (entries res)) else ∅)
         ∧ (found res = true → entries res ≠ [])).
Proof.
  unfold get_user_attributes.
  destruct (Py.nonempty (auth_state_attributes self)) eqn:Hne.
  2:{ intros [-> ?]%runs_mret_inv. left.
      destruct (auth_state_attributes self); [by simplify_eq|done]. }
  intros [(e & _ & ?)
         |(res & tr1 & tr2 & ->%runs_conn_search_Returned & Hr & ->)]%runs_bind_inv;
    [done|].
  right. split; [by destruct (auth_state_attributes self)|].
  destruct (found res) eqn:Hfound.
  - apply runs_lift_Returned in Hr as [-> Hhead].
    eexists _, res. split; [done|]. split; [done|]. rewrite Hfound. split.
    + destruct (entries res); by simplify_eq/=.
    + intros _ Hnil. by rewrite Hnil in Hhead.
  - apply runs_mret_inv in Hr as [-> ?]. simplify_eq.
    eexists _, res. split; [done|]. split; [done|]. by rewrite Hfound.
Qed.

Lemma authenticate_finish_identity self data u conn userdn gs tr id :
  runs (authenticate_finish self data u conn userdn gs) tr (Returned (Some id)) →
  ∃ attrs,
    runs (get_user_attributes self conn userdn) tr (Returned attrs)
    ∧ id = {| name := if use_lookup_dn_username self then u
                      else data_username data;
              auth_state := Some {| ldap_groups := Some gs;
                                    user_attributes := attrs |} |}.
Proof.
  unfold authenticate_finish.
  intros [(e & _ & ?)|(attrs & tr1 & tr2 & Hr & [-> ?]%runs_mret_inv & ->)]
    %runs_bind_inv; [done|].
  exists attrs. rewrite app_nil_r. split; [done|].
  simplify_eq. by destruct (use_lookup_dn_username self).
Qed.

Lemma authenticate_groups_identity self data u conn userdn tr id :
  runs (authenticate_groups self data u conn userdn) tr (Returned (Some id)) →
  ∃ gs tr_before tr_fin,
    tr = tr_before ++ tr_fin
    ∧ Forall (λ ev, ev_site ev = AtGroupProbe) tr_before
    ∧ runs (authenticate_finish self data u conn userdn gs) tr_fin
        (Returned (Some id))
    ∧ (Py.nonempty (default [] (allowed_groups self)) = false
       → gs = [] ∧ tr_before = []).
Proof.
  intros Hr. apply authenticate_groups_runs in Hr.
  destruct (Py.nonempty _).
  - destruct (_ || _); [by destruct Hr|].
    destruct Hr as [(e & _ & ?)|(gs & tr1 & tr2 & -> & Hp & Hfin)]; [done|].
    exists gs, tr1, tr2. repeat split; [|done..].
    by apply (calls_from_runs _ _ _ _ (probe_groups_calls _ _ _ _ _) Hp).
  - exists [], [], tr. by repeat split.
Qed.

Lemma authenticate_bound_identity self data u conn userdn tr id :
  runs (authenticate_bound self data u conn userdn) tr (Returned (Some id)) →
  ∃ gs tr_before tr_fin,
    tr = tr_before ++ tr_fin
    ∧ Forall (λ ev, ev_site ev = AtSearchFilter ∨ ev_site ev = AtGroupProbe)
        tr_before
    ∧ runs (authenticate_finish self data u conn userdn gs) tr_fin
        (Returned (Some id))
    ∧ (Py.nonempty (default [] (allowed_groups self)) = false → gs = []).
Proof.
  intros Hr. apply authenticate_bound_runs in Hr.
  assert (∀ tr', runs (authenticate_groups self data u conn userdn) tr'
                   (Returned (Some id)) →
          ∃ gs tr_before tr_fin,
            tr' = tr_before ++ tr_fin
            ∧ Forall (λ ev, ev_site ev = AtSearchFilter ∨ ev_site ev = AtGroupProbe)
                tr_before
            ∧ runs (authenticate_finish self data u conn userdn gs) tr_fin
                (Returned (Some id))
            ∧ (Py.nonempty (default [] (allowed_groups self)) = false → gs = []))
    as Hgroups.
  { intros tr' (gs & tr1 & tr2 & -> & Hs & Hfin & Hgs)%authenticate_groups_identity.
    exists gs, tr1, tr2. repeat split; [|done|].
    - eapply Forall_impl; [exact Hs|]. by right.
    - intros Hno. by destruct (Hgs Hno). }
  destruct (Py.truthy (search_filter self)); [|by apply Hgroups].
  destruct Hr as [(e & _ & _ & ?)
                 |(rq & [e|res] & tr' & -> & _ & _ & _ & _ & Hans)]; [done| |].
  { by destruct Hans. }
  destruct (decide _); [|by destruct Hans].
  destruct (Hgroups _ Hans) as (gs & tr1 & tr2 & -> & Hs & Hfin & Hgs).
  exists gs, (EvSearch AtSearchFilter conn rq (inr res) :: tr1), tr2.
  repeat split; [|done..]. constructor; [by left|done].
Qed.

Lemma authenticate_candidates_identity self data u pw ts tr id :
  runs (authenticate_candidates self data u pw ts) tr (Returned (Some id)) →
  ∃ conn userdn gs tr_before tr_fin,
    tr = tr_before ++ tr_fin
    ∧ Forall (λ ev, ev_site ev ≠ AtUserAttributes) tr_before
    ∧ runs (authenticate_finish self data u conn userdn gs) tr_fin
        (Returned (Some id))
    ∧ (Py.nonempty (default [] (allowed_groups self)) = false → gs = []).
Proof.
  intros [(tr1 & tr2 & conn & userdn & -> & Hl & Hr)
         |[[_ ?]|(e & _ & ?)]]%authenticate_candidates_runs; [|done..].
  apply authenticate_bound_identity in Hr
    as (gs & tr_before & tr_fin & -> & Hs & Hfin & Hgs).
  exists conn, userdn, gs, (tr1 ++ tr_before), tr_fin.
  rewrite (assoc_L (++)). repeat split; [|done..].
  apply Forall_app. split.
  - eapply Forall_impl;
      [exact (calls_from_runs _ _ _ _ (bind_loop_calls _ _ _ _) Hl)|].
    by intros ev ->.
  - eapply Forall_impl; [exact Hs|]. by intros ev [-> | ->].
Qed.

(** A run that returns an identity: the effective user name, where it
    comes from, and the end of the run. *)
Lemma authenticate_identity self data tr id :
  runs (authenticate self data) tr (Returned (Some id)) →
  ∃ u conn userdn gs tr_before tr_fin,
    tr = tr_before ++ tr_fin
    ∧ Forall (λ ev, ev_site ev ≠ AtUserAttributes) tr_before
    ∧ runs (authenticate_finish self data u conn userdn gs) tr_fin
        (Returned (Some id))
    ∧ (Py.nonempty (default [] (allowed_groups self)) = false → gs = [])
    ∧ (lookup_dn self = false → u = data_username data)
    ∧ (lookup_dn self = true →
       ∃ tr_lookup d tr_rest,
         runs (resolve_username self (data_username data)) tr_lookup
           (Returned (Some u, d))
         ∧ tr = tr_lookup ++ tr_rest).
Proof.
  intros [[_ ?]|[(pw & _ & Hlookup & Hr)
                |(Hlookup & pw & tr_lookup & r0 & _ & Hl & Hr)]]%authenticate_runs;
    [done| |].
  - apply authenticate_candidates_identity in Hr
      as (conn & userdn & gs & tr_before & tr_fin & -> & Hs & Hfin & Hgs).
    exists (data_username data), conn, userdn, gs, tr_before, tr_fin.
    repeat split; [done..|]. intros ?. congruence.
  - pose proof (calls_from_runs _ _ _ _ (resolve_username_calls _ _) Hl) as Hsites.
    assert (∀ u d tr_rest ts,
      r0 = Returned (Some u, d) → tr = tr_lookup ++ tr_rest →
      runs (authenticate_candidates self data u pw ts) tr_rest
        (Returned (Some id)) →
      ∃ u conn userdn gs tr_before tr_fin,
        tr = tr_before ++ tr_fin
        ∧ Forall (λ ev, ev_site ev ≠ AtUserAttributes) tr_before
        ∧ runs (authenticate_finish self data u conn userdn gs) tr_fin
            (Returned (Some id))
        ∧ (Py.nonempty (default [] (allowed_groups self)) = false → gs = [])
        ∧ (lookup_dn self = false → u = data_username data)
        ∧ (lookup_dn self = true →
           ∃ tr_lookup d tr_rest,
             runs (resolve_username self (data_username data)) tr_lookup
               (Returned (Some u, d))
             ∧ tr = tr_lookup ++ tr_rest)) as Hrest.
    { intros u d tr_rest ts -> ->
        (conn & userdn & gs & tr_before & tr_fin & -> & Hs & Hfin & Hgs)
        %authenticate_candidates_identity.
      exists u, conn, userdn, gs, (tr_lookup ++ tr_before), tr_fin.
      rewrite (assoc_L (++)). repeat split; [|done..| |].
      - apply Forall_app. split; [|done].
        eapply Forall_impl; [exact Hsites|]. by intros ev ->.
      - intros ?. congruence.
      - intros _. exists tr_lookup, d, (tr_before ++ tr_fin).
        by rewrite (assoc_L (++)). }
    destruct r0 as [[[u|] d]|e]; [|by destruct Hr..].
    destruct (Py.truthy u); [|by destruct Hr].
    destruct (bind_dn_template self) as [|t ts].
    + destruct d as [dn|]; [|by destruct Hr].
      destruct Hr as (tr_rest & Htr & Hr). by eapply Hrest.
    + destruct Hr as (tr_rest & Htr & Hr). by eapply Hrest.
Qed.

Lemma resolve_response_value self res tr u d :
  runs (resolve_response self res) tr (Returned (Some u, d)) →
  ∃ first rest attrs attr value,
    response res = first :: rest ∧ entry_attributes first = Some attrs
    ∧ lookup_dn_user_dn_attribute self = Some attr
    ∧ attrs !! attr = Some value
    ∧ (value = AttrStr u ∨ ∃ more, value = AttrList (u :: more)).
Proof.
  unfold resolve_response.
  destruct (response res) as [|first rest]; [by intros [_ ?]%runs_mret_inv|].
  destruct (entry_attributes first) as [attrs|] eqn:Hattrs;
    [|by intros [_ ?]%runs_mret_inv].
  intros [(e & _ & ?)
         |(v & tr1 & tr2 & [_ Hv]%runs_lift_Returned & Hr & ->)]%runs_bind_inv;
    [done|].
  destruct (lookup_dn_user_dn_attribute self) as [attr|]; [|done]. simpl in Hv.
  destruct (attrs !! attr) as [v'|] eqn:Hattr; [|done]. simplify_eq/=.
  exists first, rest, attrs, attr, v. do 4 (split; [done|]).
  destruct v as [s|[|s l]].
  - apply runs_bind_inv in Hr
      as [(e & _ & ?)|(dn & tr3 & tr4 & _ & [_ ?]%runs_mret_inv & _)]; [done|].
    left. by simplify_eq.
  - by apply runs_mret_inv in Hr as [_ ?].
  - apply runs_bind_inv in Hr
      as [(e & _ & ?)|(dn & tr3 & tr4 & _ & [_ ?]%runs_mret_inv & _)]; [done|].
    right. exists l. by simplify_eq.
Qed.

(** X11: the name of the identity.  Without [lookup_dn], or with
    [use_lookup_dn_username] off, it is the user name that was
    supplied; with both on it is the value that the lookup found: the
    attribute [lookup_dn_user_dn_attribute] of the first entry, or
    the first of its values. *)
Theorem returned_name self data W (h : handler W) (w : W) id :
  result_of h w (authenticate self data) = Returned (Some id) →
  (lookup_dn self = false ∨ use_lookup_dn_username self = false →
   name id = data_username data)
  ∧ (lookup_dn self = true → use_lookup_dn_username self = true →
     ∃ c rq res first rest attrs attr value,
       EvSearch AtLookup c rq (inr res) ∈ trace_of h w (authenticate self data)
       ∧ response res = first :: rest ∧ entry_attributes first = Some attrs
       ∧ lookup_dn_user_dn_attribute self = Some attr
       ∧ attrs !! attr = Some value
       ∧ (value = AttrStr (name id)
          ∨ ∃ more, value = AttrList (name id :: more))).
Proof.
  intros Hres.
  pose proof (run_runs h w (authenticate self data)) as Hrun.
  rewrite Hres in Hrun.
  destruct (authenticate_identity _ _ _ _ Hrun)
    as (u & conn & userdn & gs & tr_before & tr_fin & Htr & _ & Hfin & _
        & Hoff & Hon).
  apply authenticate_finish_identity in Hfin as (attrs & _ & ->). simpl.
  split.
  - intros [Hlookup|Huse]; [|by rewrite Huse].
    rewrite (Hoff Hlookup). by destruct (use_lookup_dn_username self).
  - intros Hlookup Huse. rewrite Huse.
    destruct (Hon Hlookup) as (tr_lookup & d & tr_rest & Hl & Htr').
    destruct (resolve_username_Some _ _ _ _ _ Hl)
      as (tr0 & c & f & res & first & rest & dn & -> & _).
    assert (EvSearch AtLookup c (lookup_request self f) (inr res)
            ∈ tr0 ++ [EvSearch AtLookup c (lookup_request self f) (inr res)])
      as Hin.
    { apply elem_of_app; right. apply list_elem_of_here. }
    pose proof (resolve_username_search _ _ _ _ _ _ _ _ Hl Hin) as Hr0.
    apply resolve_response_value in Hr0
      as (first' & rest' & attrs' & attr & value & ? & ? & ? & ? & ?).
    exists c, (lookup_request self f), res, first', rest', attrs', attr, value.
    repeat split; [|done..].
    rewrite Htr'. by apply elem_of_app; left.
Qed.

(** X12: the user attributes of the identity.  With no
    [auth_state_attributes] nothing is fetched and they are empty.
    Otherwise they are fetched by the last call of the run, one
    sub-tree search for any object class under the DN that was bound,
    asking for [auth_state_attributes]: they are the attributes of the
    first entry when the search returned true (there is one then),
    and empty when it returned false. *)
Theorem user_attributes_fetched self data W (h : handler W) (w : W) id :
  result_of h w (authenticate self data) = Returned (Some id) →
  (auth_state_attributes self = [] →
   calls_at AtUserAttributes (trace_of h w (authenticate self data)) = []
   ∧ attributes_of id = Some ∅)
  ∧ (auth_state_attributes self ≠ [] →
     ∃ c rq res,
       calls_at AtUserAttributes (trace_of h w (authenticate self data))
       = [EvSearch AtUserAttributes c rq (inr res)]
       ∧ last (trace_of h w (authenticate self data))
         = Some (EvSearch AtUserAttributes c rq (inr res))
       ∧ is_Some (rq_base rq) ∧ rq_scope rq = SUBTREE
       ∧ rq_filter rq = "(objectClass=*)"
       ∧ rq_attributes rq = Some <$> auth_state_attributes self
       ∧ attributes_of id
         = Some (if found res then default ∅ (head (entries res)) else ∅)
       ∧ (found res = true → entries res ≠ [])).
Proof.
  intros Hres.
  pose proof (calls_ok_runs _ _ _ _ (authenticate_ok self data)
                (run_runs h w (authenticate self data))) as Hok.
  pose proof (run_runs h w (authenticate self data)) as Hrun.
  rewrite Hres in Hrun. revert Hrun Hok.
  generalize (trace_of h w (authenticate self data)) as tr.
  intros tr Hrun Hok.
  destruct (authenticate_identity _ _ _ _ Hrun)
    as (u & conn & userdn & gs & tr_before & tr_fin & -> & Hs & Hfin & _).
  apply authenticate_finish_identity in Hfin as (attrs & Hattrs & ->).
  assert (calls_at AtUserAttributes tr_before = []) as Hbefore.
  { by apply (calls_at_none _ (λ s, s ≠ AtUserAttributes)); [intros []|]. }
  rewrite calls_at_app, Hbefore. simpl.
  apply get_user_attributes_Returned in Hattrs
    as [(Hunset & -> & ->)|(Hset & rq & res & -> & Hbase & -> & Hentries)].
  - split; [done|]. by intros [].
  - split; [done|]. intros _. exists conn, rq, res.
    apply Forall_app in Hok as [_ Hok].
    apply Forall_cons_1 in Hok as [(_ & ? & ? & ?) _].
    rewrite last_snoc. by repeat split.
Qed.

(** X13: with [allowed_groups] unset or empty no group is probed, and
    every identity that is returned has an empty [ldap_groups]. *)
Theorem no_allowed_groups_no_probe self data W (h : handler W) (w : W) :
  allowed_groups self = None ∨ allowed_groups self = Some [] →
  calls_at AtGroupProbe (trace_of h w (authenticate self data)) = []
  ∧ ∀ id, result_of h w (authenticate self data) = Returned (Some id) →
          groups_of id = Some [].
Proof.
  intros Hnone.
  assert (Py.nonempty (default [] (allowed_groups self)) = false) as Hno.
  { by destruct Hnone as [-> | ->]. }
  pose proof (calls_ok_runs _ _ _ _ (authenticate_ok self data)
                (run_runs h w (authenticate self data))) as Hok.
  split.
  - apply (calls_at_none _ (λ s, s ≠ AtGroupProbe)); [by intros []|].
    eapply Forall_impl; [exact Hok|].
    intros [s rq ans|s c ans|s c rq ans] Hev; simpl in *; destruct s; try done.
    + by destruct Hev as (_ & _ & _ & []).
    + destruct Hev as (_ & _ & g & Hg & _).
      destruct Hnone as [Heq|Heq]; rewrite Heq in Hg; by apply elem_of_nil in Hg.
  - intros id Hres.
    pose proof (run_runs h w (authenticate self data)) as Hrun.
    rewrite Hres in Hrun.
    destruct (authenticate_identity _ _ _ _ Hrun)
      as (u & conn & userdn & gs & tr_before & tr_fin & _ & _ & Hfin & Hgs & _).
    apply authenticate_finish_identity in Hfin as (attrs & _ & ->).
    by rewrite (Hgs Hno).
Qed.

End Identity.

(** ** The verdict of [check_allowed] *)

Section Verdict.
Context `{Externals}.

Lemma in_allowed_group_spec groups (in_groups : gset string) :
  in_allowed_group groups in_groups = true
  ↔ ∃ group, group ∈ groups ∧ group ∈ in_groups.
Proof.
  induction groups as [|g groups IH]; simpl.
  { split; [done|]. by intros (g & ?%elem_of_nil & _). }
  case_bool_decide as Hg.
  - split; [|done]. intros _. exists g. split; [apply list_elem_of_here|done].
  - rewrite IH. split.
    + intros (g' & ? & ?). exists g'. split; [by apply list_elem_of_further|done].
    + intros (g' & [->|?]%elem_of_cons & ?); [done|]. by exists g'.
Qed.

Lemma check_allowed_Ret self username auth_model :
  check_allowed self username auth_model
  = Ret (match allow_all self with
         | None =>
             bool_decide (allowed_users self = ∅)
             && negb (Py.nonempty (default [] (allowed_groups self)))
             || negb (bool_decide (allowed_users self = ∅))
                && bool_decide (username ∈ allowed_users self)
         | Some _ => super_check_allowed self username auth_model
         end
         || Py.nonempty (default [] (allowed_groups self))
            && in_allowed_group (default [] (allowed_groups self))
                 (list_to_set (default [] (groups_of auth_model)))).
Proof.
  unfold check_allowed, groups_of.
  destruct (allow_all self).
  - destruct (super_check_allowed _ _ _); [done|]. by destruct (_ && _).
  - destruct (_ && _); [done|]. destruct (_ && _); [done|]. by destruct (_ && _).
Qed.

Lemma check_allowed_iff self username auth_model :
  ∃ verdict : bool,
    check_allowed self username auth_model = Ret verdict
    ∧ (verdict = true
       ↔ match allow_all self with
         | None =>
             (allowed_users self = ∅ ∧ default [] (allowed_groups self) = [])
             ∨ username ∈ allowed_users self
         | Some _ => super_check_allowed self username auth_model = true
         end
         ∨ ∃ group, group ∈ default [] (allowed_groups self)
                    ∧ group ∈ default [] (groups_of auth_model)).
Proof.
  eexists. split; [apply check_allowed_Ret|].
  rewrite orb_true_iff, andb_true_iff, in_allowed_group_spec.
  assert ((Py.nonempty (default [] (allowed_groups self)) = true
           ∧ ∃ group, group ∈ default [] (allowed_groups self)
                ∧ group ∈ (list_to_set (default [] (groups_of auth_model))
                           : gset string))
          ↔ ∃ group, group ∈ default [] (allowed_groups self)
                     ∧ group ∈ default [] (groups_of auth_model)) as ->.
  { split.
    - intros (_ & g & ? & ?%elem_of_list_to_set). by exists g.
    - intros (g & Hg & ?). split.
      + destruct (default [] (allowed_groups self)); [|done].
        by apply elem_of_nil in Hg.
      + exists g. split; [done|]. by apply elem_of_list_to_set. }
  destruct (allow_all self); [done|].
  rewrite orb_true_iff, !andb_true_iff, !negb_true_iff, !bool_decide_eq_true,
    bool_decide_eq_false.
  assert (Py.nonempty (default [] (allowed_groups self)) = false
          ↔ default [] (allowed_groups self) = []) as ->.
  { by destruct (default [] (allowed_groups self)). }
  split.
  - intros [[?|[_ ?]]|?]; [by left; left|by left; right|by right].
  - intros [[?|Hu]|?]; [by left; left| |by right].
    left. right. split; [|done]. intros Hempty. rewrite Hempty in Hu.
    by apply elem_of_empty in Hu.
Qed.

(** X14: the verdict of [check_allowed].  It is true exactly when the
    rule before the groups lets the user in (without [allow_all]: no
    [allowed_users] and no [allowed_groups] at all, or the user name is
    in [allowed_users]; with [allow_all]: the host's [check_allowed]
    answers true), or one of [allowed_groups] is among the
    [ldap_groups] of the auth state. *)
Theorem check_allowed_verdict self username auth_model
    W (h : handler W) (w : W) :
  ∃ verdict : bool,
    result_of h w (check_allowed self username auth_model) = Returned verdict
    ∧ (verdict = true
       ↔ match allow_all self with
         | None =>
             (allowed_users self = ∅ ∧ default [] (allowed_groups self) = [])
             ∨ username ∈ allowed_users self
         | Some _ => super_check_allowed self username auth_model = true
         end
         ∨ ∃ group, group ∈ default [] (allowed_groups self)
                    ∧ group ∈ default [] (groups_of auth_model)).
Proof.
  destruct (check_allowed_iff self username auth_model) as (verdict & Hv & Hiff).
  exists verdict. split; [|done]. by rewrite Hv.
Qed.

Lemma authenticate_recorded_groups self data tr id :
  runs (authenticate self data) tr (Returned (Some id)) →
  groups_of id = Some []
  ∨ ∃ group, group ∈ default [] (allowed_groups self)
             ∧ groups_of id = Some [group].
Proof.
  intros [[Hno _]|(u & conn & userdn & tr_pre & tr_g & -> & _ & _ & Hg)]
    %authenticate_reach_groups; [by destruct (Hno id)|].
  apply authenticate_groups_runs in Hg.
  destruct (Py.nonempty _).
  - destruct (_ || _); [by destruct Hg|].
    destruct Hg as [(e & _ & ?)|(gs & tr1 & tr2 & -> & Hp & Hfin)]; [done|].
    apply probe_groups_spec in Hp
      as (missed & rest & evs & tr_last & Hgroups & _ & _ & Hgs).
    apply authenticate_finish_runs in Hfin
      as [(id' & ? & Hid)|(e & ev & ? & _)]; [|done].
    simplify_eq.
    destruct Hgs as [(_ & _ & ->)|(g & rest' & ev & -> & _ & _ & ->)];
      [by left|right].
    exists g. split; [|done]. rewrite Hgroups.
    apply elem_of_app; right. apply list_elem_of_here.
  - apply authenticate_finish_runs in Hg
      as [(id' & ? & Hid)|(e & ev & ? & _)]; [|done].
    simplify_eq. by left.
Qed.

(** X15: [authenticate] followed by [check_allowed].  The
    [ldap_groups] of an identity that [authenticate] returns are empty
    or one of [allowed_groups]; so [check_allowed] with that identity
    answers true exactly when the rule before the groups lets the user
    in, or [ldap_groups] is not empty. *)
Theorem authenticated_then_checked self data W (h : handler W) (w : W) id :
  result_of h w (authenticate self data) = Returned (Some id) →
  (groups_of id = Some []
   ∨ ∃ group, group ∈ default [] (allowed_groups self)
              ∧ groups_of id = Some [group])
  ∧ ∀ username W' (h' : handler W') (w' : W'),
      ∃ verdict : bool,
        result_of h' w' (check_allowed self username id) = Returned verdict
        ∧ trace_of h' w' (check_allowed self username id) = []
        ∧ (verdict = true
           ↔ match allow_all self with
             | None =>
                 (allowed_users self = ∅
                  ∧ default [] (allowed_groups self) = [])
                 ∨ username ∈ allowed_users self
             | Some _ => super_check_allowed self username id = true
             end
             ∨ groups_of id ≠ Some []).
Proof.
  intros Hres.
  pose proof (run_runs h w (authenticate self data)) as Hrun.
  rewrite Hres in Hrun.
  pose proof (authenticate_recorded_groups _ _ _ _ Hrun) as Hgroups.
  split; [done|]. intros username W' h' w'.
  destruct (check_allowed_iff self username id) as (verdict & Hv & Hiff).
  exists verdict. rewrite Hv. split; [done|]. split; [done|].
  rewrite Hiff. apply or_iff_compat_l.
  destruct Hgroups as [Hnone|(g & Hg & Hone)].
  - rewrite Hnone. simpl. split; [|done].
    by intros (g & _ & ?%elem_of_nil).
  - rewrite Hone. simpl. split; [done|]. intros _.
    exists g. split; [done|]. apply list_elem_of_here.
Qed.

End Verdict.

(** ** One template *)

Section Template.
Context `{Externals}.

(** X16: [bind_dn_template] configured as a single string, with
    [lookup_dn] off.  No lookup is made, and the bind loop makes at
    most one attempt, for the DN that [str.format] makes of the
    string.  When the attempt fails and the message of the round is
    formatted, the result is [None]; when it fails on [LDAPBindError]
    and the message, with the text of the exception in it, cannot be
    formatted, the result is the exception of [str.format]; when it
    raises something other than [LDAPBindError], that exception is the
    result. *)
Theorem single_template_one_attempt self value data W (h : handler W) (w : W) :
  lookup_dn self = false →
  let configured := set_bind_dn_template self (ProposedStr value) in
  let tr := trace_of h w (authenticate configured data) in
  let r := result_of h w (authenticate configured data) in
  calls_at AtLookup tr = []
  ∧ (calls_at AtUserBind tr = []
     ∨ ∃ userdn,
         str_format value [("username", escape_rdn (data_username data))]
         = inr userdn
         ∧ ((failed_attempt userdn (calls_at AtUserBind tr)
             ∧ logged_attempt (data_username data) userdn
                 (calls_at AtUserBind tr)
             ∧ r = Returned None)
            ∨ (∃ conn, successful_attempt userdn conn (calls_at AtUserBind tr))
            ∨ (∃ e, aborted_attempt userdn e (calls_at AtUserBind tr)
                    ∧ r = Raised e)
            ∨ (∃ e, unlogged_attempt (data_username data) userdn e
                      (calls_at AtUserBind tr)
                    ∧ r = Raised e))).
Proof.
  intros Hlookup configured tr r.
  pose proof (run_runs h w (authenticate configured data)) as Hrun.
  fold tr r in Hrun. clearbody tr r.
  apply authenticate_runs in Hrun
    as [[-> ->]|[(pw & _ & _ & Hr)|(Hlookup' & _)]];
    [by split; [|left]| |simpl in Hlookup'; congruence].
  split.
  { apply (calls_at_none _ (λ s, s ≠ AtLookup)); [by intros []|].
    exact (calls_from_runs _ _ _ _
             (authenticate_candidates_calls _ _ _ _ _) Hr). }
  simpl in Hr. rewrite validate_single_string in Hr.
  destruct (Py.truthy value).
  2:{ apply authenticate_candidates_runs in Hr
        as [(? & ? & ? & ? & _ & [_ ?]%runs_mret_inv & _)
           |[[[-> _]%runs_mret_inv _]|(? & [_ ?]%runs_mret_inv & _)]];
        [done| |done].
      by left. }
  assert (∀ tr1 tr2, tr = tr1 ++ tr2 →
            Forall (λ ev, ev_site ev = AtUserBind) tr1 →
            Forall (λ ev, ev_site ev ≠ AtUserBind) tr2 →
            calls_at AtUserBind tr = tr1) as Hcalls.
  { intros tr1 tr2 -> H1 H2.
    rewrite calls_at_app, (calls_at_all _ tr1 H1),
      (calls_at_none _ (λ s, s ≠ AtUserBind) tr2); [|by intros []|done].
    by rewrite app_nil_r. }
  apply authenticate_candidates_runs in Hr
    as [(tr1 & tr2 & conn & userdn & Htr & Hb & Hpost)
       |[[Hb ->]|(e & Hb & ->)]].
  - rewrite (Hcalls tr1 tr2 Htr).
    + apply bind_loop_single in Hb
        as [(e & _ & _ & ?)
           |(ud & Hf & [(_ & _ & ?)
                       |[(c & Hs & ?)|[(e & _ & ?)|(e & _ & ?)]]])];
        [done|done| |done|done].
      right. exists ud. split; [done|]. right; left. by exists c.
    + exact (calls_from_runs _ _ _ _ (bind_loop_calls _ _ _ _) Hb).
    + eapply Forall_impl;
        [exact (calls_from_runs _ _ _ _
                  (authenticate_bound_calls _ _ _ _ _) Hpost)|].
      by intros ev [->|[->| ->]].
  - rewrite (Hcalls tr [] (eq_sym (app_nil_r _)));
      [|exact (calls_from_runs _ _ _ _ (bind_loop_calls _ _ _ _) Hb)
       |constructor].
    apply bind_loop_single in Hb
      as [(e & _ & _ & ?)
         |(ud & Hf & [(? & ? & _)
                     |[(c & _ & ?)|[(e & _ & ?)|(e & _ & ?)]]])];
      [done| |done..].
    right. exists ud. split; [done|]. by left.
  - rewrite (Hcalls tr [] (eq_sym (app_nil_r _)));
      [|exact (calls_from_runs _ _ _ _ (bind_loop_calls _ _ _ _) Hb)
       |constructor].
    apply bind_loop_single in Hb
      as [(e' & _ & -> & _)
         |(ud & Hf & [(_ & _ & ?)
                     |[(c & _ & ?)|[(e' & ? & ?)|(e' & ? & ?)]]])];
      [by left|done|done| |].
    + right. exists ud. split; [done|]. right; right; left.
      exists e. by simplify_eq.
    + right. exists ud. split; [done|]. right; right; right.
      exists e. by simplify_eq.
Qed.

End Template.

(** ** Rejection without a call, exactly *)

Section Silent.
Context `{Externals}.







End Silent.

(** ** The properties above on the scenarios *)

Lemma lookup_bind_refused_rejects_witness :
  EvBind AtLookup Cases.unbound_connection (inr false)
    ∈ trace_of Servers.refusing tt
        (Scenario.authenticate Scenario.with_lookup Scenario.jdoe)
  ∧ result_of Servers.refusing tt
      (Scenario.authenticate Scenario.with_lookup Scenario.jdoe)
    = Returned None.
Proof.
  split; [in_trace|].
  refine (proj1 (@lookup_bind_refused_rejects Sample.externals
                   Scenario.with_lookup Scenario.jdoe unit Servers.refusing tt
                   Cases.unbound_connection _)).
  in_trace.
Defined.

Lemma lookup_takes_first_entry_and_value_witness :
  response Cases.aliases_found
  = [Scenario.entry "uid=alice,ou=b" (AttrList ["alice"; "al"]);
     Scenario.entry "uid=al,ou=c" (AttrStr "al")]
  ∧ result_of (Sample.server Cases.alice_aliases) tt
      (Scenario.resolve_username Scenario.with_lookup "alice")
    = Returned (Some "alice", Some "uid=alice,ou=b").
Proof.
  split; [reflexivity|].
  refine (@lookup_takes_first_entry_and_value Sample.externals
            Scenario.with_lookup "alice" unit
            (Sample.server Cases.alice_aliases) tt
            Scenario.bound_connection
            (lookup_request Scenario.with_lookup "(uid=alice)")
            Cases.aliases_found
            (Scenario.entry "uid=alice,ou=b" (AttrList ["alice"; "al"]))
            [Scenario.entry "uid=al,ou=c" (AttrStr "al")]
            {["cn" := AttrList ["alice"; "al"]]} "cn" "alice" ["al"]
            "uid=alice,ou=b" _ _ _ _ _ _).
  - in_trace.
  - reflexivity.
  - reflexivity.
  - reflexivity.
  - vm_compute. reflexivity.
  - reflexivity.
Defined.

Lemma lookup_reference_first_rejects_witness :
  entry_attributes Cases.reference = None
  ∧ result_of (Sample.server Cases.alice_behind_reference) tt
      (Scenario.authenticate Scenario.with_lookup Scenario.alice)
    = Returned None
  ∧ calls_at AtUserBind
      (trace_of (Sample.server Cases.alice_behind_reference) tt
         (Scenario.authenticate Scenario.with_lookup Scenario.alice)) = [].
Proof.
  split; [reflexivity|].
  refine (@lookup_reference_first_rejects Sample.externals
            Scenario.with_lookup Scenario.alice unit
            (Sample.server Cases.alice_behind_reference) tt
            Scenario.bound_connection
            (lookup_request Scenario.with_lookup "(uid=alice)")
            Cases.reference_found Cases.reference
            [Scenario.entry "uid=alice,ou=b" (AttrStr "alice")] _ _ _).
  - in_trace.
  - reflexivity.
  - reflexivity.
Defined.

Lemma lookup_missing_key_raises_witness :
  result_of (Sample.server Cases.alice_without_name) tt
    (Scenario.authenticate Scenario.with_lookup Scenario.alice)
  = Raised (KeyError "cn")
  ∧ result_of (Sample.server Cases.alice_without_dn) tt
      (Scenario.authenticate Scenario.with_lookup Scenario.alice)
    = Raised (KeyError "dn").
Proof.
  split.
  - refine (proj1 (proj1 (@lookup_missing_key_raises Sample.externals
              Scenario.with_lookup Scenario.alice unit
              (Sample.server Cases.alice_without_name) tt
              Scenario.bound_connection
              (lookup_request Scenario.with_lookup "(uid=alice)")
              Cases.nameless_found
              {| entry_dn := Some "uid=alice,ou=b";
                 entry_attributes := Some {["uid" := AttrStr "alice"]} |}
              [] {["uid" := AttrStr "alice"]} "cn" _ _ _ _) _)).
    + in_trace.
    + reflexivity.
    + reflexivity.
    + reflexivity.
    + vm_compute. reflexivity.
  - refine (proj1 (proj2 (@lookup_missing_key_raises Sample.externals
              Scenario.with_lookup Scenario.alice unit
              (Sample.server Cases.alice_without_dn) tt
              Scenario.bound_connection
              (lookup_request Scenario.with_lookup "(uid=alice)")
              Cases.dnless_found
              {| entry_dn := None;
                 entry_attributes := Some {["cn" := AttrStr "alice"]} |}
              [] {["cn" := AttrStr "alice"]} "cn" _ _ _ _) "alice" _ _)).
    + in_trace.
    + reflexivity.
    + reflexivity.
    + reflexivity.
    + vm_compute. reflexivity.
    + reflexivity.
Defined.

Lemma other_exceptions_end_the_loop_witness :
  Cases.alice_unreachable
    ∈ trace_of Servers.unreachable tt
        (Scenario.authenticate Scenario.full Scenario.alice)
  ∧ result_of Servers.unreachable tt
      (Scenario.authenticate Scenario.full Scenario.alice)
    = Raised Servers.socket_error
  ∧ last (trace_of Servers.unreachable tt
            (Scenario.authenticate Scenario.full Scenario.alice))
    = Some Cases.alice_unreachable.
Proof.
  split; [in_trace|].
  refine (@other_exceptions_end_the_loop Sample.externals Scenario.full
            Scenario.alice unit Servers.unreachable tt Servers.socket_error
            Cases.alice_unreachable _ _).
  - in_trace.
  - split; reflexivity.
Defined.

Lemma searches_use_bound_connection_witness :
  result_of (Sample.server Scenario.alice_in_b) tt
    (Scenario.authenticate Scenario.full Scenario.alice)
  = Returned (Some (Scenario.alice_with [Scenario.staff]))
  ∧ ∃ ev conn,
      ev ∈ trace_of (Sample.server Scenario.alice_in_b) tt
             (Scenario.authenticate Scenario.full Scenario.alice)
      ∧ is_bound_by ev conn.
Proof.
  assert (result_of (Sample.server Scenario.alice_in_b) tt
            (Scenario.authenticate Scenario.full Scenario.alice)
          = Returned (Some (Scenario.alice_with [Scenario.staff]))) as Hres.
  { vm_compute. reflexivity. }
  split; [exact Hres|].
  exact (proj1 (@searches_use_bound_connection Sample.externals Scenario.full
                  Scenario.alice unit (Sample.server Scenario.alice_in_b) tt)
           _ Hres).
Defined.

Lemma returned_name_witness :
  result_of (Sample.server Scenario.alice_in_b) tt
    (Scenario.authenticate Scenario.full Scenario.alice)
  = Returned (Some (Scenario.alice_with [Scenario.staff]))
  ∧ name (Scenario.alice_with [Scenario.staff]) = data_username Scenario.alice.
Proof.
  assert (result_of (Sample.server Scenario.alice_in_b) tt
            (Scenario.authenticate Scenario.full Scenario.alice)
          = Returned (Some (Scenario.alice_with [Scenario.staff]))) as Hres.
  { vm_compute. reflexivity. }
  split; [exact Hres|].
  exact (proj1 (@returned_name Sample.externals Scenario.full Scenario.alice
                  unit (Sample.server Scenario.alice_in_b) tt _ Hres)
           (or_introl eq_refl)).
Defined.

Lemma user_attributes_fetched_witness :
  ∃ id,
    result_of (Sample.server Cases.alice_with_mail) tt
      (Scenario.authenticate Cases.with_mail Scenario.alice)
    = Returned (Some id)
    ∧ ∃ c rq res,
        last (trace_of (Sample.server Cases.alice_with_mail) tt
                (Scenario.authenticate Cases.with_mail Scenario.alice))
        = Some (EvSearch AtUserAttributes c rq (inr res))
        ∧ attributes_of id
          = Some (if found res then default ∅ (head (entries res)) else ∅).
Proof.
  eexists. split; [vm_compute; reflexivity|].
  destruct (proj2 (@user_attributes_fetched Sample.externals Cases.with_mail
                     Scenario.alice unit (Sample.server Cases.alice_with_mail)
                     tt _ eq_refl))
    as (c & rq & res & _ & Hlast & _ & _ & _ & _ & Hattrs & _);
    [discriminate|].
  exists c, rq, res. split; [exact Hlast|exact Hattrs].
Defined.

Lemma no_allowed_groups_no_probe_witness :
  allowed_groups Cases.no_groups = None
  ∧ calls_at AtGroupProbe
      (trace_of (Sample.server Scenario.alice_in_b) tt
         (Scenario.authenticate Cases.no_groups Scenario.alice)) = [].
Proof.
  split; [reflexivity|].
  exact (proj1 (@no_allowed_groups_no_probe Sample.externals Cases.no_groups
                  Scenario.alice unit (Sample.server Scenario.alice_in_b) tt
                  (or_introl eq_refl))).
Defined.

Lemma authenticated_then_checked_witness :
  result_of (Sample.server Scenario.alice_in_b) tt
    (Scenario.authenticate Scenario.full Scenario.alice)
  = Returned (Some (Scenario.alice_with [Scenario.staff]))
  ∧ (groups_of (Scenario.alice_with [Scenario.staff]) = Some []
     ∨ ∃ group, group ∈ default [] (allowed_groups Scenario.full)
                ∧ groups_of (Scenario.alice_with [Scenario.staff])
                  = Some [group]).
Proof.
  assert (result_of (Sample.server Scenario.alice_in_b) tt
            (Scenario.authenticate Scenario.full Scenario.alice)
          = Returned (Some (Scenario.alice_with [Scenario.staff]))) as Hres.
  { vm_compute. reflexivity. }
  split; [exact Hres|].
  exact (proj1 (@authenticated_then_checked Sample.externals Scenario.full
                  Scenario.alice unit (Sample.server Scenario.alice_in_b) tt
                  _ Hres)).
Defined.

Lemma single_template_one_attempt_witness :
  lookup_dn Scenario.unconfigured = false
  ∧ calls_at AtLookup
      (trace_of (Sample.server Scenario.alice_in_b) tt
         (Scenario.authenticate
            (set_bind_dn_template Scenario.unconfigured
               (ProposedStr "uid={username},ou=b"))
            Scenario.alice)) = [].
Proof.
  split; [reflexivity|].
  exact (proj1 (@single_template_one_attempt Sample.externals
                  Scenario.unconfigured "uid={username},ou=b" Scenario.alice
                  unit (Sample.server Scenario.alice_in_b) tt eq_refl)).
Defined.

(** ** The order of the templates *)

Section Order.
Context `{Externals}.

Lemma authenticate_candidates_order self data u pw ts tr r :
  runs (authenticate_candidates self data u pw ts) tr r →
  ∃ (failed : list (string * string * list event)) (rest : list string)
    (tr_last : list event),
    ts = failed.*1.*1 ++ rest
    ∧ Forall (λ x, str_format x.1.1 [("username", escape_rdn u)] = inr x.1.2
                   ∧ failed_attempt x.1.2 x.2
                   ∧ logged_attempt u x.1.2 x.2) failed
    ∧ calls_at AtUserBind tr = List.concat failed.*2 ++ tr_last
    ∧ (tr_last = []
       ∨ ∃ dn rest' userdn,
           rest = dn :: rest'
           ∧ str_format dn [("username", escape_rdn u)] = inr userdn
           ∧ ((∃ conn, successful_attempt userdn conn tr_last)
              ∨ (∃ e, aborted_attempt userdn e tr_last ∧ r = Raised e)
              ∨ (∃ e, unlogged_attempt u userdn e tr_last ∧ r = Raised e)))
    ∧ (rest = [] → r = Returned None).
Proof.
  intros Hr.
  assert (∀ tr1 tr2, tr = tr1 ++ tr2 →
            Forall (λ ev, ev_site ev = AtUserBind) tr1 →
            Forall (λ ev, ev_site ev ≠ AtUserBind) tr2 →
            calls_at AtUserBind tr = tr1) as Hcalls.
  { intros tr1 tr2 -> H1 H2.
    rewrite calls_at_app, (calls_at_all _ tr1 H1),
      (calls_at_none _ (λ s, s ≠ AtUserBind) tr2); [|by intros []|done].
    by rewrite app_nil_r. }
  apply authenticate_candidates_runs in Hr
    as [(tr1 & tr2 & conn & userdn & Htr & Hb & Hpost)
       |[[Hb ->]|(e & Hb & ->)]].
  - rewrite (Hcalls tr1 tr2 Htr);
      [|exact (calls_from_runs _ _ _ _ (bind_loop_calls _ _ _ _) Hb)|].
    2:{ eapply Forall_impl;
          [exact (calls_from_runs _ _ _ _
                    (authenticate_bound_calls _ _ _ _ _) Hpost)|].
        by intros ev [->|[->| ->]]. }
    apply bind_loop_spec in Hb
      as (failed & rest & tr_last & Hts & Hfailed & -> & dn & rest' & -> & Hf & Hs).
    exists failed, (dn :: rest'), tr_last. do 3 (split; [done|]). split; [|done].
    right. exists dn, rest', userdn. do 2 (split; [done|]). left. by exists conn.
  - rewrite (Hcalls tr [] (eq_sym (app_nil_r _)));
      [|exact (calls_from_runs _ _ _ _ (bind_loop_calls _ _ _ _) Hb)
       |constructor].
    apply bind_loop_spec in Hb
      as (failed & rest & tr_last & Hts & Hfailed & -> & -> & ->).
    exists failed, [], []. do 3 (split; [done|]). split; [by left|done].
  - rewrite (Hcalls tr [] (eq_sym (app_nil_r _)));
      [|exact (calls_from_runs _ _ _ _ (bind_loop_calls _ _ _ _) Hb)
       |constructor].
    apply bind_loop_spec in Hb
      as (failed & rest & tr_last & Hts & Hfailed & -> & dn & rest' & ->
          & [[_ ->]|(userdn & Hf & Ha)]).
    + exists failed, (dn :: rest'), []. do 3 (split; [done|]).
      split; [by left|done].
    + exists failed, (dn :: rest'), tr_last. do 3 (split; [done|]).
      split; [|done]. right. exists dn, rest', userdn.
      do 2 (split; [done|]). right.
      destruct Ha as [Ha|Ha]; [left|right]; by exists e.
Qed.

(** X18: the templates are tried in order.  With [lookup_dn] off or a
    [bind_dn_template] configured, the calls of the bind loop are
    failed attempts (the connection raised [LDAPBindError] and the
    message of the round was formatted, or it came back unbound and
    [bind()] answered false) for the DNs made of the first templates,
    one after the other, and then at most one more attempt, for the
    next template: one that left its connection bound, one that
    raised something other than [LDAPBindError], or one that failed on
    an [LDAPBindError] whose text made the formatting of the message
    raise; the last two end the run with that exception.  No template
    after it is tried.  When every template has failed in the first
    way the result is [None]. *)
Theorem templates_tried_in_order self data W (h : handler W) (w : W) :
  lookup_dn self = false ∨ bind_dn_template self ≠ [] →
  ∃ u (failed : list (string * string * list event)) (rest : list string)
    (tr_last : list event),
    (lookup_dn self = false → u = data_username data)
    ∧ bind_dn_template self = failed.*1.*1 ++ rest
    ∧ Forall (λ x, str_format x.1.1 [("username", escape_rdn u)] = inr x.1.2
                   ∧ failed_attempt x.1.2 x.2
                   ∧ logged_attempt u x.1.2 x.2) failed
    ∧ calls_at AtUserBind (trace_of h w (authenticate self data))
      = List.concat failed.*2 ++ tr_last
    ∧ (tr_last = []
       ∨ ∃ dn rest' userdn,
           rest = dn :: rest'
           ∧ str_format dn [("username", escape_rdn u)] = inr userdn
           ∧ ((∃ conn, successful_attempt userdn conn tr_last)
              ∨ (∃ e, aborted_attempt userdn e tr_last
                      ∧ result_of h w (authenticate self data) = Raised e)
              ∨ (∃ e, unlogged_attempt u userdn e tr_last
                      ∧ result_of h w (authenticate self data) = Raised e)))
    ∧ (rest = [] → result_of h w (authenticate self data) = Returned None).
Proof.
  intros Hconfigured.
  pose proof (run_runs h w (authenticate self data)) as Hrun. revert Hrun.
  generalize (trace_of h w (authenticate self data)) as tr.
  generalize (result_of h w (authenticate self data)) as r.
  intros r tr Hrun.
  assert (calls_at AtUserBind tr = [] →
          (bind_dn_template self = [] → r = Returned None) →
          ∃ u (failed : list (string * string * list event)) (rest : list string)
            (tr_last : list event),
            (lookup_dn self = false → u = data_username data)
            ∧ bind_dn_template self = failed.*1.*1 ++ rest
            ∧ Forall (λ x, str_format x.1.1 [("username", escape_rdn u)]
                           = inr x.1.2 ∧ failed_attempt x.1.2 x.2
                           ∧ logged_attempt u x.1.2 x.2) failed
            ∧ calls_at AtUserBind tr = List.concat failed.*2 ++ tr_last
            ∧ (tr_last = []
               ∨ ∃ dn rest' userdn,
                   rest = dn :: rest'
                   ∧ str_format dn [("username", escape_rdn u)] = inr userdn
                   ∧ ((∃ conn, successful_attempt userdn conn tr_last)
                      ∨ (∃ e, aborted_attempt userdn e tr_last ∧ r = Raised e)
                      ∨ (∃ e, unlogged_attempt u userdn e tr_last
                              ∧ r = Raised e)))
            ∧ (rest = [] → r = Returned None)) as Hnone.
  { intros Hcalls Hr.
    exists (data_username data), [], (bind_dn_template self), [].
    split; [done|]. split; [done|]. split; [constructor|].
    split; [by rewrite Hcalls|]. split; [by left|exact Hr]. }
  apply authenticate_runs in Hrun
    as [[-> ->]|[(pw & _ & Hlookup & Hr)
                |(Hlookup & pw & tr_lookup & r0 & _ & Hl & Hr)]].
  - by apply Hnone.
  - apply authenticate_candidates_order in Hr
      as (failed & rest & tr_last & ? & ? & ? & ? & ?).
    by exists (data_username data), failed, rest, tr_last.
  - destruct Hconfigured as [?|Hts]; [congruence|].
    pose proof (calls_from_runs _ _ _ _ (resolve_username_calls _ _) Hl) as Hsites.
    assert (calls_at AtUserBind tr_lookup = []) as Hlookup_calls.
    { by apply (calls_at_none _ (λ s, s = AtLookup)). }
    destruct r0 as [[[u|] d]|e];
      [|destruct Hr as [-> _]; by apply Hnone..].
    destruct (Py.truthy u); [|destruct Hr as [-> _]; by apply Hnone].
    destruct (bind_dn_template self) as [|t ts] eqn:Htemplates; [done|].
    destruct Hr as (tr_rest & -> & Hr).
    apply authenticate_candidates_order in Hr
      as (failed & rest & tr_last & ? & ? & Hcalls & ? & ?).
    exists u, failed, rest, tr_last.
    rewrite calls_at_app, Hlookup_calls, Hcalls. simpl.
    repeat split; [congruence|done..].
Qed.

End Order.

Lemma templates_tried_in_order_witness :
  lookup_dn Scenario.full = false
  ∧ ∃ u failed rest tr_last,
      bind_dn_template Scenario.full = failed.*1.*1 ++ rest
      ∧ Forall (λ x, Sample.str_format x.1.1
                       [("username", Sample.escape_rdn u)] = inr x.1.2
                     ∧ failed_attempt x.1.2 x.2
                     ∧ @logged_attempt Sample.externals u x.1.2 x.2) failed
      ∧ calls_at AtUserBind
          (trace_of (Sample.server Scenario.alice_in_b) tt
             (Scenario.authenticate Scenario.full Scenario.alice))
        = List.concat failed.*2 ++ tr_last.
Proof.
  split; [reflexivity|].
  destruct (@templates_tried_in_order Sample.externals Scenario.full
              Scenario.alice unit (Sample.server Scenario.alice_in_b) tt
              (or_introl eq_refl))
    as (u & failed & rest & tr_last & _ & Hts & Hfailed & Hcalls & _).
  exists u, failed, rest, tr_last.
  split; [exact Hts|]. split; [exact Hfailed|exact Hcalls].
Defined.

(** ** What the validator stores *)

(** X19: whatever is assigned to [bind_dn_template], the list that the
    validator stores has no empty string in it, and nothing but the
    string that was assigned: it has at most one element. *)
Theorem validated_templates (p : proposal) :
  ("" ∉ _validate_bind_dn_template p)
  ∧ (∀ template, template ∈ _validate_bind_dn_template p
                 → p = ProposedStr template)
  ∧ (List.length (_validate_bind_dn_template p) ≤ 1)%nat.
Proof.
  destruct p as [value|value].
  - rewrite validate_single_string.
    destruct value as [|c value]; simpl.
    + split; [by intros ?%elem_of_nil|].
      split; [by intros t ?%elem_of_nil|lia].
    + split; [by intros [?|?%elem_of_nil]%elem_of_cons|].
      split; [|lia].
      intros t [->|?%elem_of_nil]%elem_of_cons; done.
  - change (_validate_bind_dn_template (ProposedList value)) with (@nil string).
    split; [by intros ?%elem_of_nil|].
    split; [by intros t ?%elem_of_nil|simpl; lia].
Qed.

(** ** Exceptions outside the bind loop *)

Lemma uncaught_bind {A B} (caught : site → Prop) (m : prog A) (f : A → prog B) :
  uncaught caught m → (∀ a, uncaught caught (f a)) → uncaught caught (m ≫= f).
Proof.
  unfold mbind, prog_mbind.
  induction 1 as [a|e|s rq k Hs Hk IH|s c k Hs Hk IH|s c rq k Hs Hk IH];
    intros Hf; simpl; [done|constructor|constructor..]; auto;
    intros; rewrite Hs; done.
Qed.

Lemma uncaught_lift {A} (caught : site → Prop) (x : exn + A) :
  uncaught caught (lift x).
Proof. destruct x; constructor. Qed.

Lemma uncaught_Connection (caught : site → Prop) s rq :
  uncaught caught (ldap3_Connection s rq).
Proof. constructor; [done|]. intros; apply uncaught_lift. Qed.

Lemma uncaught_conn_bind (caught : site → Prop) s c :
  uncaught caught (conn_bind s c).
Proof. constructor; [done|]. intros; apply uncaught_lift. Qed.

Lemma uncaught_conn_search (caught : site → Prop) s c rq :
  uncaught caught (conn_search s c rq).
Proof. constructor; [done|]. intros; apply uncaught_lift. Qed.

Lemma uncaught_attempt_Connection (caught : site → Prop) s rq :
  caught s → uncaught caught (attempt (ldap3_Connection s rq)).
Proof.
  intros Hs. simpl. constructor; [done|]. intros [e|c]; constructor.
Qed.

(** A call that raises ends the program with its exception, unless it
    is a connection from a site where it may be caught. *)
Lemma uncaught_runs {A} (caught : site → Prop) (p : prog A) tr r e ev :
  uncaught caught p → runs p tr r →
  ev ∈ tr → raised_by e ev → ¬ caught (ev_site ev) →
  r = Raised e ∧ last tr = Some ev.
Proof.
  intros Hp Hr. revert Hp.
  induction Hr as [a|e'|s rq k ans tr r Hr IH|s c k ans tr r Hr IH
                  |s c rq k ans tr r Hr IH];
    intros Hp Hin Hraised Hsite.
  - by apply elem_of_nil in Hin.
  - by apply elem_of_nil in Hin.
  - inversion Hp as [| |? ? ? Hk Hrest| |]; subst.
    apply elem_of_cons in Hin as [->|Hin].
    + destruct ans as [exc|?]; [|done]. simpl in *. subst exc.
      rewrite (Hk Hsite e) in Hr. by apply runs_Raise_inv in Hr as [-> ->].
    + destruct (IH (Hrest ans) Hin Hraised Hsite) as [-> Hlast].
      split; [done|]. destruct tr; [by apply elem_of_nil in Hin|done].
  - inversion Hp as [| | |? ? ? Hk Hrest|]; subst.
    apply elem_of_cons in Hin as [->|Hin].
    + destruct ans as [exc|?]; [|done]. simpl in *. subst exc.
      rewrite (Hk e) in Hr. by apply runs_Raise_inv in Hr as [-> ->].
    + destruct (IH (Hrest ans) Hin Hraised Hsite) as [-> Hlast].
      split; [done|]. destruct tr; [by apply elem_of_nil in Hin|done].
  - inversion Hp as [| | | |? ? ? ? Hk Hrest]; subst.
    apply elem_of_cons in Hin as [->|Hin].
    + destruct ans as [exc|?]; [|done]. simpl in *. subst exc.
      rewrite (Hk e) in Hr. by apply runs_Raise_inv in Hr as [-> ->].
    + destruct (IH (Hrest ans) Hin Hraised Hsite) as [-> Hlast].
      split; [done|]. destruct tr; [by apply elem_of_nil in Hin|done].
Qed.

Section Uncaught.
Context `{Externals}.

Lemma get_connection_uncaught self s userdn password :
  uncaught (λ s, s = AtUserBind) (get_connection self s userdn password).
Proof.
  unfold get_connection.
  destruct (tls_strategy self); apply uncaught_Connection.
Qed.

Lemma resolve_username_uncaught self u :
  uncaught (λ s, s = AtUserBind) (resolve_username self u).
Proof.
  unfold resolve_username.
  apply uncaught_bind; [apply get_connection_uncaught|intros conn].
  apply uncaught_bind; [apply uncaught_conn_bind|intros b].
  destruct (negb b); [constructor|].
  apply uncaught_bind; [apply uncaught_lift|intros template].
  apply uncaught_bind; [apply uncaught_lift|intros f].
  apply uncaught_bind; [apply uncaught_conn_search|intros res].
  unfold resolve_response.
  destruct (response res) as [|first ?]; [constructor|].
  destruct (entry_attributes first); [|constructor].
  apply uncaught_bind; [apply uncaught_lift|].
  intros [user_dn|[|user_dn ?]]; [|constructor|];
    (apply uncaught_bind; [apply uncaught_lift|intros; constructor]).
Qed.

Lemma bind_loop_uncaught self u pw ts :
  uncaught (λ s, s = AtUserBind) (bind_loop self u pw ts).
Proof.
  induction ts as [|dn rest IH]; simpl; [constructor|].
  apply uncaught_bind; [apply uncaught_lift|intros userdn].
  apply uncaught_bind.
  { unfold get_connection.
    destruct (tls_strategy self); by apply uncaught_attempt_Connection. }
  intros [exc|conn].
  - destruct (is_LDAPBindError exc); [|constructor].
    by apply uncaught_bind; [apply uncaught_lift|].
  - apply uncaught_bind.
    + destruct (conn_bound conn); [constructor|apply uncaught_conn_bind].
    + intros b. apply uncaught_bind; [apply uncaught_lift|intros _].
      destruct b; [constructor|done].
Qed.

Lemma get_user_attributes_uncaught self conn userdn :
  uncaught (λ s, s = AtUserBind) (get_user_attributes self conn userdn).
Proof.
  unfold get_user_attributes.
  destruct (Py.nonempty _); [|constructor].
  apply uncaught_bind; [apply uncaught_conn_search|intros res].
  destruct (found res); [apply uncaught_lift|constructor].
Qed.

Lemma probe_groups_uncaught self conn userdn u groups :
  uncaught (λ s, s = AtUserBind) (probe_groups self conn userdn u groups).
Proof.
  induction groups as [|g rest IH]; [constructor|].
  rewrite probe_groups_cons.
  apply uncaught_bind; [apply uncaught_lift|intros f].
  apply uncaught_bind; [apply uncaught_conn_search|intros res].
  destruct (found res); [constructor|done].
Qed.

Lemma authenticate_finish_uncaught self data u conn userdn gs :
  uncaught (λ s, s = AtUserBind) (authenticate_finish self data u conn userdn gs).
Proof.
  unfold authenticate_finish.
  apply uncaught_bind; [apply get_user_attributes_uncaught|].
  intros; constructor.
Qed.

Lemma authenticate_groups_uncaught self data u conn userdn :
  uncaught (λ s, s = AtUserBind) (authenticate_groups self data u conn userdn).
Proof.
  unfold authenticate_groups.
  destruct (Py.nonempty _); [|apply authenticate_finish_uncaught].
  destruct (_ || _); [constructor|].
  apply uncaught_bind; [apply probe_groups_uncaught|].
  intros; apply authenticate_finish_uncaught.
Qed.

Lemma authenticate_bound_uncaught self data u conn userdn :
  uncaught (λ s, s = AtUserBind) (authenticate_bound self data u conn userdn).
Proof.
  unfold authenticate_bound.
  destruct (Py.truthy _); [|apply authenticate_groups_uncaught].
  apply uncaught_bind; [apply uncaught_lift|intros f].
  apply uncaught_bind; [apply uncaught_conn_search|intros res].
  destruct (Nat.eqb _ _); [constructor|].
  destruct (Nat.ltb _ _); [constructor|apply authenticate_groups_uncaught].
Qed.

Lemma authenticate_candidates_uncaught self data u pw ts :
  uncaught (λ s, s = AtUserBind) (authenticate_candidates self data u pw ts).
Proof.
  unfold authenticate_candidates.
  apply uncaught_bind; [apply bind_loop_uncaught|].
  intros [[conn userdn]|]; [apply authenticate_bound_uncaught|constructor].
Qed.

Lemma authenticate_uncaught self data :
  uncaught (λ s, s = AtUserBind) (authenticate self data).
Proof.
  unfold authenticate.
  destruct (negb (re_match _ _)); [constructor|].
  destruct (data_password data) as [pw|]; [|constructor].
  destruct (negb (Py.truthy (Py.strip pw))); [constructor|].
  destruct (negb (lookup_dn self) && _); [constructor|].
  destruct (lookup_dn self); [|apply authenticate_candidates_uncaught].
  apply uncaught_bind; [apply resolve_username_uncaught|].
  intros [[u|] d]; [|constructor].
  destruct (negb (Py.truthy u)); [constructor|].
  destruct (negb (Py.nonempty _)); [|apply authenticate_candidates_uncaught].
  apply uncaught_bind; [apply uncaught_lift|intros dn].
  apply authenticate_candidates_uncaught.
Qed.

(** X20: outside the bind loop no exception of the directory is
    handled.  When the connection, the [bind()] or the search of the
    lookup raises, [LDAPBindError] included, or the search for the
    search filter, a group probe or the fetch of the user attributes
    raises, [authenticate] ends with that exception, and that call is
    its last. *)
Theorem directory_errors_propagate self data W (h : handler W) (w : W) e ev :
  ev ∈ trace_of h w (authenticate self data) →
  raised_by e ev → ev_site ev ≠ AtUserBind →
  result_of h w (authenticate self data) = Raised e
  ∧ last (trace_of h w (authenticate self data)) = Some ev.
Proof.
  intros Hin Hraised Hsite.
  exact (uncaught_runs _ _ _ _ _ _ (authenticate_uncaught self data)
           (run_runs h w (authenticate self data)) Hin Hraised Hsite).
Qed.

End Uncaught.

Lemma directory_errors_propagate_witness :
  Cases.lookup_refused
    ∈ trace_of (Sample.server Cases.no_anonymous) tt
        (Scenario.authenticate Scenario.with_lookup Scenario.alice)
  ∧ result_of (Sample.server Cases.no_anonymous) tt
      (Scenario.authenticate Scenario.with_lookup Scenario.alice)
    = Raised Sample.bind_failure.
Proof.
  split; [in_trace|].
  refine (proj1 (@directory_errors_propagate Sample.externals
                   Scenario.with_lookup Scenario.alice unit
                   (Sample.server Cases.no_anonymous) tt Sample.bind_failure
                   Cases.lookup_refused _ _ _)).
  - in_trace.
  - reflexivity.
  - discriminate.
Defined.

(** ** The number of calls *)

Section Counts.
Context `{Externals}.
Local Open Scope nat_scope.

Lemma calls_at_length s tr : List.length (calls_at s tr) ≤ List.length tr.
Proof. apply length_filter. Qed.

(** The calls of a phase that calls from [s0] only, at most [n] times. *)
Lemma phase_count s s0 n tr :
  Forall (λ ev, ev_site ev = s0) tr → List.length tr ≤ n →
  List.length (calls_at s tr) ≤ if decide (s = s0) then n else 0.
Proof.
  intros Hsites Hlen. destruct (decide (s = s0)) as [->|Hne].
  - pose proof (calls_at_length s0 tr). lia.
  - by rewrite (calls_at_none s (λ s', s' = s0)).
Qed.

Lemma attempt_length userdn evs :
  failed_attempt userdn evs
  ∨ (∃ conn, successful_attempt userdn conn evs)
  ∨ (∃ e, aborted_attempt userdn e evs) →
  List.length evs ≤ 2.
Proof.
  unfold failed_attempt, successful_attempt, aborted_attempt.
  intros [Ha|[[conn Ha]|[e Ha]]];
    repeat case_match; try done; simplify_eq; simpl; lia.
Qed.

Lemma resolve_username_length self u tr r :
  runs (resolve_username self u) tr r → List.length tr ≤ 3.
Proof.
  unfold resolve_username. intros Hr.
  apply runs_bind_inv in Hr
    as [(e & (rq & ans & -> & _)%runs_get_connection_inv & _)
       |(conn & tr1 & tr2 & (rq & ans & -> & _)%runs_get_connection_inv
         & Hr & ->)]; [simpl; lia|].
  apply runs_bind_inv in Hr
    as [(e & ->%runs_conn_bind_Raised & _)
       |(b & tr3 & tr4 & ->%runs_conn_bind_Returned & Hr & ->)]; [simpl; lia|].
  destruct (negb b); [apply runs_mret_inv in Hr as [-> _]; simpl; lia|].
  apply runs_bind_inv in Hr
    as [(e & [-> _]%runs_lift_Raised & _)
       |(t & tr5 & tr6 & [-> _]%runs_lift_Returned & Hr & ->)]; [simpl; lia|].
  apply runs_bind_inv in Hr
    as [(e & [-> _]%runs_lift_Raised & _)
       |(f & tr7 & tr8 & [-> _]%runs_lift_Returned & Hr & ->)]; [simpl; lia|].
  apply runs_bind_inv in Hr
    as [(e & ->%runs_conn_search_Raised & _)
       |(res & tr9 & tr10 & ->%runs_conn_search_Returned
         & ->%resolve_response_silent & ->)]; simpl; lia.
Qed.

Lemma bind_loop_length self u pw ts tr r :
  runs (bind_loop self u pw ts) tr r → List.length tr ≤ 2 * List.length ts.
Proof.
  revert tr. induction ts as [|dn rest IH]; intros tr Hr.
  { apply runs_mret_inv in Hr as [-> _]. simpl; lia. }
  apply bind_loop_round in Hr
    as [(e & _ & -> & _)
       |(userdn & _ & [(evs & tr' & Hf & _ & -> & Hr)
                      |[(conn & Hs & _)|[(e & Ha & _)|(e & Ha & _)]]])].
  - simpl; lia.
  - rewrite length_app. pose proof (IH _ Hr).
    pose proof (attempt_length userdn evs (or_introl Hf)). simpl. lia.
  - pose proof (attempt_length userdn tr
                  (or_intror (or_introl (ex_intro _ conn Hs)))).
    simpl. lia.
  - pose proof (attempt_length userdn tr
                  (or_intror (or_intror (ex_intro _ e Ha)))).
    simpl. lia.
  - pose proof (attempt_length userdn tr
                  (or_introl (unlogged_attempt_failed _ _ _ _ Ha))).
    simpl. lia.
Qed.

Lemma probe_groups_length self conn userdn u groups tr r :
  runs (probe_groups self conn userdn u groups) tr r →
  List.length tr ≤ List.length groups.
Proof.
  intros (missed & rest & evs & tr_last & -> & Hm%Forall2_length & -> & Hr)
    %probe_groups_spec.
  rewrite !length_app, <- Hm.
  destruct r as [gs|e].
  - destruct Hr as [(-> & -> & _)|(g & rest' & ev & -> & -> & _)]; simpl; lia.
  - destruct Hr as [Hrest [->|(c & rq & ->)]]; destruct rest; simpl; try done; lia.
Qed.

Lemma get_user_attributes_length self conn userdn tr r :
  runs (get_user_attributes self conn userdn) tr r → List.length tr ≤ 1.
Proof.
  unfold get_user_attributes.
  destruct (Py.nonempty _); [|intros [-> _]%runs_mret_inv; simpl; lia].
  intros [(e & ->%runs_conn_search_Raised & _)
         |(res & tr1 & tr2 & ->%runs_conn_search_Returned & Hr & ->)]
    %runs_bind_inv; [simpl; lia|].
  destruct (found res).
  - apply runs_lift_inv in Hr as [-> _]. simpl; lia.
  - apply runs_mret_inv in Hr as [-> _]. simpl; lia.
Qed.

Lemma authenticate_finish_count self data u conn userdn gs tr r s :
  runs (authenticate_finish self data u conn userdn gs) tr r →
  List.length (calls_at s tr) ≤ if decide (s = AtUserAttributes) then 1 else 0.
Proof.
  intros Hr. apply phase_count.
  { exact (calls_from_runs _ _ _ _
             (authenticate_finish_calls _ _ _ _ _ _) Hr). }
  unfold authenticate_finish in Hr.
  apply runs_bind_inv in Hr
    as [(e & ?%get_user_attributes_length & _)
       |(a & tr1 & tr2 & ?%get_user_attributes_length
         & [-> _]%runs_mret_inv & ->)]; [done|].
  by rewrite app_nil_r.
Qed.

Lemma authenticate_groups_count self data u conn userdn tr r s :
  runs (authenticate_groups self data u conn userdn) tr r →
  List.length (calls_at s tr)
  ≤ (if decide (s = AtGroupProbe)
     then List.length (default [] (allowed_groups self)) else 0)
    + (if decide (s = AtUserAttributes) then 1 else 0).
Proof.
  intros Hr. apply authenticate_groups_runs in Hr.
  destruct (Py.nonempty _).
  - destruct (_ || _); [destruct Hr as [-> _]; simpl; lia|].
    destruct Hr as [(e & Hp & _)|(gs & tr1 & tr2 & -> & Hp & Hfin)].
    + pose proof (phase_count s AtGroupProbe _ tr
        (calls_from_runs _ _ _ _ (probe_groups_calls _ _ _ _ _) Hp)
        (probe_groups_length _ _ _ _ _ _ _ Hp)). lia.
    + pose proof (phase_count s AtGroupProbe _ tr1
        (calls_from_runs _ _ _ _ (probe_groups_calls _ _ _ _ _) Hp)
        (probe_groups_length _ _ _ _ _ _ _ Hp)).
      pose proof (authenticate_finish_count _ _ _ _ _ _ _ _ s Hfin).
      rewrite calls_at_app, length_app. lia.
  - pose proof (authenticate_finish_count _ _ _ _ _ _ _ _ s Hr). lia.
Qed.

Lemma authenticate_bound_count self data u conn userdn tr r s :
  runs (authenticate_bound self data u conn userdn) tr r →
  List.length (calls_at s tr)
  ≤ (if decide (s = AtSearchFilter) then 1 else 0)
    + (if decide (s = AtGroupProbe)
       then List.length (default [] (allowed_groups self)) else 0)
    + (if decide (s = AtUserAttributes) then 1 else 0).
Proof.
  intros Hr. apply authenticate_bound_runs in Hr.
  destruct (Py.truthy _).
  2:{ pose proof (authenticate_groups_count _ _ _ _ _ _ _ s Hr). lia. }
  destruct Hr as [(e & _ & -> & _)|(rq & ans & tr' & -> & _ & _ & _ & _ & Hans)];
    [simpl; lia|].
  change (EvSearch AtSearchFilter conn rq ans :: tr')
    with ([EvSearch AtSearchFilter conn rq ans] ++ tr').
  rewrite calls_at_app, length_app.
  pose proof (phase_count s AtSearchFilter 1
                [EvSearch AtSearchFilter conn rq ans]) as Hfirst.
  assert (List.length (calls_at s tr')
          ≤ (if decide (s = AtGroupProbe)
             then List.length (default [] (allowed_groups self)) else 0)
            + (if decide (s = AtUserAttributes) then 1 else 0)) as Hrest.
  { destruct ans as [e|res]; [destruct Hans as [-> _]; simpl; lia|].
    destruct (decide (List.length (response res) = 1));
      [|destruct Hans as [-> _]; simpl; lia].
    exact (authenticate_groups_count _ _ _ _ _ _ _ s Hans). }
  assert (List.length (calls_at s [EvSearch AtSearchFilter conn rq ans])
          ≤ if decide (s = AtSearchFilter) then 1 else 0).
  { apply Hfirst; [by repeat constructor|simpl; lia]. }
  lia.
Qed.

Lemma authenticate_candidates_count self data u pw ts tr r s :
  runs (authenticate_candidates self data u pw ts) tr r →
  List.length (calls_at s tr)
  ≤ (if decide (s = AtUserBind) then 2 * List.length ts else 0)
    + (if decide (s = AtSearchFilter) then 1 else 0)
    + (if decide (s = AtGroupProbe)
       then List.length (default [] (allowed_groups self)) else 0)
    + (if decide (s = AtUserAttributes) then 1 else 0).
Proof.
  intros [(tr1 & tr2 & conn & userdn & -> & Hb & Hpost)
         |[[Hb _]|(e & Hb & _)]]%authenticate_candidates_runs;
    pose proof (phase_count s AtUserBind _ _
      (calls_from_runs _ _ _ _ (bind_loop_calls _ _ _ _) Hb)
      (bind_loop_length _ _ _ _ _ _ Hb)); [|lia..].
  pose proof (authenticate_bound_count _ _ _ _ _ _ _ s Hpost).
  rewrite calls_at_app, length_app. lia.
Qed.

Lemma authenticate_count self data tr r s :
  runs (authenticate self data) tr r →
  List.length (calls_at s tr)
  ≤ (if decide (s = AtLookup) then 3 else 0)
    + (if decide (s = AtUserBind)
       then 2 * (1 `max` List.length (bind_dn_template self)) else 0)
    + (if decide (s = AtSearchFilter) then 1 else 0)
    + (if decide (s = AtGroupProbe)
       then List.length (default [] (allowed_groups self)) else 0)
    + (if decide (s = AtUserAttributes) then 1 else 0).
Proof.
  assert (∀ u pw ts tr' r',
    runs (authenticate_candidates self data u pw ts) tr' r' →
    List.length ts ≤ 1 `max` List.length (bind_dn_template self) →
    List.length (calls_at s tr')
    ≤ (if decide (s = AtUserBind)
       then 2 * (1 `max` List.length (bind_dn_template self)) else 0)
      + (if decide (s = AtSearchFilter) then 1 else 0)
      + (if decide (s = AtGroupProbe)
         then List.length (default [] (allowed_groups self)) else 0)
      + (if decide (s = AtUserAttributes) then 1 else 0)) as Hcandidates.
  { intros u pw ts tr' r' Hr Hts.
    pose proof (authenticate_candidates_count _ _ _ _ _ _ _ s Hr).
    destruct (decide (s = AtUserBind)); lia. }
  intros [[-> ->]|[(pw & _ & _ & Hr)
                  |(_ & pw & tr_lookup & r0 & _ & Hl & Hr)]]%authenticate_runs.
  - simpl. lia.
  - pose proof (Hcandidates _ _ _ _ _ Hr). lia.
  - pose proof (phase_count s AtLookup 3 tr_lookup
      (calls_from_runs _ _ _ _ (resolve_username_calls _ _) Hl)
      (resolve_username_length _ _ _ _ Hl)) as Hlookup.
    destruct r0 as [[[u|] d]|e]; [|destruct Hr as [-> _]; lia..].
    destruct (Py.truthy u); [|destruct Hr as [-> _]; lia].
    destruct (bind_dn_template self) as [|t ts] eqn:Hts.
    + destruct d as [dn|]; [|destruct Hr as [-> _]; lia].
      destruct Hr as (tr_rest & -> & Hr).
      pose proof (Hcandidates _ _ _ _ _ Hr). rewrite calls_at_app, length_app.
      simpl in *. lia.
    + destruct Hr as (tr_rest & -> & Hr).
      pose proof (Hcandidates _ _ _ _ _ Hr). rewrite calls_at_app, length_app.
      simpl in *. lia.
Qed.

(** X21: the calls of one [authenticate] are bounded.  It makes at
    most three calls for the lookup (connection, [bind()], search), at
    most two per template in the bind loop (connection, [bind()]),
    where the looked-up DN counts as one template when none is
    configured, at most one search for the search filter, at most one
    probe per allowed group and at most one search for the user
    attributes. *)
Theorem calls_are_bounded self data W (h : handler W) (w : W) :
  let tr := trace_of h w (authenticate self data) in
  List.length (calls_at AtLookup tr) ≤ 3
  ∧ List.length (calls_at AtUserBind tr)
    ≤ 2 * (1 `max` List.length (bind_dn_template self))
  ∧ List.length (calls_at AtSearchFilter tr) ≤ 1
  ∧ List.length (calls_at AtGroupProbe tr)
    ≤ List.length (default [] (allowed_groups self))
  ∧ List.length (calls_at AtUserAttributes tr) ≤ 1.
Proof.
  intros tr.
  pose proof (run_runs h w (authenticate self data)) as Hrun. fold tr in Hrun.
  pose proof (authenticate_count _ _ _ _ AtLookup Hrun) as H1.
  pose proof (authenticate_count _ _ _ _ AtUserBind Hrun) as H2.
  pose proof (authenticate_count _ _ _ _ AtSearchFilter Hrun) as H3.
  pose proof (authenticate_count _ _ _ _ AtGroupProbe Hrun) as H4.
  pose proof (authenticate_count _ _ _ _ AtUserAttributes Hrun) as H5.
  simpl in H1, H2, H3, H4, H5. repeat split; lia.
Qed.

End Counts.

(** ** A looked-up name that is empty *)

Section EmptyName.
Context `{Externals}.

(** As [authenticate_lookup_event], with what follows a looked-up name
    that is empty. *)
Lemma authenticate_lookup_name self data tr r ev :
  runs (authenticate self data) tr r →
  ev ∈ tr → ev_site ev = AtLookup →
  ∃ tr_lookup r0,
    runs (resolve_username self (data_username data)) tr_lookup r0
    ∧ ev ∈ tr_lookup
    ∧ ∀ u d, r0 = Returned (Some u, d) → Py.truthy u = false →
             tr = tr_lookup ∧ r = Returned None.
Proof.
  intros [[-> ->]|[(pw & _ & _ & Hr)
                  |(_ & pw & tr_lookup & r0 & _ & Hl & Hr)]]%authenticate_runs
    Hin Hsite.
  - by trace_mem Hin.
  - pose proof (Forall_site_elem _ _ _
      (calls_from_runs _ _ _ _ (authenticate_candidates_calls _ _ _ _ _) Hr) Hin)
      as Hsite'. by simpl in Hsite'.
  - exists tr_lookup, r0. split; [done|].
    assert (∀ u tr_rest ts, tr = tr_lookup ++ tr_rest →
              runs (authenticate_candidates self data u pw ts) tr_rest r →
              ev ∈ tr_lookup) as Hrest.
    { intros u tr_rest ts -> Hr'. apply elem_of_app in Hin as [Hin|Hin]; [done|].
      pose proof (Forall_site_elem _ _ _
        (calls_from_runs _ _ _ _ (authenticate_candidates_calls _ _ _ _ _) Hr')
        Hin) as Hsite'. by simpl in Hsite'. }
    destruct r0 as [[[u|] d]|e]; [|by destruct Hr as [-> ->]..].
    destruct (Py.truthy u) eqn:Hu.
    2:{ destruct Hr as [-> ->]. split; [done|]. by intros. }
    split; [|intros u' d' ? ?; simplify_eq; congruence].
    destruct (bind_dn_template self) as [|t ts].
    + destruct d as [dn|]; [|by destruct Hr as [-> _]].
      destruct Hr as (tr_rest & Htr & Hr). by eapply Hrest.
    + destruct Hr as (tr_rest & Htr & Hr). by eapply Hrest.
Qed.

(** X22: when the attribute [lookup_dn_user_dn_attribute] of the first
    entry is the empty string, or a list that starts with it,
    [resolve_username] returns that empty name with the DN of the
    entry, and [authenticate] then returns [None]: no user bind is
    attempted, templates or not. *)
Theorem lookup_empty_name_rejects self data W (h : handler W) (w : W)
    c rq res first rest attrs attr dn :
  EvSearch AtLookup c rq (inr res) ∈ trace_of h w (authenticate self data) →
  response res = first :: rest →
  entry_attributes first = Some attrs →
  lookup_dn_user_dn_attribute self = Some attr →
  attrs !! attr = Some (AttrStr "")
  ∨ (∃ more, attrs !! attr = Some (AttrList ("" :: more))) →
  entry_dn first = Some dn →
  result_of h w (authenticate self data) = Returned None
  ∧ calls_at AtUserBind (trace_of h w (authenticate self data)) = [].
Proof.
  intros Hin Hres Hattrs Hattr Hvalue Hdn.
  pose proof (run_runs h w (authenticate self data)) as Hrun.
  destruct (authenticate_lookup_name _ _ _ _ _ Hrun Hin eq_refl)
    as (tr_lookup & r0 & Hl & Hin' & Hr).
  pose proof (resolve_username_search _ _ _ _ _ _ _ _ Hl Hin') as Hr0.
  pose proof (calls_from_runs _ _ _ _ (resolve_username_calls _ _) Hl) as Hsites.
  unfold resolve_response in Hr0.
  rewrite Hres, Hattrs, Hattr in Hr0. simpl in Hr0.
  assert (r0 = Returned (Some "", Some dn)) as Hname.
  { destruct Hvalue as [Hvalue|[more Hvalue]];
      rewrite Hvalue, Hdn in Hr0; simpl in Hr0;
      by apply runs_Ret_inv in Hr0 as [_ ->]. }
  destruct (Hr _ _ Hname eq_refl) as [-> ->].
  split; [done|]. by apply (calls_at_none _ (λ s, s = AtLookup)).
Qed.

End EmptyName.

Lemma lookup_empty_name_rejects_witness :
  response Cases.unnamed_found
  = [Scenario.entry "uid=alice,ou=b" (AttrStr "")]
  ∧ result_of (Sample.server Cases.alice_unnamed) tt
      (Scenario.authenticate Scenario.with_lookup Scenario.alice)
    = Returned None
  ∧ calls_at AtUserBind
      (trace_of (Sample.server Cases.alice_unnamed) tt
         (Scenario.authenticate Scenario.with_lookup Scenario.alice)) = [].
Proof.
  split; [reflexivity|].
  refine (@lookup_empty_name_rejects Sample.externals
            Scenario.with_lookup Scenario.alice unit
            (Sample.server Cases.alice_unnamed) tt
            Scenario.bound_connection
            (lookup_request Scenario.with_lookup "(uid=alice)")
            Cases.unnamed_found
            (Scenario.entry "uid=alice,ou=b" (AttrStr "")) []
            {["cn" := AttrStr ""]} "cn" "uid=alice,ou=b" _ _ _ _ _ _).
  - in_trace.
  - reflexivity.
  - reflexivity.
  - reflexivity.
  - left. vm_compute. reflexivity.
  - reflexivity.
Defined.
